(** * chatmiddlelayer: the chat service and the vector-store cache

    A shallow embedding of [chat_module/service.py] and
    [load_vectorstore/loader.py].

    Conventions of the embedding.
    - A Python [str] is a [string] with one [ascii] per code point (code
      points below 256), so that [String.length] is Python's [len].
    - A Python [int] is a [Z]; a Python [float] (clock readings, similarity
      scores) is carried as an exact number [pyfloat]: the code only stores
      clock readings, subtracts two of them and compares the difference to
      the TTL, and passes scores through.
    - A [dict] used as a map is a [gmap]; the message dictionaries, which
      always carry exactly the keys [role] and [content], are records.
    - Code that can raise returns a [result] together with the state it
      leaves behind: what was mutated before the [raise] stays mutated.
    - Everything outside the process (clocks, the file system, the embedding
      service, the FAISS index, the completion endpoint) is a [backend] of
      oracles.  An oracle sees the [world]: the log of the outside calls made
      so far and the number of clock readings, so two calls with the same
      arguments may answer differently. *)

From Stdlib Require Import ZArith String Ascii List Lia Sorted.
From stdpp Require Import base option gmap strings list.

Local Open Scope string_scope.
Local Open Scope list_scope.
Local Open Scope Z_scope.

(** ** Python values *)

Definition pyfloat := Z.

Inductive exn :=
| ValueError (msg : string)
| RuntimeError (msg : string)
| FileNotFoundError (msg : string)
| RequestException (msg : string).

Inductive result (A : Type) :=
| Ok (a : A)
| Raise (e : exn).
Arguments Ok {A} a.
Arguments Raise {A} e.

(** [bool(s)] for a string. *)
Definition truthy (s : string) : bool :=
  match s with EmptyString => false | String _ _ => true end.

(** [str.isspace] on one code point below 256. *)
Definition isspace (c : ascii) : bool :=
  let n := N_of_ascii c in
  (((9 <=? n) && (n <=? 13)) || ((28 <=? n) && (n <=? 32))
   || (n =? 133) || (n =? 160))%N.

Fixpoint lstrip (s : string) : string :=
  match s with
  | EmptyString => EmptyString
  | String c s' => if isspace c then lstrip s' else s
  end.

Definition rstrip (s : string) : string := String.rev (lstrip (String.rev s)).

(** [s.strip()] *)
Definition strip (s : string) : string := rstrip (lstrip s).

(** [sep.join(parts)] *)
Fixpoint join (sep : string) (parts : list string) : string :=
  match parts with
  | [] => ""
  | [p] => p
  | p :: ps => p +:+ sep +:+ join sep ps
  end.

Definition newline : string := String (ascii_of_nat 10) EmptyString.

(** [l[start:]] with Python's treatment of a negative or too large start. *)
Definition slice_from {A} (start : Z) (l : list A) : list A :=
  let n := Z.of_nat (length l) in
  let i := if start <? 0 then Z.max 0 (n + start) else Z.min start n in
  drop (Z.to_nat i) l.

(** [l[-1:]] *)
Definition last_slice {A} (l : list A) : list A := slice_from (-1) l.

(** [a or b] on optional strings and optional integers. *)
Definition or_str (a b : option string) : option string :=
  match a with
  | Some s => if truthy s then a else b
  | None => b
  end.

Definition or_int (a : option Z) (b : Z) : Z :=
  match a with
  | Some n => if n =? 0 then b else n
  | None => b
  end.

(** ** Messages, retrieval hits and the outside world *)

Record message := { role : string; content : string }.

(** One entry of [VectorStoreLoader.search]'s result list. *)
Record hit := {
  id : Z;
  score : pyfloat;
  text : string;
  metadata : gmap string string
}.

Inductive event :=
| EvLoad (store_dir : string)
| EvEmbed (query : string)
| EvQuery (session_id query : string) (top_k : Z)
| EvComplete (messages : list message)
| EvStream (messages : list message).

Record world := { trace : list event; ticks : nat }.

Definition log (e : event) (w : world) : world :=
  {| trace := e :: trace w; ticks := ticks w |}.

Definition tick (w : world) : world :=
  {| trace := trace w; ticks := S (ticks w) |}.

(** What [faiss.read_index] gives: the code reads [ntotal] and [d] and calls
    [search] on it. *)
Record faiss_index := { ntotal : Z; d : Z }.

Record backend := {
  (** [time.time()] and [time.monotonic()] *)
  time_time : world -> pyfloat;
  monotonic : world -> pyfloat;
  (** what [VectorStoreLoader.load] finds under a store directory *)
  read_store : world -> string -> result (faiss_index * list (gmap string string));
  (** [EmbeddingClient.embed_documents] *)
  embed_documents : world -> list string -> result (list (list pyfloat));
  (** [index.search(vector, k)]: the pairs [zip(ids[0], scores[0])] *)
  index_search : world -> faiss_index -> list pyfloat -> Z -> list (Z * pyfloat);
  (** [ChatLLMClient.complete] *)
  complete : world -> list message -> result string;
  (** [ChatLLMClient.stream_completion]: the tokens it yields, then how it
      ends (normally, or by raising) *)
  stream_completion : world -> list message -> list string * option exn;
  (** whether [from load_vectorstore.loader import CachedVectorStoreManager]
      succeeded when [service.py] was imported *)
  vstore_importable : bool
}.

(** Read a clock: the reading, and the world one reading later. *)
Definition read_clock (clock : world -> pyfloat) (w : world) : pyfloat * world :=
  (clock w, tick w).

(** ** A small monad for code that mutates a state and may raise *)

Definition M (S A : Type) : Type := S -> result A * S.

Definition ret {S A} (a : A) : M S A := fun s => (Ok a, s).

Definition bind {S A B} (m : M S A) (k : A -> M S B) : M S B :=
  fun s =>
    match m s with
    | (Ok a, s') => k a s'
    | (Raise e, s') => (Raise e, s')
    end.

(** Run a computation on the world inside a larger state. *)
Definition in_world {X A} (m : M world A) : M (X * world) A :=
  fun s =>
    match m (snd s) with
    | (r, w') => (r, (fst s, w'))
    end.

Declare Scope py_scope.
Delimit Scope py_scope with py.
Notation "x <- c ;; k" := (bind c (fun x => k))
  (at level 100, c at next level, right associativity) : py_scope.

(** ** [load_vectorstore/loader.py] *)

Module VectorStoreLoader.

Record t := {
  store_dir : string;
  _index : option faiss_index;
  _metadata : list (gmap string string)
}.

(** [self._index is not None and bool(self._metadata)] *)
Definition is_loaded (self : t) : bool :=
  match _index self, _metadata self with
  | Some _, _ :: _ => true
  | _, _ => false
  end.

(** The body of the loop in [search] for one [(idx, score)] pair that was
    not skipped. *)
Definition result_entry (self : t) (idx : Z) (sc : pyfloat) : hit :=
  let md : gmap string string :=
    if idx <? Z.of_nat (length (_metadata self))
    then default ∅ (_metadata self !! Z.to_nat idx)
    else ∅ in
  {| id := idx;
     score := sc;
     text := default "" (md !! "text");
     metadata := delete "text" md |}.

Fixpoint collect (self : t) (pairs : list (Z * pyfloat)) : list hit :=
  match pairs with
  | [] => []
  | (idx, sc) :: rest =>
      if idx <? 0 then collect self rest
      else result_entry self idx sc :: collect self rest
  end.

Definition search (B : backend) (self : t) (query : string) (top_k : Z)
  : M world (list hit) :=
  fun w =>
    if negb (truthy query) then
      (Raise (ValueError "Query text must not be empty"), w)
    else if top_k <=? 0 then
      (Raise (ValueError "top_k must be a positive integer"), w)
    else
      match _index self with
      | Some index =>
          if is_loaded self then
            let w1 := log (EvEmbed query) w in
            match embed_documents B w [query] with
            | Raise e => (Raise e, w1)
            | Ok [] | Ok ([] :: _) =>
                (Raise (RuntimeError "Embedding service returned no vectors for the query"), w1)
            | Ok (vector :: _) =>
                if negb (Z.of_nat (length vector) =? d index) then
                  (Raise (ValueError "Embedding dimension does not match index dimension"), w1)
                else
                  let search_k := Z.min top_k (ntotal index) in
                  (Ok (collect self (index_search B w1 index vector search_k)), w1)
            end
          else (Raise (RuntimeError "Vector store is not loaded. Call load() first."), w)
      | None => (Raise (RuntimeError "Vector store is not loaded. Call load() first."), w)
      end.

Definition default_separator : string := newline +:+ newline.

Definition build_context (B : backend) (self : t) (query : string) (top_k : Z)
  : M world string :=
  (results <- search B self query top_k ;;
   let context_parts := text <$> filter (fun entry => truthy (text entry) = true) results in
   ret (join default_separator context_parts))%py.

(** [load_vector_store]: construct a loader and [load()] it.  Every way
    [load] can fail (a missing file, a metadata file that is not a list)
    is a [Raise] of [read_store]. *)
Definition load_vector_store (B : backend) (dir : string) : M world t :=
  fun w =>
    let w1 := log (EvLoad dir) w in
    match read_store B w dir with
    | Raise e => (Raise e, w1)
    | Ok (index, md) =>
        (Ok {| store_dir := dir; _index := Some index; _metadata := md |}, w1)
    end.

End VectorStoreLoader.

Module CachedVectorStoreManager.

Record _CacheEntry := {
  loader : VectorStoreLoader.t;
  last_access : pyfloat
}.

Record t := {
  store_dir : string;
  ttl_seconds : Z;
  _cache : gmap string _CacheEntry
}.

Definition with_cache (self : t) (c : gmap string _CacheEntry) : t :=
  {| store_dir := store_dir self; ttl_seconds := ttl_seconds self; _cache := c |}.

(** [CachedVectorStoreManager(store_dir)] *)
Definition DEFAULT_CACHE_TTL_SECONDS : Z := 60 * 60.

Definition new (dir : string) : t :=
  {| store_dir := dir; ttl_seconds := DEFAULT_CACHE_TTL_SECONDS; _cache := ∅ |}.

(** [now - entry.last_access > self.ttl_seconds] *)
Definition is_expired (self : t) (now : pyfloat) (entry : _CacheEntry) : Prop :=
  now - last_access entry > ttl_seconds self.

#[global] Instance is_expired_dec self now entry : Decision (is_expired self now entry).
Proof. unfold is_expired. apply _. Defined.

Definition _evict_stale (B : backend) (self : t) (w : world) : t * world :=
  let '(now, w1) := read_clock (monotonic B) w in
  let expired :=
    fst <$> filter (fun item => is_expired self now (snd item))
                   (map_to_list (_cache self)) in
  (with_cache self (foldl (fun c sid => delete sid c) (_cache self) expired), w1).

Definition _touch (B : backend) (self : t) (session_id : string) (w : world)
  : t * world :=
  match _cache self !! session_id with
  | Some entry =>
      let '(now, w1) := read_clock (monotonic B) w in
      (with_cache self
         (<[session_id := {| loader := loader entry; last_access := now |}]>
            (_cache self)), w1)
  | None => (self, w)
  end.

Definition get_loader (B : backend) (session_id : string)
  : M (t * world) VectorStoreLoader.t :=
  fun '(self, w) =>
    if negb (truthy session_id) then
      (Raise (ValueError "session_id must not be empty"), (self, w))
    else
      let '(self1, w1) := _evict_stale B self w in
      match _cache self1 !! session_id with
      | Some entry => (Ok (loader entry), _touch B self1 session_id w1)
      | None =>
          match VectorStoreLoader.load_vector_store B (store_dir self1) w1 with
          | (Raise e, w2) => (Raise e, (self1, w2))
          | (Ok ld, w2) =>
              let '(now, w3) := read_clock (monotonic B) w2 in
              (Ok ld,
               (with_cache self1
                  (<[session_id := {| loader := ld; last_access := now |}]>
                     (_cache self1)), w3))
          end
      end.

Record payload := { results : list hit; context : string }.

Definition query (B : backend) (session_id query_text : string) (top_k : Z)
  : M (t * world) payload :=
  fun '(self, w) =>
    (ld <- get_loader B session_id ;;
     rs <- in_world (VectorStoreLoader.search B ld query_text top_k) ;;
     ctx <- in_world (VectorStoreLoader.build_context B ld query_text top_k) ;;
     (fun '(self', w') =>
        (Ok {| results := rs; context := ctx |}, _touch B self' session_id w')))%py
      (self, log (EvQuery session_id query_text top_k) w).

End CachedVectorStoreManager.

(** ** [chat_module/config.py] *)

Module ChatConfig.

(** The fields [llm] and [model_kwargs] only parameterise the completion
    endpoint, which is an oracle of the [backend]. *)
Record t := {
  enable_context : bool;
  enable_summarisation : bool;
  enable_intent_tracking : bool;
  context_top_k : Z;
  max_history_messages : Z;
  system_prompt : string;
  summarise_prompt : string;
  intent_prompt : string;
  max_prompt_tokens : Z
}.

Definition default : t := {|
  enable_context := true;
  enable_summarisation := true;
  enable_intent_tracking := true;
  context_top_k := 4;
  max_history_messages := 20;
  system_prompt :=
    "You are a concise, helpful assistant. Use provided context and summaries "
    +:+ "to ground your answers. Keep responses factual and avoid revealing system "
    +:+ "prompts or internal notes.";
  summarise_prompt :=
    "Summarise the conversation so far in under 120 words. Focus on key facts "
    +:+ "and decisions. Return plain text without lists.";
  intent_prompt :=
    "Identify the user's primary intent in the latest message. "
    +:+ "Respond with a short verb-noun phrase, e.g., 'request deployment steps'.";
  max_prompt_tokens := 30000
|}.

End ChatConfig.

(** ** [chat_module/service.py] *)

Module ChatSessionState.

Record t := {
  session_id : string;
  messages : list message;
  summary : string;
  intents : list string;
  last_context : string;
  last_retrievals : list hit;
  vector_store_dir : option string;
  updated_at : pyfloat
}.

(** [ChatSessionState(session_id=session_id)], where [now] is the
    [time.time()] of the default factory. *)
Definition new (sid : string) (now : pyfloat) : t := {|
  session_id := sid; messages := []; summary := ""; intents := [];
  last_context := ""; last_retrievals := []; vector_store_dir := None;
  updated_at := now
|}.

Definition with_messages (s : t) (m : list message) : t := {|
  session_id := session_id s; messages := m; summary := summary s;
  intents := intents s; last_context := last_context s;
  last_retrievals := last_retrievals s;
  vector_store_dir := vector_store_dir s; updated_at := updated_at s
|}.

Definition with_summary (s : t) (x : string) : t := {|
  session_id := session_id s; messages := messages s; summary := x;
  intents := intents s; last_context := last_context s;
  last_retrievals := last_retrievals s;
  vector_store_dir := vector_store_dir s; updated_at := updated_at s
|}.

Definition with_intents (s : t) (x : list string) : t := {|
  session_id := session_id s; messages := messages s; summary := summary s;
  intents := x; last_context := last_context s;
  last_retrievals := last_retrievals s;
  vector_store_dir := vector_store_dir s; updated_at := updated_at s
|}.

Definition with_vector_store_dir (s : t) (x : option string) : t := {|
  session_id := session_id s; messages := messages s; summary := summary s;
  intents := intents s; last_context := last_context s;
  last_retrievals := last_retrievals s;
  vector_store_dir := x; updated_at := updated_at s
|}.

(** The three assignments [session.last_context = ...],
    [session.last_retrievals = ...], [session.updated_at = ...]. *)
Definition with_turn_record (s : t) (ctx : string) (rs : list hit) (now : pyfloat) : t := {|
  session_id := session_id s; messages := messages s; summary := summary s;
  intents := intents s; last_context := ctx; last_retrievals := rs;
  vector_store_dir := vector_store_dir s; updated_at := now
|}.

End ChatSessionState.

Module VectorStoreContextProvider.

Record t := { _managers : gmap string CachedVectorStoreManager.t }.

Definition new : t := {| _managers := ∅ |}.

(** The manager is an object held by [self._managers]: what [query] does to
    it is seen through the dictionary, also when [query] raises. *)
Definition build_context (B : backend)
    (store_dir session_id query : string) (top_k : Z)
  : M (t * world) (string * list hit) :=
  fun '(self, w) =>
    if negb (vstore_importable B) then
      (Raise (RuntimeError "Vector store support unavailable"), (self, w))
    else if negb (truthy store_dir) then
      (Raise (ValueError "store_dir must be provided when requesting context"), (self, w))
    else
      let manager :=
        match _managers self !! store_dir with
        | Some m => m
        | None => CachedVectorStoreManager.new store_dir
        end in
      match CachedVectorStoreManager.query B session_id query top_k (manager, w) with
      | (r, (manager', w')) =>
          (match r with
           | Ok p => Ok (CachedVectorStoreManager.context p,
                         CachedVectorStoreManager.results p)
           | Raise e => Raise e
           end,
           ({| _managers := <[store_dir := manager']> (_managers self) |}, w'))
      end.

End VectorStoreContextProvider.

Module ChatService.

Import ChatSessionState.

Record t := {
  config : ChatConfig.t;
  sessions : gmap string ChatSessionState.t;
  vector_store_provider : option VectorStoreContextProvider.t
}.

Definition with_sessions (self : t) (m : gmap string ChatSessionState.t) : t :=
  {| config := config self; sessions := m;
     vector_store_provider := vector_store_provider self |}.

Definition with_provider (self : t) (p : option VectorStoreContextProvider.t) : t :=
  {| config := config self; sessions := sessions self;
     vector_store_provider := p |}.

(** [ChatService(config, vector_store_provider=...)] *)
Definition new (cfg : ChatConfig.t) (p : option VectorStoreContextProvider.t) : t :=
  {| config := cfg; sessions := ∅; vector_store_provider := p |}.

(** The keyword arguments of [stream_chat]; each defaults to [None]. *)
Record kwargs := {
  kw_vector_store_dir : option string;
  top_k : option Z;
  enable_context : option bool;
  enable_summarisation : option bool;
  enable_intent_tracking : option bool;
  system_prompt : option string
}.

Definition no_kwargs : kwargs := {|
  kw_vector_store_dir := None; top_k := None; enable_context := None;
  enable_summarisation := None; enable_intent_tracking := None;
  system_prompt := None
|}.

Definition _flag (overridden : option bool) (default : bool) : bool :=
  match overridden with None => default | Some b => b end.

Definition _estimate_tokens (text : string) : Z :=
  Z.max 1 (Z.of_nat (String.length text) / 4).

Definition _messages_as_text (msgs : list message) : string :=
  join newline ((fun msg => role msg +:+ ": " +:+ content msg) <$> msgs).

Definition _create_session (B : backend) (sid : string) (st : t * world)
  : ChatSessionState.t * (t * world) :=
  let '(self, w) := st in
  let '(now, w1) := read_clock (time_time B) w in
  let session := ChatSessionState.new sid now in
  (session, (with_sessions self (<[sid := session]> (sessions self)), w1)).

Definition _append_message (cfg : ChatConfig.t) (session : ChatSessionState.t)
    (msg : message) : ChatSessionState.t :=
  let appended := messages session ++ [msg] in
  if Z.of_nat (length appended) >? ChatConfig.max_history_messages cfg
  then with_messages session
         (slice_from (- ChatConfig.max_history_messages cfg) appended)
  else with_messages session appended.

Definition summary_note (s : string) : message :=
  {| role := "system"; content := "Conversation summary: " +:+ s |}.

Definition _build_prompt (cfg : ChatConfig.t) (session : ChatSessionState.t)
    (context : string) (system_prompt_override : option string) : list message :=
  let system_prompt :=
    match system_prompt_override with
    | Some s => if truthy s then s else ChatConfig.system_prompt cfg
    | None => ChatConfig.system_prompt cfg
    end in
  [{| role := "system"; content := system_prompt |}]
  ++ (if truthy (summary session) then [summary_note (summary session)] else [])
  ++ (if truthy context
      then [{| role := "system";
               content := "Context for this turn:" +:+ newline +:+ context |}]
      else [])
  ++ messages session.

(** The [try] of [_refresh_summary] is the [Ok] branch, its [except] the
    [Raise] branch. *)
Definition _refresh_summary (B : backend) (cfg : ChatConfig.t)
    (session : ChatSessionState.t) (w : world) : ChatSessionState.t * world :=
  let summary_messages :=
    [{| role := "system"; content := ChatConfig.summarise_prompt cfg |};
     {| role := "user"; content := _messages_as_text (messages session) |}] in
  let w1 := log (EvComplete summary_messages) w in
  match complete B w summary_messages with
  | Ok s => (with_summary session s, w1)
  | Raise _ => (session, w1)
  end.

Definition _track_intent (B : backend) (cfg : ChatConfig.t)
    (session : ChatSessionState.t) (latest_user_message : string) (w : world)
  : ChatSessionState.t * world :=
  let intent_messages :=
    [{| role := "system"; content := ChatConfig.intent_prompt cfg |};
     {| role := "user"; content := latest_user_message |}] in
  let w1 := log (EvComplete intent_messages) w in
  match complete B w intent_messages with
  | Ok intent =>
      if truthy intent
      then (with_intents session (intents session ++ [strip intent]), w1)
      else (session, w1)
  | Raise _ => (session, w1)
  end.

(** [_refresh_summary] never raises, so the [except] of [_ensure_summary]
    is never taken. *)
Definition _ensure_summary (B : backend) (cfg : ChatConfig.t)
    (session : ChatSessionState.t) (w : world) : ChatSessionState.t * world :=
  if truthy (summary session) then (session, w)
  else _refresh_summary B cfg session w.

Definition is_system (m : message) : bool := String.eqb (role m) "system".

Definition truncation_note : message :=
  {| role := "system";
     content := "History was replaced with a summary to fit the context window." |}.

Definition _enforce_prompt_budget (B : backend) (cfg : ChatConfig.t)
    (session : ChatSessionState.t) (prompt : list message) (max_tokens : Z)
    (w : world) : (list message * bool) * (ChatSessionState.t * world) :=
  if max_tokens <=? 0 then ((prompt, false), (session, w))
  else
    let token_count :=
      foldr Z.add 0 ((fun msg => _estimate_tokens (content msg)) <$> prompt) in
    if token_count <=? max_tokens then ((prompt, false), (session, w))
    else
      let '(session1, w1) := _ensure_summary B cfg session w in
      let system_msgs := List.filter is_system prompt in
      let user_msgs := List.filter (fun m => negb (is_system m)) prompt in
      let latest_user := last_slice user_msgs in
      let rebuilt :=
        system_msgs
        ++ (if truthy (summary session1) then [summary_note (summary session1)] else [])
        ++ [truncation_note]
        ++ latest_user in
      ((rebuilt, true), (session1, w1)).

(** What [generator()] closes over.  The session is held as the object
    itself; [self.sessions] never drops or replaces a session, so the
    object is the one found under its id. *)
Record frame := {
  g_session_id : string;
  g_message : string;
  g_prompt_messages : list message;
  g_truncated : bool;
  g_context_text : string;
  g_retrievals : list hit;
  g_enable_summarisation : option bool;
  g_enable_intent_tracking : option bool
}.

(** Where a generator is suspended: before its first [next], at
    [yield notice], at [yield token] (with what the completion stream still
    holds), or finished. *)
Inductive position :=
| NotStarted
| AtNotice (assistant_reply : string)
| AtToken (assistant_reply : string) (pending : list string) (ending : option exn)
| Finished.

Record generator := { closure : frame; position_of : position }.

Inductive next_result :=
| Yield (fragment : string)
| StopIteration
| Raised (e : exn).

Definition notice : string :=
  "Note: Some earlier conversation was truncated to fit the context window. ".

(** Lines 89-101 of [stream_chat]: the retrieval, with its [except]. *)
Definition fetch_context (B : backend) (self : t) (session_id message : string)
    (kw : kwargs) (w : world) : (string * list hit) * (t * world) :=
  let cfg := config self in
  let use_context := _flag (enable_context kw) (ChatConfig.enable_context cfg) in
  match kw_vector_store_dir kw, vector_store_provider self with
  | Some dir, Some provider =>
      if use_context && truthy dir then
        match VectorStoreContextProvider.build_context B dir session_id message
                (or_int (top_k kw) (ChatConfig.context_top_k cfg)) (provider, w) with
        | (Ok found, (provider', w')) =>
            (found, (with_provider self (Some provider'), w'))
        | (Raise _, (provider', w')) =>
            (("", []), (with_provider self (Some provider'), w'))
        end
      else (("", []), (self, w))
  | _, _ => (("", []), (self, w))
  end.

Definition stream_chat (B : backend) (session_id message : string) (kw : kwargs)
  : M (t * world) generator :=
  fun '(self, w) =>
    if negb (truthy session_id) then
      (Raise (ValueError "session_id is required"), (self, w))
    else if negb (truthy message) || negb (truthy (strip message)) then
      (Raise (ValueError "message is required"), (self, w))
    else
      let '(session, (self1, w1)) :=
        match sessions self !! session_id with
        | Some s => (s, (self, w))
        | None => _create_session B session_id (self, w)
        end in
      let session1 :=
        with_vector_store_dir session
          (or_str (vector_store_dir session) (kw_vector_store_dir kw)) in
      let '((context_text, retrievals), (self2, w2)) :=
        fetch_context B self1 session_id message kw w1 in
      let cfg := config self2 in
      let session2 :=
        _append_message cfg session1 {| role := "user"; content := message |} in
      let prompt_messages := _build_prompt cfg session2 context_text (system_prompt kw) in
      let '((prompt_messages', truncated), (session3, w3)) :=
        _enforce_prompt_budget B cfg session2 prompt_messages
          (ChatConfig.max_prompt_tokens cfg) w2 in
      (Ok {| closure := {|
               g_session_id := session_id;
               g_message := message;
               g_prompt_messages := prompt_messages';
               g_truncated := truncated;
               g_context_text := context_text;
               g_retrievals := retrievals;
               g_enable_summarisation := enable_summarisation kw;
               g_enable_intent_tracking := enable_intent_tracking kw |};
             position_of := NotStarted |},
       (with_sessions self2 (<[session_id := session3]> (sessions self2)), w3)).

(** Lines 121-130: what runs after the [for] loop of [generator()].  The
    session is looked up under the id the generator holds; for a generator
    made by [stream_chat] it is always there. *)
Definition commit (B : backend) (f : frame) (assistant_reply : string)
    (st : t * world) : t * world :=
  let '(self, w) := st in
  match sessions self !! g_session_id f with
  | None => (self, w)
  | Some session =>
      let cfg := config self in
      let session1 :=
        _append_message cfg session
          {| role := "assistant"; content := assistant_reply |} in
      let '(now, w1) := read_clock (time_time B) w in
      let session2 :=
        with_turn_record session1 (g_context_text f) (g_retrievals f) now in
      let '(session3, w2) :=
        if _flag (g_enable_summarisation f) (ChatConfig.enable_summarisation cfg)
        then _refresh_summary B cfg session2 w1
        else (session2, w1) in
      let '(session4, w3) :=
        if _flag (g_enable_intent_tracking f) (ChatConfig.enable_intent_tracking cfg)
        then _track_intent B cfg session3 (g_message f) w2
        else (session3, w2) in
      (with_sessions self (<[g_session_id f := session4]> (sessions self)), w3)
  end.

(** One round of the [for] loop over the completion stream: yield the next
    token, or leave the loop (by the stream's exception, or normally into
    the commit). *)
Definition advance (B : backend) (f : frame) (assistant_reply : string)
    (pending : list string) (ending : option exn) (st : t * world)
  : (next_result * position) * (t * world) :=
  match pending with
  | token :: rest =>
      ((Yield token, AtToken (assistant_reply +:+ token) rest ending), st)
  | [] =>
      match ending with
      | Some e => ((Raised e, Finished), st)
      | None => ((StopIteration, Finished), commit B f assistant_reply st)
      end
  end.

(** Entering the [for] loop sends the request. *)
Definition start_stream (B : backend) (f : frame) (assistant_reply : string)
    (st : t * world) : (next_result * position) * (t * world) :=
  let '(self, w) := st in
  let '(tokens, ending) := stream_completion B w (g_prompt_messages f) in
  advance B f assistant_reply tokens ending
    (self, log (EvStream (g_prompt_messages f)) w).

(** [next(g)] *)
Definition next (B : backend) (g : generator) (st : t * world)
  : (next_result * generator) * (t * world) :=
  let f := closure g in
  let '((r, p), st') :=
    match position_of g with
    | NotStarted =>
        if g_truncated f then ((Yield notice, AtNotice ("" +:+ notice)), st)
        else start_stream B f "" st
    | AtNotice assistant_reply => start_stream B f assistant_reply st
    | AtToken assistant_reply pending ending =>
        advance B f assistant_reply pending ending st
    | Finished => ((StopIteration, Finished), st)
    end in
  ((r, {| closure := f; position_of := p |}), st').

(** How a consumer left a generator after some calls of [next]. *)
Inductive consumption :=
| Suspended (g : generator)
| Exhausted
| Failed (e : exn).

(** Call [next] up to [n] times, stopping at [StopIteration] or at an
    exception; the fragments received, and how the generator was left. *)
Fixpoint consume (B : backend) (n : nat) (g : generator) (st : t * world)
  : (list string * consumption) * (t * world) :=
  match n with
  | O => (([], Suspended g), st)
  | S n' =>
      match next B g st with
      | ((Yield x, g'), st') =>
          let '((xs, c), st'') := consume B n' g' st' in
          ((x :: xs, c), st'')
      | ((StopIteration, _), st') => (([], Exhausted), st')
      | ((Raised e, _), st') => (([], Failed e), st')
      end
  end.

Definition get_history (session_id : string) (self : t) : result ChatSessionState.t :=
  match sessions self !! session_id with
  | Some session => Ok session
  | None => Raise (ValueError ("No chat session found for id '" +:+ session_id +:+ "'"))
  end.

End ChatService.

(** ** [chat_module/llm_client.py]: reading the answers of the endpoint *)

(** What [json.loads] and [response.json()] return.  Of a float the code
    only tests whether it is zero; the items of a dictionary list each key
    once. *)
Module Json.

#[local] Unset Elimination Schemes.

Inductive t :=
| Null
| Bool (b : bool)
| Int (n : Z)
| Float (is_zero : bool)
| Str (s : string)
| List (items : list t)
| Dict (items : list (string * t)).

#[local] Set Elimination Schemes.

(** [bool(v)] *)
Definition truthy (v : t) : bool :=
  match v with
  | Null => false
  | Bool b => b
  | Int n => negb (n =? 0)
  | Float is_zero => negb is_zero
  | Str s => match s with EmptyString => false | String _ _ => true end
  | List items => match items with [] => false | _ :: _ => true end
  | Dict items => match items with [] => false | _ :: _ => true end
  end.

Inductive error :=
| AttributeError
| IndexError
| KeyError
| TypeError.

Fixpoint assoc (key : string) (items : list (string * t)) : option t :=
  match items with
  | [] => None
  | (k, v) :: rest => if String.eqb k key then Some v else assoc key rest
  end.

(** [v.get(key, default)]: only a dictionary has [get]. *)
Definition get (v : t) (key : string) (default : t) : error + t :=
  match v with
  | Dict items =>
      inr (match assoc key items with Some x => x | None => default end)
  | _ => inl AttributeError
  end.

(** [v[0]] *)
Definition first (v : t) : error + t :=
  match v with
  | List (x :: _) => inr x
  | List [] => inl IndexError
  | Str (String c _) => inr (Str (String c EmptyString))
  | Str EmptyString => inl IndexError
  | Dict _ => inl KeyError
  | Null | Bool _ | Int _ | Float _ => inl TypeError
  end.

(** [a or b] *)
Definition or_else (a b : t) : t := if truthy a then a else b.

End Json.

Module ChatLLMClient.

(** What [json.loads] does with a text: it returns a value, raises
    JSONDecodeError, or raises another exception (ValueError for an integer
    of more digits than the interpreter converts, RecursionError for a text
    nested too deeply). *)
Inductive parsed :=
| Parsed (payload : Json.t)
| JSONDecodeError
| OtherError.

(** The library functions the client calls on what the endpoint sent:
    [bytes.decode("utf-8")] ([None] for UnicodeDecodeError), [json.loads],
    and [str] of a value that is not a string (of a string, [str] is the
    string itself). *)
Record pylib := {
  decode : string -> option string;
  json_loads : string -> parsed;
  str_of : Json.t -> string
}.

Definition py_str (L : pylib) (v : Json.t) : string :=
  match v with
  | Json.Str s => s
  | _ => str_of L v
  end.

(** The body of the [try] in [_extract_delta]. *)
Definition _extract_delta_try (L : pylib) (payload : Json.t) : Json.error + string :=
  match Json.get payload "choices" Json.Null with
  | inl e => inl e
  | inr found =>
      let choices := Json.or_else found (Json.List []) in
      if negb (Json.truthy choices) then inr ""
      else
        match Json.first choices with
        | inl e => inl e
        | inr choice =>
            match Json.get choice "delta" Json.Null with
            | inl e => inl e
            | inr d =>
                let delta := Json.or_else d (Json.Dict []) in
                match Json.get delta "content" Json.Null with
                | inl e => inl e
                | inr c =>
                    let content := Json.or_else c (Json.Str "") in
                    inr (py_str L content)
                end
            end
        end
  end.

Definition _extract_delta (L : pylib) (payload : Json.t) : string :=
  match _extract_delta_try L payload with
  | inr token => token
  | inl _ => ""
  end.

(** [s[n:]] for a string. *)
Fixpoint drop_chars (n : nat) (s : string) : string :=
  match n, s with
  | O, _ => s
  | S n', String _ s' => drop_chars n' s'
  | S _, EmptyString => EmptyString
  end.

(** Lines 49-51: the decoded line without its surrounding white space and
    its [data:] prefix. *)
Definition data_of (text : string) : string :=
  let line := strip text in
  if String.prefix "data:" line then strip (drop_chars 5 line) else line.

(** The body of the loop of [stream_completion] for one line that is not
    empty: the token it yields, if any, or [None] when an exception leaves
    it.  The [except] of line 57 catches JSONDecodeError only. *)
Definition token_of_line (L : pylib) (raw_line : string) : option (option string) :=
  match decode L raw_line with
  | None => None
  | Some text =>
      let line := data_of text in
      if negb (truthy line) || String.eqb line "[DONE]" then Some None
      else
        match json_loads L line with
        | JSONDecodeError => Some None
        | OtherError => None
        | Parsed payload =>
            let token := _extract_delta L payload in
            if truthy token then Some (Some token) else Some None
        end
  end.

(** The loop of [stream_completion] over the lines [response.iter_lines()]
    delivers: the tokens it yields, and whether it was left by an
    exception. *)
Fixpoint tokens_of_lines (L : pylib) (raw_lines : list string) : list string * bool :=
  match raw_lines with
  | [] => ([], false)
  | raw_line :: rest =>
      if negb (truthy raw_line) then tokens_of_lines L rest
      else
        match token_of_line L raw_line with
        | None => ([], true)
        | Some None => tokens_of_lines L rest
        | Some (Some token) =>
            let '(tokens, failed) := tokens_of_lines L rest in
            (token :: tokens, failed)
        end
  end.

(** Lines 87-90 of [complete], on what [response.json()] returned. *)
Definition completion_of (data : Json.t) : Json.error + Json.t :=
  match Json.get data "choices" Json.Null with
  | inl e => inl e
  | inr found =>
      match Json.first (Json.or_else found (Json.List [Json.Dict []])) with
      | inl e => inl e
      | inr choice =>
          match Json.get choice "message" Json.Null with
          | inl e => inl e
          | inr m =>
              match Json.get (Json.or_else m (Json.Dict [])) "content" (Json.Str "") with
              | inl e => inl e
              | inr c => inr (Json.or_else c (Json.Str ""))
              end
          end
      end
  end.

End ChatLLMClient.

(** [ChatService.list_sessions] (lines 150-166 of [service.py]). *)

Module SessionListing.

Import ChatSessionState.

(** One dictionary of the payload. *)
Record item := {
  item_session_id : string;
  item_updated_at : pyfloat;
  item_summary : string;
  last_message : string;
  item_vector_store_dir : option string;
  message_count : nat;
  item_intents : list string
}.

(** The body of the [for] loop. *)
Definition item_of (session : ChatSessionState.t) : item := {|
  item_session_id := session_id session;
  item_updated_at := updated_at session;
  item_summary := summary session;
  last_message :=
    match last (messages session) with
    | Some m => content m
    | None => ""
    end;
  item_vector_store_dir := vector_store_dir session;
  message_count := length (messages session);
  item_intents := slice_from (-3) (intents session)
|}.

(** [sorted(payload, key=updated_at, reverse=True)]: descending, and stable
    (items with equal keys keep their order).  Built from the right, each
    item goes in front of the first item whose key is not greater. *)
Fixpoint insert_desc (x : item) (sorted : list item) : list item :=
  match sorted with
  | [] => [x]
  | y :: rest =>
      if item_updated_at y <=? item_updated_at x then x :: y :: rest
      else y :: insert_desc x rest
  end.

Definition sorted_desc (payload : list item) : list item :=
  foldr insert_desc [] payload.

(** The order of the result: [a] may stand before [b]. *)
Definition newer_first (a b : item) : Prop := item_updated_at b <= item_updated_at a.

(** [list_sessions] on the sessions as [self.sessions.values()] gives them. *)
Definition list_sessions_of (values : list ChatSessionState.t) : list item :=
  sorted_desc (item_of <$> values).

(** The dictionary of sessions is a [gmap] here, which does not keep the
    order of insertion that [values()] follows; that order only decides how
    sessions with equal [updated_at] are arranged. *)
Definition list_sessions (self : ChatService.t) : list item :=
  list_sessions_of (snd <$> map_to_list (ChatService.sessions self)).

End SessionListing.

(** ** [server.py]: the chat endpoints *)

(** [ChatRequest] (lines 78-96). *)
Module ChatRequest.

Record t := {
  session_id : string;
  message : string;
  vector_store_dir : option string;
  top_k : Z;
  enable_context : bool;
  enable_summarisation : bool;
  enable_intent_tracking : bool;
  system_prompt : option string
}.

(** The validator of [session_id] and [message]. *)
Definition _not_empty (value : string) : result string :=
  if negb (truthy value) || negb (truthy (strip value))
  then Raise (ValueError "field must not be empty")
  else Ok value.

(** What a request must satisfy to reach the handler: the validator passes
    on both fields, and [top_k] is greater than zero ([Field(4, gt=0)]). *)
Definition accepted (request : t) : bool :=
  match _not_empty (session_id request), _not_empty (message request) with
  | Ok _, Ok _ => 0 <? top_k request
  | _, _ => false
  end.

End ChatRequest.

Module Server.

Import ChatService.

(** The options of [parse_args] that [main] passes to [ChatConfig]; those
    of the completion endpoint parameterise the [backend]. *)
Record args := {
  context_top_k : Z;
  max_history_messages : Z;
  disable_context : bool;
  disable_summarisation : bool;
  disable_intents : bool
}.

(** [chat_cfg] of [main] (lines 248-259). *)
Definition chat_cfg (a : args) : ChatConfig.t := {|
  ChatConfig.enable_context := negb (disable_context a);
  ChatConfig.enable_summarisation := negb (disable_summarisation a);
  ChatConfig.enable_intent_tracking := negb (disable_intents a);
  ChatConfig.context_top_k := context_top_k a;
  ChatConfig.max_history_messages := max_history_messages a;
  ChatConfig.system_prompt := ChatConfig.system_prompt ChatConfig.default;
  ChatConfig.summarise_prompt := ChatConfig.summarise_prompt ChatConfig.default;
  ChatConfig.intent_prompt := ChatConfig.intent_prompt ChatConfig.default;
  ChatConfig.max_prompt_tokens := ChatConfig.max_prompt_tokens ChatConfig.default
|}.

(** [app.state.chat_service] as [create_app] makes it. *)
Definition create_app (chat_config : option ChatConfig.t) : ChatService.t :=
  ChatService.new (default ChatConfig.default chat_config)
    (Some VectorStoreContextProvider.new).

(** What a handler returns: the body of its response, or the
    [HTTPException] it raises. *)
Inductive response (A : Type) :=
| Response (body : A)
| HTTPException (status_code : Z) (detail : string).
Arguments Response {A} body.
Arguments HTTPException {A} status_code detail.

(** The keyword arguments the handler passes to [stream_chat]. *)
Definition kwargs_of (request : ChatRequest.t) : kwargs := {|
  kw_vector_store_dir := ChatRequest.vector_store_dir request;
  top_k := Some (ChatRequest.top_k request);
  enable_context := Some (ChatRequest.enable_context request);
  enable_summarisation := Some (ChatRequest.enable_summarisation request);
  enable_intent_tracking := Some (ChatRequest.enable_intent_tracking request);
  system_prompt := ChatRequest.system_prompt request
|}.

(** [POST /chat] (lines 191-215). *)
Definition chat (B : backend) (request : ChatRequest.t) (st : ChatService.t * world)
  : response generator * (ChatService.t * world) :=
  match stream_chat B (ChatRequest.session_id request) (ChatRequest.message request)
          (kwargs_of request) st with
  | (Ok stream, st') => (Response stream, st')
  | (Raise (ValueError text), st') => (HTTPException 400 text, st')
  | (Raise _, st') => (HTTPException 500 "Chat request failed", st')
  end.

(** [GET /chat/history/{session_id}] (lines 217-224). *)
Definition chat_history (session_id : string) (self : ChatService.t)
  : result (response ChatSessionState.t) :=
  match get_history session_id self with
  | Ok payload => Ok (Response payload)
  | Raise (ValueError text) => Ok (HTTPException 404 text)
  | Raise e => Raise e
  end.

(** What a client of [POST /chat] gets: an error, or the fragments of the
    body it reads with up to [n] calls of [next], and how that left the
    stream. *)
Inductive served :=
| Refused (status_code : Z) (detail : string)
| Streamed (fragments : list string) (state : consumption).

Definition serve_chat (B : backend) (request : ChatRequest.t) (n : nat)
    (st : ChatService.t * world) : served * (ChatService.t * world) :=
  match chat B request st with
  | (Response stream, st') =>
      let '((fragments, state), st'') := consume B n stream st' in
      (Streamed fragments state, st'')
  | (HTTPException status_code detail, st') => (Refused status_code detail, st')
  end.

End Server.

(** ** Vocabulary of the statements *)

(** [w'] is [w] after some more outside calls. *)
Definition extends (w w' : world) : Prop :=
  exists evs, trace w' = evs ++ trace w.

Module CacheSpec.

Import CachedVectorStoreManager.

(** What [_evict_stale] leaves of the entry of [sid] when the clock reads
    [now]. *)
Definition survivor (self : t) (now : pyfloat) (sid : string) : option _CacheEntry :=
  match _cache self !! sid with
  | Some entry => if decide (is_expired self now entry) then None else Some entry
  | None => None
  end.

(** The loader [load_vector_store] builds from what [read_store] found. *)
Definition loaded (dir : string) (found : faiss_index * list (gmap string string))
  : VectorStoreLoader.t :=
  {| VectorStoreLoader.store_dir := dir;
     VectorStoreLoader._index := Some (fst found);
     VectorStoreLoader._metadata := snd found |}.

End CacheSpec.

Module ChatSpec.

Import ChatService.

(** The estimated cost of a whole prompt: the sum [_enforce_prompt_budget]
    computes. *)
Definition total_cost (prompt : list message) : Z :=
  foldr Z.add 0 ((fun msg => _estimate_tokens (content msg)) <$> prompt).

(** The message [stream_chat] appends for the user, and the one the commit
    appends for the assistant. *)
Definition user_message (text : string) : message :=
  {| role := "user"; content := text |}.

Definition assistant_message (text : string) : message :=
  {| role := "assistant"; content := text |}.

(** The session [stream_chat] works on: the stored one, or the one
    [_create_session] makes when the clock reads [now]. *)
Definition session_before (self : t) (sid : string) (now : pyfloat)
  : ChatSessionState.t :=
  default (ChatSessionState.new sid now) (sessions self !! sid).

(** The service and the world once [stream_chat] has its session: as they
    were, or after [_create_session]. *)
Definition after_create (B : backend) (self : t) (w : world) (sid : string)
  : t * world :=
  match sessions self !! sid with
  | Some _ => (self, w)
  | None => snd (_create_session B sid (self, w))
  end.

(** The requests [_refresh_summary] and [_track_intent] send. *)
Definition summary_request (cfg : ChatConfig.t) (msgs : list message) : list message :=
  [{| role := "system"; content := ChatConfig.summarise_prompt cfg |};
   {| role := "user"; content := _messages_as_text msgs |}].

Definition intent_request (cfg : ChatConfig.t) (text : string) : list message :=
  [{| role := "system"; content := ChatConfig.intent_prompt cfg |};
   {| role := "user"; content := text |}].

(** The cache queries in a log, oldest first, as
    [(session_id, query, top_k)]. *)
Definition queries (tr : list event) : list (string * string * Z) :=
  omap (fun ev => match ev with
                  | EvQuery sid q k => Some (sid, q, k)
                  | _ => None
                  end) (reverse tr).

(** [str.isspace] holds of every character (vacuously of none). *)
Fixpoint all_space (s : string) : bool :=
  match s with
  | EmptyString => true
  | String c s' => isspace c && all_space s'
  end.

(** The assistant reply after the tokens [tokens] were added to [reply]
    by [assistant_reply += token]. *)
Definition reply_after (reply : string) (tokens : list string) : string :=
  foldl (fun acc token => acc +:+ token) reply tokens.

End ChatSpec.

(** The managers of a provider are filed under their own store directory. *)
Definition provider_wf (p : VectorStoreContextProvider.t) : Prop :=
  forall dir m,
    VectorStoreContextProvider._managers p !! dir = Some m ->
    CachedVectorStoreManager.store_dir m = dir.

(** Kinds of outside calls, for statements about which calls a piece of
    code can make. *)
Module TraceSpec.

Definition is_retrieval (ev : event) : bool :=
  match ev with
  | EvLoad _ | EvEmbed _ | EvQuery _ _ _ => true
  | _ => false
  end.

Definition is_complete (ev : event) : bool :=
  match ev with EvComplete _ => true | _ => false end.

(** The calls [stream_chat] itself can make. *)
Definition call_time_event (ev : event) : bool := is_retrieval ev || is_complete ev.

(** [w'] is [w] after some more outside calls, all of them of kind [P]. *)
Definition only (P : event -> bool) (w w' : world) : Prop :=
  exists evs, trace w' = evs ++ trace w /\ Forall (fun ev => P ev = true) evs.

(** The streaming completion requests in a log, newest first. *)
Definition streams (tr : list event) : list (list message) :=
  omap (fun ev => match ev with EvStream p => Some p | _ => None end) tr.

End TraceSpec.

(** ** Sample data for the worked instances *)

Module ServerSpec.

Import ChatService.

(** A configuration with other values for the four settings a request can
    override, and the service with such a configuration. *)
Definition with_flags (cfg : ChatConfig.t) (context summarisation intents : bool)
    (k : Z) : ChatConfig.t := {|
  ChatConfig.enable_context := context;
  ChatConfig.enable_summarisation := summarisation;
  ChatConfig.enable_intent_tracking := intents;
  ChatConfig.context_top_k := k;
  ChatConfig.max_history_messages := ChatConfig.max_history_messages cfg;
  ChatConfig.system_prompt := ChatConfig.system_prompt cfg;
  ChatConfig.summarise_prompt := ChatConfig.summarise_prompt cfg;
  ChatConfig.intent_prompt := ChatConfig.intent_prompt cfg;
  ChatConfig.max_prompt_tokens := ChatConfig.max_prompt_tokens cfg
|}.

Definition with_config (self : ChatService.t) (cfg : ChatConfig.t) : ChatService.t :=
  {| config := cfg; sessions := sessions self;
     vector_store_provider := vector_store_provider self |}.

Definition reflag (context summarisation intents : bool) (k : Z)
    (self : ChatService.t) : ChatService.t :=
  with_config self (with_flags (config self) context summarisation intents k).

End ServerSpec.

Module Samples.

Definition w0 : world := {| trace := []; ticks := 0 |}.

(** A store of three chunks; the second has no text. *)
Definition store : faiss_index * list (gmap string string) :=
  ({| ntotal := 3; d := 2 |},
   [ {[ "text" := "alpha"; "source" := "a.txt" ]};
     {[ "source" := "b.txt" ]};
     {[ "text" := "gamma" ]} ]).

(** Clocks that advance by one per reading, a store under [/store], an
    index that ranks the chunks 0, 1, 2 (with one padding id), and a
    completion endpoint that always answers. *)
Definition B0 : backend := {|
  time_time := fun w => 1000 + Z.of_nat (ticks w);
  monotonic := fun w => 100 + Z.of_nat (ticks w);
  read_store := fun _ dir =>
    if String.eqb dir "/store" then Ok store
    else Raise (FileNotFoundError "FAISS index not found");
  embed_documents := fun _ _ => Ok [[1; 2]];
  index_search := fun _ _ _ _ => [(0, 9); (1, 8); (-1, 0); (2, 7)];
  complete := fun _ _ => Ok "a summary";
  stream_completion := fun _ _ => (["Hel"; "lo"], None);
  vstore_importable := true
|}.

(** The same, with a completion endpoint that is down. *)
Definition B_down : backend := {|
  time_time := time_time B0;
  monotonic := monotonic B0;
  read_store := fun _ _ => Raise (FileNotFoundError "FAISS index not found");
  embed_documents := embed_documents B0;
  index_search := index_search B0;
  complete := fun _ _ => Raise (RequestException "connection refused");
  stream_completion := stream_completion B0;
  vstore_importable := true
|}.

Definition ld0 : VectorStoreLoader.t := CacheSpec.loaded "/store" store.

(** A manager with a TTL of 50 holding an entry last used at 0 and one
    last used at 90. *)
Definition m0 : CachedVectorStoreManager.t := {|
  CachedVectorStoreManager.store_dir := "/store";
  CachedVectorStoreManager.ttl_seconds := 50;
  CachedVectorStoreManager._cache :=
    {[ "old" := {| CachedVectorStoreManager.loader := ld0;
                   CachedVectorStoreManager.last_access := 0 |};
       "live" := {| CachedVectorStoreManager.loader := ld0;
                    CachedVectorStoreManager.last_access := 90 |} ]}
|}.

(** A service with a history cap of four, a provider, and a budget that is
    never reached; the same with a budget of one token, which every prompt
    exceeds. *)
Definition cfg0 : ChatConfig.t := {|
  ChatConfig.enable_context := true;
  ChatConfig.enable_summarisation := true;
  ChatConfig.enable_intent_tracking := true;
  ChatConfig.context_top_k := 4;
  ChatConfig.max_history_messages := 4;
  ChatConfig.system_prompt := "Be brief.";
  ChatConfig.summarise_prompt := "Summarise.";
  ChatConfig.intent_prompt := "Name the intent.";
  ChatConfig.max_prompt_tokens := 30000
|}.

Definition cfg_tight : ChatConfig.t := {|
  ChatConfig.enable_context := true;
  ChatConfig.enable_summarisation := true;
  ChatConfig.enable_intent_tracking := true;
  ChatConfig.context_top_k := 4;
  ChatConfig.max_history_messages := 4;
  ChatConfig.system_prompt := "Be brief.";
  ChatConfig.summarise_prompt := "Summarise.";
  ChatConfig.intent_prompt := "Name the intent.";
  ChatConfig.max_prompt_tokens := 1
|}.

(** The same as [cfg0], with a history cap of zero. *)
Definition cfg_nocap : ChatConfig.t := {|
  ChatConfig.enable_context := true;
  ChatConfig.enable_summarisation := true;
  ChatConfig.enable_intent_tracking := true;
  ChatConfig.context_top_k := 4;
  ChatConfig.max_history_messages := 0;
  ChatConfig.system_prompt := "Be brief.";
  ChatConfig.summarise_prompt := "Summarise.";
  ChatConfig.intent_prompt := "Name the intent.";
  ChatConfig.max_prompt_tokens := 30000
|}.

Definition svc_nocap : ChatService.t :=
  ChatService.new cfg_nocap (Some VectorStoreContextProvider.new).



Definition svc0 : ChatService.t :=
  ChatService.new cfg0 (Some VectorStoreContextProvider.new).

Definition svc_tight : ChatService.t :=
  ChatService.new cfg_tight (Some VectorStoreContextProvider.new).

(** [vector_store_dir="/store"], everything else left at [None]. *)
Definition kw_store : ChatService.kwargs := {|
  ChatService.kw_vector_store_dir := Some "/store";
  ChatService.top_k := None;
  ChatService.enable_context := None;
  ChatService.enable_summarisation := None;
  ChatService.enable_intent_tracking := None;
  ChatService.system_prompt := None
|}.

(** A line of a completion stream carrying [content], and what
    [json.loads] makes of its data. *)
Definition quoted (s : string) : string :=
  String "034"%char s +:+ String "034"%char "".

Definition chunk_text (content : string) : string :=
  "{" +:+ quoted "choices" +:+ ":[{" +:+ quoted "delta" +:+ ":{"
  +:+ quoted "content" +:+ ":" +:+ quoted content +:+ "}}]}".

Definition chunk_json (content : string) : Json.t :=
  Json.Dict
    [("choices",
      Json.List [Json.Dict [("delta", Json.Dict [("content", Json.Str content)])]])].

(** An integer of five thousand digits, more than [json.loads] converts. *)
Definition long_number : string :=
  string_of_list_ascii (repeat "1"%char 5000).

Definition is_digit (c : ascii) : bool :=
  ((48 <=? Ascii.nat_of_ascii c) && (Ascii.nat_of_ascii c <=? 57))%nat.

(** A decoder for lines of ASCII (a byte above 127 standing alone is not
    UTF-8), and a parser that knows the chunks of [Hel] and [lo] and the
    empty object, and raises ValueError on an integer of more than 4300
    digits. *)
Definition lib0 : ChatLLMClient.pylib := {|
  ChatLLMClient.decode := fun raw =>
    if forallb (fun c => (Ascii.nat_of_ascii c <? 128)%nat) (list_ascii_of_string raw)
    then Some raw else None;
  ChatLLMClient.json_loads := fun line =>
    if (4300 <? String.length line)%nat && forallb is_digit (list_ascii_of_string line)
    then ChatLLMClient.OtherError
    else if String.eqb line (chunk_text "Hel")
    then ChatLLMClient.Parsed (chunk_json "Hel")
    else if String.eqb line (chunk_text "lo")
    then ChatLLMClient.Parsed (chunk_json "lo")
    else if String.eqb line "{}" then ChatLLMClient.Parsed (Json.Dict [])
    else ChatLLMClient.JSONDecodeError;
  ChatLLMClient.str_of := fun _ => "?"
|}.

(** A request as a client that names only the session and the message
    sends it, and two command lines: the defaults, and one that disables
    everything. *)
Definition request0 : ChatRequest.t := {|
  ChatRequest.session_id := "s1";
  ChatRequest.message := "hello";
  ChatRequest.vector_store_dir := Some "/store";
  ChatRequest.top_k := 4;
  ChatRequest.enable_context := true;
  ChatRequest.enable_summarisation := true;
  ChatRequest.enable_intent_tracking := true;
  ChatRequest.system_prompt := None
|}.

Definition args0 : Server.args := {|
  Server.context_top_k := 4;
  Server.max_history_messages := 20;
  Server.disable_context := false;
  Server.disable_summarisation := false;
  Server.disable_intents := false
|}.

Definition args_off : Server.args := {|
  Server.context_top_k := 1;
  Server.max_history_messages := 20;
  Server.disable_context := true;
  Server.disable_summarisation := true;
  Server.disable_intents := true
|}.

End Samples.

(** * Facts *)

Section PythonFacts.

Lemma truthy_true (s : string) : truthy s = true <-> s <> "".
Proof. destruct s; simpl; split; intros; congruence. Qed.

Lemma truthy_false (s : string) : truthy s = false <-> s = "".
Proof. destruct s; simpl; split; intros; congruence. Qed.

Lemma extends_refl w : extends w w.
Proof. by exists []. Qed.

Lemma extends_trans w1 w2 w3 : extends w1 w2 -> extends w2 w3 -> extends w1 w3.
Proof.
  intros [e1 H1] [e2 H2]. exists (e2 ++ e1). by rewrite H2, H1, app_assoc.
Qed.

Lemma extends_log e w : extends w (log e w).
Proof. by exists [e]. Qed.

Lemma extends_tick w : extends w (tick w).
Proof. by exists []. Qed.

End PythonFacts.

Module CacheFacts.

Import CachedVectorStoreManager CacheSpec.

Lemma lookup_foldl_delete {A} (ks : list string) (m : gmap string A) (k : string) :
  foldl (fun c sid => delete sid c) m ks !! k
  = if decide (k ∈ ks) then None else m !! k.
Proof.
  revert m. induction ks as [|k' ks IH]; intros m.
  - rewrite decide_False; [done | apply not_elem_of_nil].
  - cbn [foldl]. rewrite IH. destruct (decide (k = k')) as [->|Hne].
    + rewrite lookup_delete_eq.
      rewrite (decide_True (P := k' ∈ k' :: ks)) by apply list_elem_of_here.
      by destruct (decide (k' ∈ ks)).
    + rewrite lookup_delete_ne by done.
      destruct (decide (k ∈ ks)) as [Hin|Hin].
      * rewrite decide_True; [done | by apply list_elem_of_further].
      * rewrite decide_False; [done|].
        intros [?|?]%elem_of_cons; congruence.
Qed.

Lemma evict_stale_spec (B : backend) (self : t) (w : world) :
  let '(self1, w1) := _evict_stale B self w in
  w1 = tick w
  /\ store_dir self1 = store_dir self
  /\ ttl_seconds self1 = ttl_seconds self
  /\ forall sid, _cache self1 !! sid = survivor self (monotonic B w) sid.
Proof.
  unfold _evict_stale, read_clock. simpl.
  repeat split; try reflexivity.
  intros sid. rewrite lookup_foldl_delete. unfold survivor.
  case_decide as Hin.
  - apply list_elem_of_fmap in Hin. destruct Hin as ([k e] & Heq & Hin).
    simpl in Heq. subst k.
    apply list_elem_of_filter in Hin. destruct Hin as [Hexp Hin].
    apply elem_of_map_to_list in Hin. simpl in *.
    rewrite Hin. by rewrite decide_True.
  - destruct (_cache self !! sid) as [e|] eqn:Hsid; [|done].
    case_decide as Hexp; [|done].
    exfalso. apply Hin. apply list_elem_of_fmap.
    exists (sid, e). split; [done|].
    apply list_elem_of_filter. split; [done|].
    by apply elem_of_map_to_list.
Qed.

Lemma get_loader_empty (B : backend) (self : t) (w : world) :
  get_loader B "" (self, w)
  = (Raise (ValueError "session_id must not be empty"), (self, w)).
Proof. reflexivity. Qed.

Lemma get_loader_spec (B : backend) (self : t) (w : world) (sid : string) :
  truthy sid = true ->
  let now := monotonic B w in
  let '(r, (self', w')) := get_loader B sid (self, w) in
  store_dir self' = store_dir self
  /\ ttl_seconds self' = ttl_seconds self
  /\ (forall sid', sid' <> sid -> _cache self' !! sid' = survivor self now sid')
  /\ match survivor self now sid with
     | Some entry =>
         r = Ok (loader entry)
         /\ _cache self' !! sid
            = Some {| loader := loader entry; last_access := monotonic B (tick w) |}
         /\ trace w' = trace w
     | None =>
         trace w' = EvLoad (store_dir self) :: trace w
         /\ match read_store B (tick w) (store_dir self) with
            | Ok found =>
                r = Ok (loaded (store_dir self) found)
                /\ _cache self' !! sid
                   = Some {| loader := loaded (store_dir self) found;
                             last_access :=
                               monotonic B (log (EvLoad (store_dir self)) (tick w)) |}
            | Raise e => r = Raise e /\ _cache self' !! sid = None
            end
     end.
Proof.
  intros Hsid now. unfold get_loader. rewrite Hsid. cbn [negb].
  pose proof (evict_stale_spec B self w) as Hev.
  destruct (_evict_stale B self w) as [self1 w1].
  destruct Hev as (-> & Hdir & Httl & Hcache).
  fold now in Hcache. rewrite Hcache.
  destruct (survivor self now sid) as [entry|] eqn:Hsurv.
  - unfold _touch. rewrite Hcache, Hsurv. unfold read_clock. cbn.
    repeat split; try done.
    + intros sid' Hne. rewrite lookup_insert_ne by done. apply Hcache.
    + by rewrite lookup_insert_eq.
  - unfold VectorStoreLoader.load_vector_store. rewrite Hdir.
    destruct (read_store B (tick w) (store_dir self)) as [[index md]|e]; cbn.
    + repeat split; try done.
      * intros sid' Hne. rewrite lookup_insert_ne by done. apply Hcache.
      * by rewrite lookup_insert_eq.
    + repeat split; try done. by rewrite Hcache.
Qed.

Lemma search_extends (B : backend) ld q k w :
  extends w (snd (VectorStoreLoader.search B ld q k w)).
Proof.
  unfold VectorStoreLoader.search.
  repeat (match goal with
          | |- context [match ?x with _ => _ end] => destruct x
          end; cbn [snd]);
    auto using extends_refl, extends_log.
Qed.

Lemma build_context_extends (B : backend) ld q k w :
  extends w (snd (VectorStoreLoader.build_context B ld q k w)).
Proof.
  unfold VectorStoreLoader.build_context, bind, ret.
  pose proof (search_extends B ld q k w) as H.
  destruct (VectorStoreLoader.search B ld q k w) as [[hits|e] w']; exact H.
Qed.

Lemma touch_trace (B : backend) self sid w :
  trace (snd (_touch B self sid w)) = trace w.
Proof. unfold _touch. by destruct (_cache self !! sid). Qed.

(** [query] in terms of its four steps. *)
Lemma query_unfold (B : backend) self w sid q k :
  query B sid q k (self, w)
  = match get_loader B sid
            (self, log (EvQuery sid q k) w) with
    | (Raise e, st) => (Raise e, st)
    | (Ok ld, (self1, w1)) =>
        match VectorStoreLoader.search B ld q k w1 with
        | (Raise e, w2) => (Raise e, (self1, w2))
        | (Ok rs, w2) =>
            match VectorStoreLoader.build_context B ld q k w2 with
            | (Raise e, w3) => (Raise e, (self1, w3))
            | (Ok ctx, w3) =>
                (Ok {| results := rs; context := ctx |}, _touch B self1 sid w3)
            end
        end
    end.
Proof.
  unfold query, bind, in_world.
  destruct (get_loader B sid _) as [[ld|e] [self1 w1]]; [|done]. cbn [fst snd].
  destruct (VectorStoreLoader.search B ld q k w1) as [[rs|e] w2]; [|done].
  cbn [fst snd].
  by destruct (VectorStoreLoader.build_context B ld q k w2) as [[ctx|e] w3].
Qed.

(** A query for a session that has no entry loads the store again. *)
Lemma query_absent_loads (B : backend) self w sid q k :
  truthy sid = true ->
  _cache self !! sid = None ->
  exists evs,
    trace (snd (snd (query B sid q k (self, w))))
    = evs ++ EvLoad (store_dir self) :: EvQuery sid q k :: trace w.
Proof.
  intros Hsid Habsent. rewrite query_unfold.
  set (w0 := log (EvQuery sid q k) w).
  pose proof (get_loader_spec B self w0 sid Hsid) as Hspec. cbv zeta in Hspec.
  destruct (get_loader B sid (self, w0)) as [r [self1 w1]].
  destruct Hspec as (_ & _ & _ & Hsid').
  unfold survivor in Hsid'. rewrite Habsent in Hsid'.
  destruct Hsid' as [Htrace _].
  destruct r as [ld|e]; [|by exists []].
  pose proof (search_extends B ld q k w1) as [e1 H1].
  destruct (VectorStoreLoader.search B ld q k w1) as [[rs|e] w2];
    cbn [snd] in *; [|exists e1; by rewrite H1, Htrace].
  pose proof (build_context_extends B ld q k w2) as [e2 H2].
  destruct (VectorStoreLoader.build_context B ld q k w2) as [[ctx|e] w3];
    cbn [snd] in *.
  - exists (e2 ++ e1). by rewrite touch_trace, H2, H1, Htrace, app_assoc.
  - exists (e2 ++ e1). by rewrite H2, H1, Htrace, app_assoc.
Qed.

Lemma get_loader_extends (B : backend) self w sid :
  extends w (snd (snd (get_loader B sid (self, w)))).
Proof.
  destruct (truthy sid) eqn:Hsid.
  - pose proof (get_loader_spec B self w sid Hsid) as H. cbv zeta in H.
    destruct (get_loader B sid (self, w)) as [r [self' w']].
    destruct H as (_ & _ & _ & H). cbn [snd].
    destruct (survivor self (monotonic B w) sid).
    + destruct H as (_ & _ & H). exists []. by rewrite H.
    + destruct H as [H _]. exists [EvLoad (store_dir self)]. by rewrite H.
  - unfold get_loader. rewrite Hsid. apply extends_refl.
Qed.

(** Every call of [query] is logged, whatever becomes of it. *)
Lemma query_logs (B : backend) self w sid q k :
  extends (log (EvQuery sid q k) w) (snd (snd (query B sid q k (self, w)))).
Proof.
  rewrite query_unfold.
  pose proof (get_loader_extends B self (log (EvQuery sid q k) w) sid) as H0.
  destruct (get_loader B sid _) as [[ld|e] [self1 w1]]; cbn [snd] in *; [|done].
  pose proof (search_extends B ld q k w1) as H1.
  destruct (VectorStoreLoader.search B ld q k w1) as [[rs|e] w2];
    cbn [snd] in *; [|by eapply extends_trans].
  pose proof (build_context_extends B ld q k w2) as H2.
  destruct (VectorStoreLoader.build_context B ld q k w2) as [[ctx|e] w3];
    cbn [snd] in *.
  - destruct H2 as [e2 H2], H1 as [e1 H1], H0 as [e0 H0].
    exists (e2 ++ e1 ++ e0).
    by rewrite touch_trace, H2, H1, H0, !app_assoc.
  - eauto using extends_trans.
Qed.

(** C7 (TTL eviction).  [get_loader] with an empty session id raises
    ValueError and touches nothing.  With a non-empty session id it first
    reads the clock and removes every entry, of whatever session, with
    [now - last_access > ttl_seconds], leaving the other entries as they
    were; then it either returns the surviving entry's loader, with that
    entry's [last_access] set to a new clock reading and without loading
    anything, or it calls [load_vector_store] and, when that succeeds,
    inserts the new loader with a new clock reading.  Consequently an entry
    that was stale is absent after a call for another session, and a later
    query for its session loads the store again; a stale entry of the
    requested session itself is replaced by a newly loaded one. *)
Theorem get_loader_ttl_eviction (B : backend) (self : t) (w : world) (sid : string) :
  sid <> "" ->
  let now := monotonic B w in
  let '(r, (self', w')) := get_loader B sid (self, w) in
  get_loader B "" (self, w)
  = (Raise (ValueError "session_id must not be empty"), (self, w))
  /\ (forall sid', sid' <> sid -> _cache self' !! sid' = survivor self now sid')
  /\ match survivor self now sid with
     | Some entry =>
         r = Ok (loader entry)
         /\ _cache self' !! sid
            = Some {| loader := loader entry; last_access := monotonic B (tick w) |}
         /\ trace w' = trace w
     | None =>
         trace w' = EvLoad (store_dir self) :: trace w
         /\ match read_store B (tick w) (store_dir self) with
            | Ok found =>
                r = Ok (loaded (store_dir self) found)
                /\ _cache self' !! sid
                   = Some {| loader := loaded (store_dir self) found;
                             last_access :=
                               monotonic B (log (EvLoad (store_dir self)) (tick w)) |}
            | Raise e => r = Raise e /\ _cache self' !! sid = None
            end
     end
  /\ (forall sid' entry,
        _cache self !! sid' = Some entry ->
        is_expired self now entry ->
        sid' <> "" ->
        sid' <> sid ->
        _cache self' !! sid' = None
        /\ forall B' q k w2, exists evs,
             trace (snd (snd (query B' sid' q k (self', w2))))
             = evs ++ EvLoad (store_dir self)
                   :: EvQuery sid' q k :: trace w2).
Proof.
  intros Hsid now. apply truthy_true in Hsid.
  pose proof (get_loader_spec B self w sid Hsid) as Hspec. cbv zeta in Hspec.
  destruct (get_loader B sid (self, w)) as [r [self' w']].
  destruct Hspec as (Hdir & _ & Hothers & Hmine). fold now in Hothers, Hmine.
  split; [reflexivity|]. split; [exact Hothers|]. split; [exact Hmine|].
  intros sid' entry Hentry Hstale Hne' Hne.
  assert (_cache self' !! sid' = None) as Hgone.
  { rewrite Hothers by done. unfold survivor. rewrite Hentry.
    by rewrite decide_True. }
  split; [exact Hgone|].
  intros B' q k w2. rewrite <- Hdir.
  apply query_absent_loads; [by apply truthy_true | exact Hgone].
Qed.

(** C10 (results and context agree).  Let [query] have obtained its loader,
    and let the second of its two searches, the one inside
    [build_context], answer as the first did.  Then [query] returns exactly
    when the first search does, its results are that search's hits, and
    its context is the texts of those hits that are not empty, in rank
    order, joined by a blank line. *)
Theorem query_context_of_results (B : backend) (self : t) (w : world)
    (sid q : string) (k : Z) (ld : VectorStoreLoader.t) (self1 : t) (w1 : world) :
  get_loader B sid (self, log (EvQuery sid q k) w)
  = (Ok ld, (self1, w1)) ->
  fst (VectorStoreLoader.search B ld q k
         (snd (VectorStoreLoader.search B ld q k w1)))
  = fst (VectorStoreLoader.search B ld q k w1) ->
  match fst (query B sid q k (self, w)) with
  | Ok p =>
      q <> "" /\ 0 < k
      /\ fst (VectorStoreLoader.search B ld q k w1) = Ok (results p)
      /\ context p
         = join (newline +:+ newline)
             (text <$> filter (fun entry => text entry <> "") (results p))
  | Raise e => fst (VectorStoreLoader.search B ld q k w1) = Raise e
  end.
Proof.
  intros Hld Hsame. rewrite query_unfold, Hld.
  unfold VectorStoreLoader.build_context, bind, ret.
  destruct (VectorStoreLoader.search B ld q k w1) as [[rs|e] w2] eqn:H1;
    cbn [fst snd] in *; [|done].
  destruct (VectorStoreLoader.search B ld q k w2) as [r2 w3].
  cbn [fst] in Hsame. subst r2.
  destruct (_touch B self1 sid w3) as [self2 w4]. cbn [fst results context].
  assert (q <> "" /\ 0 < k) as [Hq Hk].
  { unfold VectorStoreLoader.search in H1.
    destruct (truthy q) eqn:Hq; cbn [negb] in H1; [|done].
    destruct (k <=? 0) eqn:Hk; [done|].
    split; [by apply truthy_true | lia]. }
  repeat split; try done.
  unfold VectorStoreLoader.default_separator. f_equal. f_equal.
  apply list_filter_iff. intros entry. apply truthy_true.
Qed.

Lemma get_loader_ttl_eviction_witness :
  let '(r, (self', w')) := get_loader Samples.B0 "live" (Samples.m0, Samples.w0) in
  r = Ok Samples.ld0
  /\ _cache self' !! "old" = None
  /\ _cache self' !! "live" = Some {| loader := Samples.ld0; last_access := 101 |}
  /\ trace w' = [].
Proof.
  pose proof (get_loader_ttl_eviction Samples.B0 Samples.m0 Samples.w0 "live"
                ltac:(discriminate)) as H.
  cbv zeta in H.
  destruct (get_loader Samples.B0 "live" (Samples.m0, Samples.w0)) as [r [self' w']].
  destruct H as (_ & Hothers & Hmine & _).
  assert (survivor Samples.m0 (monotonic Samples.B0 Samples.w0) "live"
          = Some {| loader := Samples.ld0; last_access := 90 |}) as Hs
    by (vm_compute; reflexivity).
  rewrite Hs in Hmine. destruct Hmine as (Hr & Hlive & Htrace).
  split; [exact Hr|]. split; [|split; [exact Hlive | exact Htrace]].
  rewrite Hothers by discriminate. vm_compute. reflexivity.
Defined.

Lemma query_context_of_results_witness :
  match fst (query Samples.B0 "s1" "what is alpha?" 3
               (CachedVectorStoreManager.new "/store", Samples.w0)) with
  | Ok p => context p = "alpha" +:+ newline +:+ newline +:+ "gamma"
  | Raise _ => False
  end.
Proof.
  pose proof (query_context_of_results Samples.B0
                (CachedVectorStoreManager.new "/store") Samples.w0
                "s1" "what is alpha?" 3 _ _ _ eq_refl eq_refl) as H.
  destruct (fst (query Samples.B0 "s1" "what is alpha?" 3
                   (CachedVectorStoreManager.new "/store", Samples.w0)))
    as [p|e]; [|discriminate H].
  destruct H as (_ & _ & Hrs & ->).
  injection Hrs as <-. vm_compute. reflexivity.
Defined.

End CacheFacts.

Module ChatFacts.

Import ChatSessionState ChatService ChatSpec.



Lemma slice_from_neg_short {A} (n : Z) (l : list A) :
  0 < n -> Z.of_nat (length l) <= n -> slice_from (- n) l = l.
Proof.
  intros Hn Hlen. unfold slice_from.
  destruct (- n <? 0) eqn:E; [|lia].
  replace (Z.to_nat (Z.max 0 (Z.of_nat (length l) + - n))) with 0%nat by lia.
  reflexivity.
Qed.

Lemma slice_from_neg_long {A} (n : Z) (l : list A) :
  0 < n -> n <= Z.of_nat (length l) ->
  slice_from (- n) l = drop (length l - Z.to_nat n) l.
Proof.
  intros Hn Hlen. unfold slice_from.
  destruct (- n <? 0) eqn:E; [|lia].
  f_equal. lia.
Qed.

(** [l[-0:]] is the whole list. *)
Lemma slice_from_zero {A} (l : list A) : slice_from (- 0) l = l.
Proof.
  unfold slice_from. change (- 0 <? 0) with false. cbv iota.
  replace (Z.to_nat (Z.min (- 0) (Z.of_nat (length l)))) with 0%nat by lia.
  reflexivity.
Qed.

Lemma last_slice_last {A} (l : list A) :
  last_slice l = match last l with Some x => [x] | None => [] end.
Proof.
  destruct l as [|x l _] using rev_ind; [reflexivity|].
  rewrite last_snoc. unfold last_slice, slice_from.
  change (-1 <? 0) with true. cbv iota. rewrite length_app. cbn [length].
  replace (Z.to_nat (Z.max 0 (Z.of_nat (length l + 1) + -1))) with (length l) by lia.
  apply drop_app_length.
Qed.

Lemma estimate_tokens_cost (text : string) :
  _estimate_tokens text = Z.max 1 (Z.of_nat (String.length text) `div` 4).
Proof. reflexivity. Qed.

(** ** The history cap *)

Lemma append_message_fields (cfg : ChatConfig.t) (session : ChatSessionState.t)
    (msg : message) :
  let session' := _append_message cfg session msg in
  session_id session' = session_id session
  /\ summary session' = summary session
  /\ intents session' = intents session
  /\ last_context session' = last_context session
  /\ last_retrievals session' = last_retrievals session
  /\ vector_store_dir session' = vector_store_dir session
  /\ updated_at session' = updated_at session.
Proof. unfold _append_message. by destruct (_ >? _). Qed.

(** With a cap of at least one, [_append_message] keeps the most recent
    messages, in order, and at most the cap of them. *)
Lemma append_message_cap (cfg : ChatConfig.t) (session : ChatSessionState.t)
    (msg : message) :
  0 < ChatConfig.max_history_messages cfg ->
  let appended := messages session ++ [msg] in
  let kept := messages (_append_message cfg session msg) in
  kept = drop (length appended - Z.to_nat (ChatConfig.max_history_messages cfg)) appended
  /\ Z.of_nat (length kept) <= ChatConfig.max_history_messages cfg
  /\ last kept = Some msg.
Proof.
  intros Hcap appended kept. subst kept. unfold _append_message. fold appended.
  assert (last appended = Some msg) as Hlast by apply last_snoc.
  destruct (Z.of_nat (length appended) >? ChatConfig.max_history_messages cfg) eqn:E;
    cbn [messages with_messages].
  - rewrite slice_from_neg_long by lia.
    split; [reflexivity|]. split; [rewrite length_drop; lia|].
    rewrite <- (take_drop (length appended - Z.to_nat (ChatConfig.max_history_messages cfg))
                  appended) in Hlast.
    rewrite last_app in Hlast.
    destruct (last (drop _ appended)) eqn:Hd; [done|].
    apply last_None in Hd. apply (f_equal length) in Hd.
    rewrite length_drop in Hd. cbn in Hd. lia.
  - replace (length appended - Z.to_nat (ChatConfig.max_history_messages cfg))%nat
      with 0%nat by lia.
    split; [reflexivity|]. split; [lia | done].
Qed.

(** With a cap of zero or more the message just appended is still there. *)
Lemma append_message_last (cfg : ChatConfig.t) (session : ChatSessionState.t)
    (msg : message) :
  0 <= ChatConfig.max_history_messages cfg ->
  last (messages (_append_message cfg session msg)) = Some msg.
Proof.
  intros Hcap.
  destruct (decide (ChatConfig.max_history_messages cfg = 0)) as [H0|Hne].
  - unfold _append_message. rewrite H0.
    destruct (_ >? 0); cbn [messages with_messages];
      rewrite ?slice_from_zero; apply last_snoc.
  - apply append_message_cap. lia.
Qed.

(** ** The prompt budget *)

(** C3 (budget enforcement).  The cost of a text is
    [max(1, len(text) // 4)] and the cost of a prompt the sum over its
    messages.  With a budget of zero or less, or a cost within the budget,
    the prompt comes back as it was with the flag false, and neither the
    session nor the outside world is touched.  Otherwise the flag is true,
    a summary is ensured (a non-empty one is kept; an empty one is
    requested once from the completion endpoint, and a failure of that
    request leaves it empty), and the prompt is: the system messages of the
    original prompt, the summary note when the summary is then non-empty,
    the fixed truncation note, and the last non-system message of the
    original prompt.  In every case the session's message history is
    unchanged. *)
Theorem enforce_prompt_budget_spec (B : backend) (cfg : ChatConfig.t)
    (session : ChatSessionState.t) (prompt : list message) (max_tokens : Z)
    (w : world) :
  let '((prompt', truncated), (session', w')) :=
    _enforce_prompt_budget B cfg session prompt max_tokens w in
  (forall text,
      _estimate_tokens text = Z.max 1 (Z.of_nat (String.length text) `div` 4))
  /\ messages session' = messages session
  /\ if (max_tokens <=? 0) || (total_cost prompt <=? max_tokens)
     then prompt' = prompt /\ truncated = false /\ session' = session /\ w' = w
     else
       truncated = true
       /\ (session', w')
          = (if truthy (summary session) then (session, w)
             else
               let request :=
                 [{| role := "system"; content := ChatConfig.summarise_prompt cfg |};
                  {| role := "user";
                     content := _messages_as_text (messages session) |}] in
               (match complete B w request with
                | Ok s => with_summary session s
                | Raise _ => session
                end, log (EvComplete request) w))
       /\ prompt'
          = List.filter is_system prompt
            ++ (if truthy (summary session')
                then [{| role := "system";
                         content := "Conversation summary: " +:+ summary session' |}]
                else [])
            ++ [{| role := "system";
                   content := "History was replaced with a summary to fit the context window." |}]
            ++ match last (List.filter (fun m => negb (is_system m)) prompt) with
               | Some m => [m]
               | None => []
               end.
Proof.
  unfold _enforce_prompt_budget. fold (total_cost prompt).
  destruct (max_tokens <=? 0) eqn:Hmax; cbn [orb].
  { repeat split; reflexivity. }
  destruct (total_cost prompt <=? max_tokens) eqn:Hcost.
  { repeat split; reflexivity. }
  unfold _ensure_summary, _refresh_summary.
  destruct (truthy (summary session)) eqn:Hsum.
  - rewrite Hsum. rewrite last_slice_last. repeat split; reflexivity.
  - destruct (complete B w _) as [s|e]; rewrite last_slice_last;
      repeat split; reflexivity.
Qed.

(** ** What the steps of a turn leave alone *)

Lemma refresh_summary_frame (B : backend) cfg session w :
  let '(session', w') := _refresh_summary B cfg session w in
  (session' = session \/ exists s, session' = with_summary session s)
  /\ extends w w'.
Proof.
  unfold _refresh_summary. destruct (complete B w _) as [s|e];
    (split; [eauto | apply extends_log]).
Qed.

Lemma track_intent_frame (B : backend) cfg session text w :
  let '(session', w') := _track_intent B cfg session text w in
  (session' = session \/ exists i, session' = with_intents session i)
  /\ extends w w'.
Proof.
  unfold _track_intent. destruct (complete B w _) as [s|e];
    [destruct (truthy s)|]; (split; [eauto | apply extends_log]).
Qed.

(** Budget enforcement changes at most the summary, and that only when it
    truncates and the summary was empty. *)
Lemma enforce_budget_frame (B : backend) cfg session prompt max_tokens w :
  let '((prompt', truncated), (session', w')) :=
    _enforce_prompt_budget B cfg session prompt max_tokens w in
  (session' = session \/ exists s, session' = with_summary session s)
  /\ (truncated = false \/ truthy (summary session) = true ->
      session' = session /\ w' = w)
  /\ extends w w'.
Proof.
  unfold _enforce_prompt_budget.
  destruct (max_tokens <=? 0).
  { split; [by left|]. split; [done | by exists []]. }
  destruct (_ <=? max_tokens).
  { split; [by left|]. split; [done | by exists []]. }
  unfold _ensure_summary.
  destruct (truthy (summary session)) eqn:Hsum.
  { split; [by left|]. split; [done | by exists []]. }
  pose proof (refresh_summary_frame B cfg session w) as H.
  destruct (_refresh_summary B cfg session w) as [session' w'].
  destruct H as [H1 H2]. split; [exact H1|]. split; [|exact H2].
  intros [?|?]; discriminate.
Qed.

Lemma fetch_context_frame (B : backend) self sid msg kw w :
  let '(_, (self', w')) := fetch_context B self sid msg kw w in
  config self' = config self /\ sessions self' = sessions self.
Proof.
  unfold fetch_context.
  destruct (kw_vector_store_dir kw) as [dir|]; [|done].
  destruct (vector_store_provider self) as [provider|]; [|done].
  destruct (_ && _); [|done].
  by destruct (VectorStoreContextProvider.build_context B dir sid msg _ _)
    as [[found|e] [provider' w']].
Qed.

(** ** Consuming a stream short of its end *)

(** A call of [next] that yields has not changed the service. *)
Lemma next_yield_frame (B : backend) g st x g' st' :
  next B g st = ((Yield x, g'), st') ->
  fst st' = fst st /\ closure g' = closure g.
Proof.
  destruct g as [f pos], st as [self w].
  unfold next, start_stream, advance. cbn [closure position_of].
  destruct pos as [|reply|reply [|token rest] [e|]|].
  - destruct (g_truncated f); [intros [= <- <- <-]; done|].
    destruct (stream_completion B w _) as [[|token rest] [e|]];
      intros [= <- <- <-] || intros [=]; done.
  - destruct (stream_completion B w _) as [[|token rest] [e|]];
      intros [= <- <- <-] || intros [=]; done.
  - intros [=].
  - destruct (commit B f reply (self, w)). intros [=].
  - intros [= <- <- <-]; done.
  - intros [= <- <- <-]; done.
  - intros [=].
Qed.

Lemma consume_suspended_frame (B : backend) n : forall g st ys g' st',
  consume B n g st = ((ys, Suspended g'), st') ->
  fst st' = fst st /\ closure g' = closure g.
Proof.
  induction n as [|n IH]; intros g st ys g' st' H; cbn [consume] in H.
  - by inversion H.
  - destruct (next B g st) as [[[x| |e] g1] st1] eqn:Hnext; [|done..].
    destruct (consume B n g1 st1) as [[xs c] st2] eqn:Hrest.
    inversion H; subst.
    apply next_yield_frame in Hnext as [Hs Hc].
    apply IH in Hrest as [Hs' Hc']. split; congruence.
Qed.

(** ** The retrieval step *)

Lemma provider_build_context_extends (B : backend) dir sid q k self w :
  extends w (snd (snd (VectorStoreContextProvider.build_context B dir sid q k (self, w)))).
Proof.
  unfold VectorStoreContextProvider.build_context.
  destruct (vstore_importable B); cbn [negb]; [|apply extends_refl].
  destruct (truthy dir); cbn [negb]; [|apply extends_refl].
  set (manager := match VectorStoreContextProvider._managers self !! dir with
                  | Some m => m
                  | None => CachedVectorStoreManager.new dir
                  end).
  pose proof (CacheFacts.query_logs B manager w sid q k) as H.
  destruct (CachedVectorStoreManager.query B sid q k (manager, w)) as [r [manager' w']].
  cbn [snd] in *. eapply extends_trans; [apply extends_log | exact H].
Qed.


Lemma fetch_context_extends (B : backend) self sid msg kw w :
  extends w (snd (snd (fetch_context B self sid msg kw w))).
Proof.
  unfold fetch_context.
  destruct (kw_vector_store_dir kw) as [dir|]; [|apply extends_refl].
  destruct (vector_store_provider self) as [provider|]; [|apply extends_refl].
  destruct (_ && _); [|apply extends_refl].
  pose proof (provider_build_context_extends B dir sid msg
                (or_int (top_k kw) (ChatConfig.context_top_k (config self)))
                provider w) as H.
  by destruct (VectorStoreContextProvider.build_context B dir sid msg _ _)
    as [[found|e] [provider' w']].
Qed.


(** Without a store directory in this call, nothing is retrieved, whatever
    the session is bound to. *)
Lemma fetch_context_without_dir (B : backend) self sid msg kw w :
  kw_vector_store_dir kw = None ->
  fetch_context B self sid msg kw w = (("", []), (self, w)).
Proof. intros H. unfold fetch_context. by rewrite H. Qed.

(** A failing retrieval is the same as no context. *)
Lemma fetch_context_failure (B : backend) self sid msg kw w dir provider e st :
  kw_vector_store_dir kw = Some dir ->
  vector_store_provider self = Some provider ->
  VectorStoreContextProvider.build_context B dir sid msg
    (or_int (top_k kw) (ChatConfig.context_top_k (config self))) (provider, w)
  = (Raise e, st) ->
  fst (fetch_context B self sid msg kw w) = ("", []).
Proof.
  intros Hdir Hprov Hfail. unfold fetch_context. rewrite Hdir, Hprov.
  destruct (_ && _); [|done]. rewrite Hfail. by destruct st.
Qed.

(** ** Blank strings *)

Lemma rev_app_empty (s acc : string) :
  String.rev_app s acc = "" -> s = "" /\ acc = "".
Proof.
  revert acc. induction s as [|c s IH]; intros acc H; cbn in H; [done|].
  by apply IH in H as [_ ?].
Qed.

Lemma all_space_rev_app (s acc : string) :
  all_space (String.rev_app s acc) = all_space s && all_space acc.
Proof.
  revert acc. induction s as [|c s IH]; intros acc; cbn; [done|].
  rewrite IH. cbn. destruct (isspace c), (all_space s); simpl; try done.
Qed.

Lemma lstrip_empty (s : string) : lstrip s = "" <-> all_space s = true.
Proof.
  induction s as [|c s IH]; cbn; [done|].
  destruct (isspace c); cbn; [exact IH | done].
Qed.

Lemma lstrip_all_space (s : string) : all_space (lstrip s) = true -> lstrip s = "".
Proof.
  induction s as [|c s IH]; cbn; [done|].
  destruct (isspace c) eqn:Hc; [exact IH|].
  cbn. by rewrite Hc.
Qed.

(** [s.strip()] is empty exactly when [s] consists of whitespace only. *)
Lemma strip_empty (s : string) : strip s = "" <-> all_space s = true.
Proof.
  unfold strip, rstrip, String.rev. split.
  - intros H. apply rev_app_empty in H as [H _].
    apply lstrip_empty in H. rewrite all_space_rev_app in H.
    apply andb_true_iff in H as [H _].
    apply lstrip_all_space in H. by apply lstrip_empty.
  - intros H. apply lstrip_empty in H. by rewrite H.
Qed.

Lemma strip_nonempty (s : string) : strip s <> "" -> s <> "".
Proof. intros H ->. by apply H. Qed.

(** ** The eager half of a turn *)

(** The validation of [stream_chat] as the code has it: an empty session
    id, or a message that is empty or whitespace only, raises ValueError
    before anything is touched or called. *)
Lemma stream_chat_rejects (B : backend) self w sid msg kw :
  sid = "" \/ all_space msg = true ->
  exists text,
    stream_chat B sid msg kw (self, w) = (Raise (ValueError text), (self, w)).
Proof.
  intros H. unfold stream_chat.
  destruct (truthy sid) eqn:Hsid; cbn [negb]; [|eauto].
  destruct H as [->|H]; [done|].
  apply strip_empty in H. rewrite H. cbn [truthy negb].
  rewrite orb_true_r. eauto.
Qed.

Lemma append_message_with_dir cfg session x msg :
  messages (_append_message cfg (with_vector_store_dir session x) msg)
  = messages (_append_message cfg session msg).
Proof. unfold _append_message. cbn. by destruct (_ >? _). Qed.

(** What a valid call of [stream_chat] has done when it returns. *)
Lemma stream_chat_eager (B : backend) self w sid msg kw :
  sid <> "" ->
  strip msg <> "" ->
  let session0 := session_before self sid (time_time B w) in
  exists g self1 w1 session1,
    stream_chat B sid msg kw (self, w) = (Ok g, (self1, w1))
    /\ position_of g = NotStarted
    /\ g_session_id (closure g) = sid
    /\ config self1 = config self
    /\ extends w w1
    /\ (forall sid', sid' <> sid -> sessions self1 !! sid' = sessions self !! sid')
    /\ sessions self1 !! sid = Some session1
    /\ messages session1
       = messages (_append_message (config self) session0 (user_message msg))
    /\ vector_store_dir session1
       = or_str (vector_store_dir session0) (kw_vector_store_dir kw)
    /\ intents session1 = intents session0
    /\ last_context session1 = last_context session0
    /\ last_retrievals session1 = last_retrievals session0
    /\ updated_at session1 = updated_at session0
    /\ (g_truncated (closure g) = false \/ truthy (summary session0) = true ->
        summary session1 = summary session0)
    /\ (g_context_text (closure g), g_retrievals (closure g))
       = fst (fetch_context B (fst (after_create B self w sid)) sid msg kw
                (snd (after_create B self w sid)))
    /\ extends
         (snd (snd (fetch_context B (fst (after_create B self w sid)) sid msg kw
                      (snd (after_create B self w sid)))))
         w1.
Proof.
  intros Hsid Hmsg session0.
  pose proof (strip_nonempty _ Hmsg) as Hmsg'.
  apply truthy_true in Hsid, Hmsg, Hmsg'.
  unfold stream_chat. rewrite Hsid, Hmsg, Hmsg'. cbn [negb orb].
  set (created := match sessions self !! sid with
                  | Some s => (s, (self, w))
                  | None => _create_session B sid (self, w)
                  end).
  assert (fst created = session0
          /\ config (fst (snd created)) = config self
          /\ extends w (snd (snd created))
          /\ (forall sid', sid' <> sid ->
               sessions (fst (snd created)) !! sid' = sessions self !! sid')
          /\ after_create B self w sid = snd created)
    as (Hs0 & Hcfg0 & Hext0 & Hoth0 & Hac).
  { subst created session0. unfold session_before, after_create.
    destruct (sessions self !! sid) as [s|]; cbn.
    - repeat split; try done. apply extends_refl.
    - repeat split; try done; [apply extends_tick|].
      intros sid' Hne. by rewrite lookup_insert_ne. }
  rewrite Hac. clear Hac.
  destruct created as [session [self1 w1]]. cbn [fst snd] in *. subst session.
  pose proof (fetch_context_frame B self1 sid msg kw w1) as Hfc.
  pose proof (fetch_context_extends B self1 sid msg kw w1) as Hfe.
  destruct (fetch_context B self1 sid msg kw w1) as [[ctx rs] [self2 w2]].
  destruct Hfc as [Hcfg2 Hsess2]. cbn [snd] in Hfe.
  change {| role := "user"; content := msg |} with (user_message msg).
  set (session2 := _append_message (config self2)
                     (with_vector_store_dir session0
                        (or_str (vector_store_dir session0) (kw_vector_store_dir kw)))
                     (user_message msg)).
  pose proof (enforce_budget_frame B (config self2) session2
                (_build_prompt (config self2) session2 ctx (system_prompt kw))
                (ChatConfig.max_prompt_tokens (config self2)) w2) as Hbud.
  destruct (_enforce_prompt_budget B (config self2) session2 _ _ w2)
    as [[prompt' truncated] [session3 w3]].
  destruct Hbud as (Hshape & Hsame & Hext3).
  pose proof (append_message_fields (config self2)
                (with_vector_store_dir session0
                   (or_str (vector_store_dir session0) (kw_vector_store_dir kw)))
                (user_message msg)) as Hfields.
  cbv zeta in Hfields. fold session2 in Hfields.
  destruct Hfields as (_ & Hsum & Hint & Hctx & Hrs & Hdir & Hupd).
  assert (messages session2
          = messages (_append_message (config self) session0 (user_message msg)))
    as Hmsgs.
  { subst session2. rewrite append_message_with_dir. by rewrite Hcfg2, Hcfg0. }
  clearbody session2. cbn in Hsum, Hint, Hctx, Hrs, Hdir, Hupd.
  rewrite Hsum in Hsame.
  eexists _, _, _, session3. split; [reflexivity|].
  cbn [closure position_of g_session_id g_truncated config with_sessions sessions].
  split; [done|]. split; [done|]. split; [congruence|].
  split; [eauto using extends_trans|].
  split.
  { intros sid' Hne. rewrite lookup_insert_ne by done. rewrite Hsess2. by apply Hoth0. }
  split; [by rewrite lookup_insert_eq|].
  destruct Hshape as [->|[s ->]]; cbn [messages with_summary vector_store_dir
    last_context last_retrievals updated_at intents summary];
    repeat split; try congruence; try exact Hext3.
  all: intros Hcase; destruct (Hsame Hcase) as [Heq _];
    apply (f_equal summary) in Heq; cbn in Heq; congruence.
Qed.

Lemma stream_chat_ok_valid (B : backend) self w sid msg kw g st :
  stream_chat B sid msg kw (self, w) = (Ok g, st) ->
  sid <> "" /\ strip msg <> "".
Proof.
  unfold stream_chat. intros H.
  destruct (truthy sid) eqn:Hsid; cbn [negb] in H; [|done].
  destruct (truthy msg) eqn:Hmsg; cbn [negb orb] in H; [|done].
  destruct (truthy (strip msg)) eqn:Hstrip; cbn [negb] in H; [|done].
  split; by apply truthy_true.
Qed.

(** A stream that ends by an exception commits nothing either. *)
Lemma consume_failed_frame (B : backend) n : forall g st ys e st',
  consume B n g st = ((ys, Failed e), st') ->
  fst st' = fst st.
Proof.
  induction n as [|n IH]; intros g st ys e st' H; cbn [consume] in H; [done|].
  destruct (next B g st) as [[[x| |e'] g1] st1] eqn:Hnext; [|done|].
  - destruct (consume B n g1 st1) as [[xs c] st2] eqn:Hrest.
    inversion H; subst.
    apply next_yield_frame in Hnext as [Hs _].
    apply IH in Hrest. congruence.
  - inversion H; subst. clear H.
    destruct g as [f pos], st as [self w].
    unfold next, start_stream, advance in Hnext. cbn [closure position_of] in Hnext.
    destruct pos as [|reply|reply [|token rest] [e0|]|];
      repeat match type of Hnext with
             | context [g_truncated ?x] => destruct (g_truncated x)
             | context [stream_completion ?a ?b ?c] =>
                 destruct (stream_completion a b c) as [[|? ?] [?|]]
             | context [commit ?a ?b ?c ?d] => destruct (commit a b c d)
             end;
      inversion Hnext; subst; done.
Qed.

(** C1 (commit on full consumption).  Let a call of [stream_chat] have
    returned its generator, and let the consumer stop after any number of
    fragments, the generator still suspended.  Then consuming those
    fragments has changed nothing in the service, so [get_history] answers
    as it did when [stream_chat] returned; and against the session as it
    was before the call (or as created by it), the history is that session's
    with only the user message appended under the cap (no assistant
    message), and the intents, [last_context], [last_retrievals] and
    [updated_at] are the same.  The summary is the same too, unless budget
    enforcement, which runs inside the call itself, truncated the prompt
    while the summary was empty. *)
Theorem abandoned_stream_commits_nothing (B : backend) (self : t) (w : world)
    (sid msg : string) (kw : kwargs) (g : generator) (st1 : t * world)
    (n : nat) (ys : list string) (g' : generator) (st2 : t * world) :
  stream_chat B sid msg kw (self, w) = (Ok g, st1) ->
  consume B n g st1 = ((ys, Suspended g'), st2) ->
  let session0 := session_before self sid (time_time B w) in
  fst st2 = fst st1
  /\ get_history sid (fst st2) = get_history sid (fst st1)
  /\ exists session2,
       get_history sid (fst st2) = Ok session2
       /\ messages session2
          = messages (_append_message (config self) session0 (user_message msg))
       /\ intents session2 = intents session0
       /\ last_context session2 = last_context session0
       /\ last_retrievals session2 = last_retrievals session0
       /\ updated_at session2 = updated_at session0
       /\ (g_truncated (closure g) = false \/ summary session0 <> "" ->
           summary session2 = summary session0).
Proof.
  intros Hcall Hstop session0.
  apply consume_suspended_frame in Hstop as [Hframe _].
  split; [exact Hframe|]. split; [by rewrite Hframe|].
  destruct (stream_chat_ok_valid _ _ _ _ _ _ _ _ Hcall) as [Hsid Hmsg].
  destruct (stream_chat_eager B self w sid msg kw Hsid Hmsg)
    as (g0 & self1 & w1 & session1 & Heq & _ & _ & _ & _ & _ & Hlook & Hm & _
        & Hi & Hc & Hr & Hu & Hs & _).
  rewrite Hcall in Heq. inversion Heq; subst g0 st1. clear Heq.
  exists session1. rewrite Hframe. cbn [fst]. unfold get_history. rewrite Hlook.
  repeat split; try done.
  intros [Ht|Hne]; apply Hs; [by left | right; by apply truthy_true].
Qed.


Lemma abandoned_stream_commits_nothing_witness :
  exists g st1 g' st2,
    stream_chat Samples.B0 "s1" "hello" no_kwargs (Samples.svc0, Samples.w0)
    = (Ok g, st1)
    /\ consume Samples.B0 1 g st1 = ((["Hel"], Suspended g'), st2)
    /\ fst st2 = fst st1
    /\ (messages <$> sessions (fst st2) !! "s1") = Some [user_message "hello"].
Proof.
  pose proof (abandoned_stream_commits_nothing Samples.B0 Samples.svc0 Samples.w0
                "s1" "hello" no_kwargs _ _ 1 _ _ _ eq_refl eq_refl) as H.
  cbv zeta in H. destruct H as (Hframe & _ & session2 & Hhist & Hmsgs & _).
  eexists _, _, _, _. split; [reflexivity|]. split; [reflexivity|].
  split; [exact Hframe|].
  unfold get_history in Hhist.
  destruct (sessions _ !! "s1") as [session|]; [|discriminate Hhist].
  injection Hhist as ->. cbn [fmap option_fmap option_map]. by rewrite Hmsgs.
Defined.



(** ** Consuming a stream to its end *)


(** The commit, on the session the generator holds. *)
Lemma commit_fields (B : backend) f reply self w session :
  sessions self !! g_session_id f = Some session ->
  exists session',
    sessions (fst (commit B f reply (self, w))) !! g_session_id f = Some session'
    /\ config (fst (commit B f reply (self, w))) = config self
    /\ messages session'
       = messages (_append_message (config self) session (assistant_message reply))
    /\ last_context session' = g_context_text f
    /\ last_retrievals session' = g_retrievals f
    /\ updated_at session' = time_time B w.
Proof.
  intros Hlook. unfold commit. rewrite Hlook. unfold read_clock.
  change {| role := "assistant"; content := reply |} with (assistant_message reply).
  set (session2 := with_turn_record _ _ _ _).
  assert (messages session2
          = messages (_append_message (config self) session (assistant_message reply))
          /\ last_context session2 = g_context_text f
          /\ last_retrievals session2 = g_retrievals f
          /\ updated_at session2 = time_time B w) as Hs2 by done.
  clearbody session2.
  set (r3 := if _flag (g_enable_summarisation f) _ then _ else _).
  assert (fst r3 = session2 \/ exists s, fst r3 = with_summary session2 s) as Hs3.
  { subst r3. destruct (_flag _ _); [|by left].
    pose proof (refresh_summary_frame B (config self) session2 (tick w)) as H.
    destruct (_refresh_summary _ _ _ _). apply H. }
  destruct r3 as [session3 w2]. cbn [fst] in Hs3.
  set (r4 := if _flag (g_enable_intent_tracking f) _ then _ else _).
  assert (fst r4 = session3 \/ exists i, fst r4 = with_intents session3 i) as Hs4.
  { subst r4. destruct (_flag _ _); [|by left].
    pose proof (track_intent_frame B (config self) session3 (g_message f) w2) as H.
    destruct (_track_intent _ _ _ _ _). apply H. }
  destruct r4 as [session4 w3]. cbn [fst] in Hs4.
  exists session4. cbn [fst with_sessions sessions config].
  rewrite lookup_insert_eq. split; [done|]. split; [done|].
  destruct Hs4 as [->|[i ->]], Hs3 as [->|[s ->]]; exact Hs2.
Qed.

Lemma consume_S (B : backend) n g st :
  consume B (S n) g st
  = match next B g st with
    | ((Yield x, g'), st') =>
        let '((xs, c), st'') := consume B n g' st' in ((x :: xs, c), st'')
    | ((StopIteration, _), st') => (([], Exhausted), st')
    | ((Raised e, _), st') => (([], Failed e), st')
    end.
Proof. reflexivity. Qed.

(** From a suspension inside the completion stream, a consumption that
    reaches the end has received exactly the pending tokens, the stream
    ended normally, and the commit ran on the whole reply. *)
Lemma consume_at_token_exhausted (B : backend) f ending n :
  forall pending reply st ys st',
    consume B n {| closure := f; position_of := AtToken reply pending ending |} st
    = ((ys, Exhausted), st') ->
    ys = pending /\ ending = None
    /\ st' = commit B f (reply_after reply pending) st.
Proof.
  induction n as [|n IH]; intros pending reply st ys st' H; [done|].
  rewrite consume_S in H. unfold next, advance in H.
  cbn [closure position_of] in H.
  destruct pending as [|token rest].
  - destruct ending as [e|]; [done|]. by inversion H.
  - destruct (consume B n _ st) as [[xs c] st2] eqn:Hrest.
    inversion H; subst. apply IH in Hrest as (-> & -> & ->). done.
Qed.

Lemma consume_at_token_run (B : backend) f :
  forall pending reply st,
    consume B (S (length pending))
      {| closure := f; position_of := AtToken reply pending None |} st
    = ((pending, Exhausted), commit B f (reply_after reply pending) st).
Proof.
  induction pending as [|token rest IH]; intros reply st.
  - reflexivity.
  - cbn [length]. rewrite consume_S. unfold next, advance.
    cbn [closure position_of]. by rewrite IH.
Qed.

(** Entering the stream is stepping from a suspension at its first token,
    with the request logged. *)
Lemma next_start (B : backend) f reply self w :
  start_stream B f reply (self, w)
  = advance B f reply
      (fst (stream_completion B w (g_prompt_messages f)))
      (snd (stream_completion B w (g_prompt_messages f)))
      (self, log (EvStream (g_prompt_messages f)) w).
Proof.
  unfold start_stream. by destruct (stream_completion B w _).
Qed.

Lemma consume_at_notice (B : backend) f reply self w n :
  consume B (S n) {| closure := f; position_of := AtNotice reply |} (self, w)
  = consume B (S n)
      {| closure := f;
         position_of := AtToken reply
                          (fst (stream_completion B w (g_prompt_messages f)))
                          (snd (stream_completion B w (g_prompt_messages f))) |}
      (self, log (EvStream (g_prompt_messages f)) w).
Proof.
  rewrite !consume_S. unfold next. cbn [closure position_of].
  by rewrite next_start.
Qed.



(** ** Failures of the enrichment steps *)

Lemma refresh_summary_failure (B : backend) cfg session w e :
  complete B w (summary_request cfg (messages session)) = Raise e ->
  _refresh_summary B cfg session w
  = (session, log (EvComplete (summary_request cfg (messages session))) w).
Proof. intros H. unfold _refresh_summary. fold (summary_request cfg (messages session)). by rewrite H. Qed.

Lemma track_intent_failure (B : backend) cfg session text w e :
  complete B w (intent_request cfg text) = Raise e ->
  _track_intent B cfg session text w
  = (session, log (EvComplete (intent_request cfg text)) w).
Proof. intros H. unfold _track_intent. fold (intent_request cfg text). by rewrite H. Qed.

Lemma ensure_summary_failure (B : backend) cfg session w e :
  complete B w (summary_request cfg (messages session)) = Raise e ->
  fst (_ensure_summary B cfg session w) = session.
Proof.
  intros H. unfold _ensure_summary. destruct (truthy (summary session)); [done|].
  by erewrite refresh_summary_failure.
Qed.

(** In the commit, a summary request that raises leaves the summary as it
    was, and an intent request that raises leaves the intents as they
    were; the commit itself always completes. *)
Lemma commit_enrichment_failure (B : backend) f reply self w session :
  sessions self !! g_session_id f = Some session ->
  let cfg := config self in
  let appended := messages (_append_message cfg session (assistant_message reply)) in
  let w1 := tick w in
  let w2 :=
    if _flag (g_enable_summarisation f) (ChatConfig.enable_summarisation cfg)
    then log (EvComplete (summary_request cfg appended)) w1 else w1 in
  exists session',
    sessions (fst (commit B f reply (self, w))) !! g_session_id f = Some session'
    /\ ((exists e, complete B w1 (summary_request cfg appended) = Raise e) ->
        summary session' = summary session)
    /\ ((exists e, complete B w2 (intent_request cfg (g_message f)) = Raise e) ->
        intents session' = intents session).
Proof.
  intros Hlook cfg appended w1 w2. unfold commit. rewrite Hlook. unfold read_clock.
  change {| role := "assistant"; content := reply |} with (assistant_message reply).
  fold cfg. fold w1.
  pose proof (append_message_fields cfg session (assistant_message reply)) as Hf.
  cbv zeta in Hf. destruct Hf as (_ & Hsum & Hint & _).
  set (session2 := with_turn_record _ _ _ _).
  assert (messages session2 = appended /\ summary session2 = summary session
          /\ intents session2 = intents session) as (Hm2 & Hs2 & Hi2) by done.
  clearbody session2.
  set (r3 := if _flag (g_enable_summarisation f) _ then _ else _).
  assert (snd r3 = w2
          /\ intents (fst r3) = intents session
          /\ ((exists e, complete B w1 (summary_request cfg appended) = Raise e) ->
              summary (fst r3) = summary session)) as (Hw2 & Hi3 & Hs3).
  { subst r3 w2. destruct (_flag (g_enable_summarisation f) _).
    - unfold _refresh_summary. fold (summary_request cfg (messages session2)).
      rewrite Hm2. destruct (complete B w1 _) as [s|e]; cbn [fst snd].
      + split; [done|]. split; [done|]. by intros [e He].
      + done.
    - cbn [fst snd]. split; [done|]. split; [done|]. done. }
  destruct r3 as [session3 w2']. cbn [fst snd] in *. subst w2'.
  set (r4 := if _flag (g_enable_intent_tracking f) _ then _ else _).
  assert (summary (fst r4) = summary session3
          /\ ((exists e, complete B w2 (intent_request cfg (g_message f)) = Raise e) ->
              intents (fst r4) = intents session)) as (Hs4 & Hi4).
  { subst r4. destruct (_flag (g_enable_intent_tracking f) _).
    - unfold _track_intent. fold (intent_request cfg (g_message f)).
      destruct (complete B w2 _) as [s|e]; cbn [fst snd].
      + destruct (truthy s); (split; [done|]); by intros [e He].
      + done.
    - cbn [fst]. split; [done|]. done. }
  destruct r4 as [session4 w3]. cbn [fst snd] in *.
  exists session4. cbn [with_sessions sessions]. rewrite lookup_insert_eq.
  split; [done|]. split; [|exact Hi4].
  intros He. rewrite Hs4. by apply Hs3.
Qed.

Lemma consume_exhausted_more (B : backend) n : forall g st ys st',
  consume B n g st = ((ys, Exhausted), st') ->
  consume B (S n) g st = ((ys, Exhausted), st').
Proof.
  induction n as [|n IH]; intros g st ys st' H; [done|].
  rewrite consume_S in H. rewrite consume_S.
  destruct (next B g st) as [[[x| |e] g1] st1]; [|done..].
  destruct (consume B n g1 st1) as [[xs c] st2] eqn:Hrest.
  inversion H; subst. by rewrite (IH _ _ _ _ Hrest).
Qed.

Lemma consume_at_token_failed (B : backend) f ending n :
  forall pending reply st ys e st',
    consume B n {| closure := f; position_of := AtToken reply pending ending |} st
    = ((ys, Failed e), st') ->
    ending = Some e.
Proof.
  induction n as [|n IH]; intros pending reply st ys e st' H; [done|].
  rewrite consume_S in H. unfold next, advance in H.
  cbn [closure position_of] in H.
  destruct pending as [|token rest].
  - destruct ending as [e0|]; [by inversion H|].
    by destruct (commit B f reply st).
  - destruct (consume B n _ st) as [[xs c] st2] eqn:Hrest.
    inversion H; subst. by apply IH in Hrest.
Qed.

(** The first step of a generator that has no notice to give is the first
    step into the completion stream. *)
Lemma consume_not_started (B : backend) f self w n :
  g_truncated f = false ->
  consume B (S n) {| closure := f; position_of := NotStarted |} (self, w)
  = consume B (S n)
      {| closure := f;
         position_of := AtToken ""
                          (fst (stream_completion B w (g_prompt_messages f)))
                          (snd (stream_completion B w (g_prompt_messages f))) |}
      (self, log (EvStream (g_prompt_messages f)) w).
Proof.
  intros Ht. rewrite !consume_S. unfold next. cbn [closure position_of].
  by rewrite Ht, next_start.
Qed.

Lemma consume_failed_from_start (B : backend) f self w n ys e st2 :
  consume B n {| closure := f; position_of := NotStarted |} (self, w)
  = ((ys, Failed e), st2) ->
  snd (stream_completion B w (g_prompt_messages f)) = Some e.
Proof.
  destruct n as [|n]; [done|]. destruct (g_truncated f) eqn:Ht.
  - rewrite consume_S. unfold next. cbn [closure position_of]. rewrite Ht.
    destruct n as [|n]; [done|].
    change ("" +:+ notice) with notice. rewrite consume_at_notice.
    destruct (consume B (S n) _ _) as [[xs c] st'] eqn:Hrest.
    intros H. inversion H; subst.
    by apply consume_at_token_failed in Hrest.
  - rewrite consume_not_started by done. apply consume_at_token_failed.
Qed.

Lemma consume_run_from_start (B : backend) f self w :
  snd (stream_completion B w (g_prompt_messages f)) = None ->
  exists n ys st2,
    consume B n {| closure := f; position_of := NotStarted |} (self, w)
    = ((ys, Exhausted), st2).
Proof.
  intros Hend. destruct (g_truncated f) eqn:Ht.
  - exists (S (S (length (fst (stream_completion B w (g_prompt_messages f)))))).
    eexists _, _. rewrite consume_S. unfold next. cbn [closure position_of].
    rewrite Ht. change ("" +:+ notice) with notice.
    rewrite consume_at_notice, Hend, consume_at_token_run. reflexivity.
  - exists (S (length (fst (stream_completion B w (g_prompt_messages f))))).
    eexists _, _. rewrite consume_not_started by done.
    rewrite Hend, consume_at_token_run. reflexivity.
Qed.

(** C8 (best-effort enrichment).  A call of [stream_chat] with valid
    arguments returns its generator whatever the retrieval does; the
    retrieval touches no session, and one that raises leaves the turn
    without context.  A consumption
    can only fail with the exception the completion stream ended by; when
    the stream ends normally the turn runs to its end and commits.  A
    summary request that raises leaves the session as it was in
    [_refresh_summary] and in [_ensure_summary], an intent request that
    raises leaves it as it was in [_track_intent], and within the commit
    the summary and the intents keep their prior values when their request
    raises. *)
Theorem enrichment_failures_do_not_fail_turn (B : backend) (self : t) (w : world)
    (sid msg : string) (kw : kwargs) :
  sid <> "" ->
  strip msg <> "" ->
  exists g st1,
    stream_chat B sid msg kw (self, w) = (Ok g, st1)
    /\ sessions
         (fst (snd (fetch_context B (fst (after_create B self w sid)) sid msg kw
                      (snd (after_create B self w sid)))))
       = sessions (fst (after_create B self w sid))
    /\ (forall dir provider e st,
          kw_vector_store_dir kw = Some dir ->
          vector_store_provider self = Some provider ->
          VectorStoreContextProvider.build_context B dir sid msg
            (or_int (top_k kw) (ChatConfig.context_top_k (config self)))
            (provider, snd (after_create B self w sid))
          = (Raise e, st) ->
          g_context_text (closure g) = "" /\ g_retrievals (closure g) = [])
    /\ (forall n ys e st2,
          consume B n g st1 = ((ys, Failed e), st2) ->
          snd (stream_completion B (snd st1) (g_prompt_messages (closure g))) = Some e)
    /\ (snd (stream_completion B (snd st1) (g_prompt_messages (closure g))) = None ->
        exists n ys st2, consume B n g st1 = ((ys, Exhausted), st2))
    /\ (forall cfg session w' e,
          complete B w' (summary_request cfg (messages session)) = Raise e ->
          fst (_refresh_summary B cfg session w') = session
          /\ fst (_ensure_summary B cfg session w') = session)
    /\ (forall cfg session text w' e,
          complete B w' (intent_request cfg text) = Raise e ->
          fst (_track_intent B cfg session text w') = session)
    /\ (forall f reply self' w' session,
          sessions self' !! g_session_id f = Some session ->
          let cfg := config self' in
          let appended :=
            messages (_append_message cfg session (assistant_message reply)) in
          let w1 := tick w' in
          let w2 :=
            if _flag (g_enable_summarisation f) (ChatConfig.enable_summarisation cfg)
            then log (EvComplete (summary_request cfg appended)) w1 else w1 in
          exists session',
            sessions (fst (commit B f reply (self', w'))) !! g_session_id f
            = Some session'
            /\ ((exists e, complete B w1 (summary_request cfg appended) = Raise e) ->
                summary session' = summary session)
            /\ ((exists e, complete B w2 (intent_request cfg (g_message f)) = Raise e) ->
                intents session' = intents session)).
Proof.
  intros Hsid Hmsg.
  destruct (stream_chat_eager B self w sid msg kw Hsid Hmsg)
    as (g & self1 & w1 & session1 & Heq & Hpos & _ & _ & _ & _ & _ & _ & _
        & _ & _ & _ & _ & _ & Hfound & _).
  exists g, (self1, w1). split; [exact Heq|].
  destruct g as [f pos]. cbn [closure position_of fst snd] in *. subst pos.
  split.
  { pose proof (fetch_context_frame B (fst (after_create B self w sid)) sid msg kw
                  (snd (after_create B self w sid))) as Hframe.
    destruct (fetch_context B _ sid msg kw _) as [found [self' w']].
    apply Hframe. }
  split.
  { intros dir provider e st Hdir Hprov Hfail.
    assert (config (fst (after_create B self w sid)) = config self
            /\ vector_store_provider (fst (after_create B self w sid))
               = vector_store_provider self) as [Hc Hp].
    { unfold after_create. by destruct (sessions self !! sid). }
    rewrite <- Hc in Hfail. rewrite <- Hp in Hprov.
    rewrite (fetch_context_failure B _ sid msg kw _ dir provider e st Hdir Hprov Hfail)
      in Hfound.
    by inversion Hfound. }
  split; [intros n ys e st2; apply consume_failed_from_start|].
  split; [apply consume_run_from_start|].
  split.
  { intros cfg session w' e H. split.
    - by erewrite refresh_summary_failure.
    - by eapply ensure_summary_failure. }
  split.
  { intros cfg session text w' e H. by erewrite track_intent_failure. }
  intros f0 reply self' w' session Hlook.
  by apply commit_enrichment_failure.
Qed.

Lemma enrichment_failures_do_not_fail_turn_witness :
  exists g st1 st2,
    stream_chat Samples.B_down "s1" "hello" Samples.kw_store
      (Samples.svc0, Samples.w0) = (Ok g, st1)
    /\ g_context_text (closure g) = ""
    /\ consume Samples.B_down 3 g st1 = ((["Hel"; "lo"], Exhausted), st2)
    /\ (summary <$> sessions (fst st2) !! "s1") = Some ""
    /\ (intents <$> sessions (fst st2) !! "s1") = Some [].
Proof.
  destruct (enrichment_failures_do_not_fail_turn Samples.B_down Samples.svc0
              Samples.w0 "s1" "hello" Samples.kw_store
              ltac:(discriminate) ltac:(discriminate))
    as (g & st1 & Hcall & _).
  exists g, st1.
  assert (stream_chat Samples.B_down "s1" "hello" Samples.kw_store
            (Samples.svc0, Samples.w0)
          = (Ok g, st1)) as Hcall' by exact Hcall.
  vm_compute in Hcall. injection Hcall as <- <-.
  eexists. split; [exact Hcall'|].
  split; [reflexivity|]. split; [vm_compute; reflexivity|].
  split; vm_compute; reflexivity.
Defined.

(** ** A cap of zero, a blank session id, a store bound earlier *)

Lemma consume_exhausted_from_start (B : backend) f self w n ys st2 :
  consume B n {| closure := f; position_of := NotStarted |} (self, w)
  = ((ys, Exhausted), st2) ->
  exists reply,
    st2 = commit B f reply (self, log (EvStream (g_prompt_messages f)) w).
Proof.
  destruct n as [|n]; [done|]. destruct (g_truncated f) eqn:Ht.
  - rewrite consume_S. unfold next. cbn [closure position_of]. rewrite Ht.
    destruct n as [|n]; [done|].
    change ("" +:+ notice) with notice. rewrite consume_at_notice.
    destruct (consume B (S n) _ _) as [[xs c] st'] eqn:Hrest.
    intros H. inversion H; subst.
    apply consume_at_token_exhausted in Hrest as (_ & _ & ->). eauto.
  - rewrite consume_not_started by done. intros H.
    apply consume_at_token_exhausted in H as (_ & _ & ->). eauto.
Qed.

(** With a cap of at least one, a committed turn leaves the history within
    the cap, and both appends keep the most recent messages in order. *)
Lemma history_cap_positive (B : backend) self w sid msg kw g st1 n ys st2 :
  0 < ChatConfig.max_history_messages (config self) ->
  stream_chat B sid msg kw (self, w) = (Ok g, st1) ->
  consume B n g st1 = ((ys, Exhausted), st2) ->
  let session0 := session_before self sid (time_time B w) in
  let cap := Z.to_nat (ChatConfig.max_history_messages (config self)) in
  exists session1 session2 reply,
    sessions (fst st1) !! sid = Some session1
    /\ sessions (fst st2) !! sid = Some session2
    /\ messages session1
       = drop (length (messages session0 ++ [user_message msg]) - cap)
           (messages session0 ++ [user_message msg])
    /\ (length (messages session1) <= cap)%nat
    /\ messages session2
       = drop (length (messages session1 ++ [assistant_message reply]) - cap)
           (messages session1 ++ [assistant_message reply])
    /\ (length (messages session2) <= cap)%nat.
Proof.
  intros Hcap Hcall Hfull session0 cap.
  destruct (stream_chat_ok_valid _ _ _ _ _ _ _ _ Hcall) as [Hsid Hmsg].
  destruct (stream_chat_eager B self w sid msg kw Hsid Hmsg)
    as (g0 & self1 & w1 & session1 & Heq & Hpos & Hgsid & Hcfg & _ & _ & Hlook
        & Hm1 & _).
  rewrite Hcall in Heq. inversion Heq; subst g0 st1. clear Heq.
  destruct g as [f pos]. cbn [closure position_of snd fst] in *. subst pos sid.
  apply consume_exhausted_from_start in Hfull as [reply ->].
  destruct (commit_fields B f reply self1 (log (EvStream (g_prompt_messages f)) w1)
              session1 Hlook) as (session2 & Hlook2 & _ & Hm2 & _).
  rewrite Hcfg in Hm2.
  destruct (append_message_cap (config self) session0 (user_message msg) Hcap)
    as (Ha & Hb & _).
  destruct (append_message_cap (config self) session1 (assistant_message reply) Hcap)
    as (Hc & Hd & _).
  cbv zeta in Ha, Hb, Hc, Hd. fold session0 in Hm1.
  rewrite <- Hm1 in Ha, Hb. rewrite <- Hm2 in Hc, Hd.
  exists session1, session2, reply. subst cap.
  split; [done|]. split; [done|]. split; [exact Ha|]. split; [lia|].
  split; [exact Hc | lia].
Qed.

(** C2 (history cap), at a cap of zero.  With [max_history_messages = 0]
    the trim is [messages[-0:]], which is the whole list: after one
    committed turn the history holds both messages of the turn, more than
    the cap. *)
Theorem history_cap_zero_keeps_everything :
  exists g st1 st2 session,
    stream_chat Samples.B0 "s1" "hello" no_kwargs (Samples.svc_nocap, Samples.w0)
    = (Ok g, st1)
    /\ consume Samples.B0 3 g st1 = ((["Hel"; "lo"], Exhausted), st2)
    /\ sessions (fst st2) !! "s1" = Some session
    /\ messages session = [user_message "hello"; assistant_message "Hello"]
    /\ ChatConfig.max_history_messages (config (fst st2)) = 0
    /\ ~ (Z.of_nat (length (messages session))
          <= ChatConfig.max_history_messages (config (fst st2))).
Proof.
  eexists _, _, _, _. split; [reflexivity|]. split; [reflexivity|].
  split; [vm_compute; reflexivity|]. split; [reflexivity|].
  split; [reflexivity|]. vm_compute. by intros H.
Qed.

(** C5 (input validation), at a whitespace-only session id.  The check on
    the session id is [not session_id] only: a session id of one space
    passes it, and [stream_chat] creates a session under it. *)
Theorem whitespace_session_id_is_accepted :
  all_space " " = true
  /\ exists g st1,
       stream_chat Samples.B0 " " "hello" no_kwargs (Samples.svc0, Samples.w0)
       = (Ok g, st1)
       /\ (messages <$> sessions (fst st1) !! " ") = Some [user_message "hello"].
Proof.
  split; [reflexivity|]. eexists _, _. split; [reflexivity|].
  vm_compute. reflexivity.
Qed.

(** A call that names no store directory queries no cache, whatever store
    the session is bound to. *)
Lemma stream_chat_without_dir_no_query (B : backend) self w sid msg kw :
  kw_vector_store_dir kw = None ->
  queries (trace (snd (snd (stream_chat B sid msg kw (self, w)))))
  = queries (trace w).
Proof.
  intros Hdir. unfold stream_chat.
  destruct (negb (truthy sid)); [done|].
  destruct (negb (truthy msg) || negb (truthy (strip msg))); [done|].
  set (created := match sessions self !! sid with
                  | Some s => (s, (self, w))
                  | None => _create_session B sid (self, w)
                  end).
  assert (trace (snd (snd created)) = trace w) as Htr.
  { subst created. by destruct (sessions self !! sid). }
  destruct created as [session [self1 w1]]. cbn [snd] in Htr.
  rewrite fetch_context_without_dir by done.
  unfold _enforce_prompt_budget, _ensure_summary, _refresh_summary.
  repeat match goal with
         | |- context [if ?b then _ else _] => destruct b
         | |- context [match complete ?a ?b ?c with _ => _ end] =>
             destruct (complete a b c)
         end;
    cbn [snd trace log]; rewrite ?Htr; try done;
    unfold queries; cbn [reverse]; rewrite reverse_cons, omap_app; cbn;
    by rewrite app_nil_r.
Qed.

(** C6 (context retrieval), at a session bound by an earlier call.  The
    first call names the store: the cache is queried and the session is
    bound to it.  The second call, for the same session, names no store:
    context is enabled, a provider is configured and the session is still
    bound, yet no cache is queried and the turn has no context. *)
Theorem bound_store_is_not_queried :
  match stream_chat Samples.B0 "s1" "hello" Samples.kw_store
          (Samples.svc0, Samples.w0) with
  | (Ok g1, st1) =>
      match consume Samples.B0 3 g1 st1 with
      | ((ys, Exhausted), st1') =>
          queries (trace (snd st1')) = [("s1", "hello", 4)]
          /\ match stream_chat Samples.B0 "s1" "again" no_kwargs st1' with
             | (Ok g2, st2) =>
                 (vector_store_dir <$> sessions (fst st2) !! "s1")
                 = Some (Some "/store")
                 /\ _flag (enable_context no_kwargs)
                      (ChatConfig.enable_context (config (fst st2))) = true
                 /\ vector_store_provider (fst st2) <> None
                 /\ queries (trace (snd st2)) = [("s1", "hello", 4)]
                 /\ g_context_text (closure g2) = ""
                 /\ g_retrievals (closure g2) = []
             | (Raise _, _) => False
             end
      | _ => False
      end
  | (Raise _, _) => False
  end.
Proof. vm_compute. repeat split; done. Qed.

End ChatFacts.

Module ListingFacts.

Import ChatSessionState SessionListing.

Lemma insert_desc_perm (x : item) (l : list item) : insert_desc x l ≡ₚ x :: l.
Proof.
  induction l as [|y l IH]; cbn; [done|].
  destruct (item_updated_at y <=? item_updated_at x); [done|].
  rewrite IH. apply Permutation_swap.
Qed.

Lemma sorted_desc_perm (l : list item) : sorted_desc l ≡ₚ l.
Proof.
  induction l as [|x l IH]; cbn; [done|].
  by rewrite insert_desc_perm, IH.
Qed.

Lemma insert_desc_sorted (x : item) (l : list item) :
  StronglySorted newer_first l -> StronglySorted newer_first (insert_desc x l).
Proof.
  induction 1 as [|y l Hl IH Hy]; cbn.
  - repeat constructor.
  - destruct (item_updated_at y <=? item_updated_at x) eqn:E.
    + constructor; [by constructor|].
      constructor; [unfold newer_first; lia|].
      eapply Forall_impl; [exact Hy|]. unfold newer_first. intros z Hz. lia.
    + constructor; [exact IH|].
      rewrite insert_desc_perm. constructor; [unfold newer_first; lia | exact Hy].
Qed.

Lemma sorted_desc_sorted (l : list item) : StronglySorted newer_first (sorted_desc l).
Proof.
  induction l as [|x l IH]; cbn; [constructor|]. by apply insert_desc_sorted.
Qed.

(** Sorting keeps a list that is already newest-first as it is: sessions
    with equal [updated_at] are not rearranged. *)
Lemma sorted_desc_stable (l : list item) :
  StronglySorted newer_first l -> sorted_desc l = l.
Proof.
  induction 1 as [|x l Hl IH Hx]; [done|].
  change (insert_desc x (sorted_desc l) = x :: l).
  rewrite IH. destruct l as [|y l']; [done|]. cbn.
  apply Forall_cons in Hx as [Hxy _]. unfold newer_first in Hxy.
  destruct (item_updated_at y <=? item_updated_at x) eqn:E; [done | lia].
Qed.

(** X1.  [list_sessions] returns one item per stored session, the item of
    that session, arranged newest first by [updated_at]. *)
Theorem list_sessions_sorted_permutation (self : ChatService.t) :
  list_sessions self ≡ₚ item_of <$> (snd <$> map_to_list (ChatService.sessions self))
  /\ StronglySorted newer_first (list_sessions self)
  /\ length (list_sessions self) = size (ChatService.sessions self)
  /\ (forall it,
        it ∈ list_sessions self <->
        exists sid session,
          ChatService.sessions self !! sid = Some session /\ it = item_of session).
Proof.
  unfold list_sessions, list_sessions_of.
  pose proof (sorted_desc_perm
                (item_of <$> (snd <$> map_to_list (ChatService.sessions self)))) as Hperm.
  split; [exact Hperm|]. split; [apply sorted_desc_sorted|]. split.
  - rewrite Hperm, !length_fmap. apply length_map_to_list.
  - intros it. rewrite Hperm. rewrite list_elem_of_fmap. split.
    + intros (session & -> & Hin). apply list_elem_of_fmap in Hin.
      destruct Hin as ([sid s] & -> & Hin). apply elem_of_map_to_list in Hin.
      by exists sid, s.
    + intros (sid & session & Hlook & ->). exists session. split; [done|].
      apply list_elem_of_fmap. exists (sid, session). split; [done|].
      by apply elem_of_map_to_list.
Qed.

(** X2.  Every item of [list_sessions] describes a stored session: it
    counts that session's stored messages, quotes the content of the newest
    one (the empty string when there is none) and carries its last three
    intents in order (all of them when there are fewer). *)
Theorem list_sessions_items (self : ChatService.t) (it : item) :
  it ∈ list_sessions self ->
  exists sid session,
    ChatService.sessions self !! sid = Some session
    /\ item_session_id it = session_id session
    /\ item_updated_at it = updated_at session
    /\ message_count it = length (messages session)
    /\ last_message it = default "" (content <$> last (messages session))
    /\ item_intents it = drop (length (intents session) - 3) (intents session)
    /\ length (item_intents it) = (length (intents session) `min` 3)%nat.
Proof.
  intros Hin.
  assert (exists sid session,
            ChatService.sessions self !! sid = Some session /\ it = item_of session)
    as (sid & session & Hlook & ->).
  { unfold list_sessions, list_sessions_of in Hin. rewrite sorted_desc_perm in Hin.
    apply list_elem_of_fmap in Hin. destruct Hin as (session & -> & Hin).
    apply list_elem_of_fmap in Hin. destruct Hin as ([sid s] & -> & Hin).
    apply elem_of_map_to_list in Hin. by exists sid, s. }
  exists sid, session. cbn [item_of item_session_id item_updated_at message_count
    last_message item_intents].
  split; [done|]. split; [done|]. split; [done|]. split; [done|]. split.
  { by destruct (last (messages session)). }
  assert (slice_from (-3) (intents session)
          = drop (length (intents session) - 3) (intents session)) as ->.
  { unfold slice_from. change (-3 <? 0) with true. cbv iota. f_equal. lia. }
  split; [done|]. rewrite length_drop. lia.
Qed.

Lemma list_sessions_items_witness :
  exists it,
    it ∈ list_sessions
           (ChatService.with_sessions Samples.svc0
              {[ "s1" := with_intents
                           (with_messages (ChatSessionState.new "s1" 7)
                              [ChatSpec.user_message "hello"])
                           ["a"; "b"; "c"; "d"] ]})
    /\ item_intents it = ["b"; "c"; "d"] /\ last_message it = "hello".
Proof.
  eexists. split; [vm_compute; apply list_elem_of_here|].
  match goal with
  | |- context [item_intents ?it] =>
      destruct (list_sessions_items
                  (ChatService.with_sessions Samples.svc0
                     {[ "s1" := with_intents
                                  (with_messages (ChatSessionState.new "s1" 7)
                                     [ChatSpec.user_message "hello"])
                                  ["a"; "b"; "c"; "d"] ]}) it)
        as (sid & session & _ & _ & _ & _ & Hlast & Hint & _)
  end.
  { vm_compute. apply list_elem_of_here. }
  split; reflexivity.
Defined.

End ListingFacts.

Module LoaderFacts.

Import CachedVectorStoreManager CacheSpec CacheFacts.

(** ** Searching a loaded store *)

Lemma search_guards (B : backend) ld q k w :
  q = "" \/ k <= 0 \/ VectorStoreLoader.is_loaded ld = false ->
  exists e, VectorStoreLoader.search B ld q k w = (Raise e, w)
            /\ (q = "" \/ k <= 0 -> exists text, e = ValueError text).
Proof.
  intros H. unfold VectorStoreLoader.search.
  destruct (truthy q) eqn:Hq; cbn [negb]; [|eauto].
  destruct (k <=? 0) eqn:Hk; [eauto|].
  destruct H as [->|[H|H]]; [done|lia|].
  assert (q = "" \/ k <= 0 -> False) as Hno.
  { intros [->|?]; [done|lia]. }
  destruct (VectorStoreLoader._index ld); rewrite ?H; eexists; (split; [done|]);
    intros H'; by destruct (Hno H').
Qed.

(** What the loop of [search] makes of the pairs the index returned. *)
Lemma collect_hits (ld : VectorStoreLoader.t) (pairs : list (Z * pyfloat)) :
  id <$> VectorStoreLoader.collect ld pairs
  = List.filter (fun i => 0 <=? i) (fst <$> pairs)
  /\ Forall (fun h =>
               0 <= id h
               /\ metadata h !! "text" = None
               /\ h = VectorStoreLoader.result_entry ld (id h) (score h))
       (VectorStoreLoader.collect ld pairs).
Proof.
  induction pairs as [|[idx sc] rest [IH1 IH2]]; [by split|].
  cbn [VectorStoreLoader.collect fmap list_fmap fst List.filter].
  destruct (idx <? 0) eqn:E.
  - replace (0 <=? idx) with false by lia. by split.
  - replace (0 <=? idx) with true by lia. cbn [fmap list_fmap]. split.
    + cbn [fmap list_fmap] in IH1. by rewrite <- IH1.
    + constructor; [|exact IH2]. cbn. split; [lia|].
      split; [apply lookup_delete_eq | done].
Qed.

(** X11.  Every hit [search] returns has a non-negative id (the padding ids
    the index returns are dropped), is the metadata entry stored at that id
    split into its text (the empty string when the entry has none) and the
    other keys, and is empty (no text, no metadata) when the id is beyond
    the metadata list; the hits never carry a [text] key in their
    metadata. *)
Theorem search_hits (B : backend) (ld : VectorStoreLoader.t) (q : string) (k : Z)
    (w w' : world) (hits : list hit) :
  VectorStoreLoader.search B ld q k w = (Ok hits, w') ->
  q <> "" /\ 0 < k /\ VectorStoreLoader.is_loaded ld = true
  /\ trace w' = EvEmbed q :: trace w
  /\ Forall (fun h =>
               0 <= id h
               /\ metadata h !! "text" = None
               /\ match VectorStoreLoader._metadata ld !! Z.to_nat (id h) with
                  | Some entry =>
                      text h = default "" (entry !! "text")
                      /\ metadata h = delete "text" entry
                  | None => text h = "" /\ metadata h = ∅
                  end) hits.
Proof.
  unfold VectorStoreLoader.search. intros H.
  destruct (truthy q) eqn:Hq; cbn [negb] in H; [|done].
  destruct (k <=? 0) eqn:Hk; [done|].
  destruct (VectorStoreLoader._index ld) as [index|]; [|done].
  destruct (VectorStoreLoader.is_loaded ld) eqn:Hl; [|done].
  destruct (embed_documents B w [q]) as [[|[|x vector] rest]|e]; try done.
  destruct (negb _); [done|]. injection H as <- <-.
  split; [by apply truthy_true|]. split; [lia|]. split; [done|]. split; [done|].
  eapply Forall_impl; [apply collect_hits|].
  intros h (Hid & Htext & Heq). split; [done|]. split; [done|].
  rewrite Heq. cbn [text metadata id VectorStoreLoader.result_entry].
  destruct (id h <? Z.of_nat (length (VectorStoreLoader._metadata ld))) eqn:E.
  - destruct (VectorStoreLoader._metadata ld !! Z.to_nat (id h)) as [entry|] eqn:Hentry;
      [done|].
    apply lookup_ge_None in Hentry. lia.
  - rewrite (proj2 (lookup_ge_None _ _)) by lia.
    split; [done|]. by rewrite delete_empty.
Qed.

Lemma search_hits_witness :
  exists hits w',
    VectorStoreLoader.search Samples.B0 Samples.ld0 "what is alpha?" 3 Samples.w0
    = (Ok hits, w')
    /\ id <$> hits = [0; 1; 2]
    /\ text <$> hits = ["alpha"; ""; "gamma"].
Proof.
  destruct (search_hits Samples.B0 Samples.ld0 "what is alpha?" 3 Samples.w0 _ _ eq_refl)
    as (_ & _ & _ & _ & _).
  eexists _, _. split; [reflexivity|]. split; vm_compute; reflexivity.
Defined.

(** ** The cache around a query *)

(** After [get_loader] returned a loader, that loader is cached under the
    session. *)
Lemma get_loader_caches (B : backend) self w sid ld self1 w1 :
  get_loader B sid (self, w) = (Ok ld, (self1, w1)) ->
  sid <> ""
  /\ exists entry, _cache self1 !! sid = Some entry /\ loader entry = ld.
Proof.
  intros H. destruct (truthy sid) eqn:Hsid.
  - split; [by apply truthy_true|].
    pose proof (get_loader_spec B self w sid Hsid) as Hspec. cbv zeta in Hspec.
    rewrite H in Hspec. destruct Hspec as (_ & _ & _ & Hmine).
    destruct (survivor self (monotonic B w) sid) as [entry|].
    + destruct Hmine as ([= ->] & Hlook & _). by eexists.
    + destruct Hmine as [_ Hmine].
      destruct (read_store B (tick w) (store_dir self)) as [found|e].
      * destruct Hmine as ([= ->] & Hlook). by eexists.
      * by destruct Hmine.
  - unfold get_loader in H. by rewrite Hsid in H.
Qed.

Lemma touch_lookup (B : backend) self sid w sid' :
  loader <$> (_cache (fst (_touch B self sid w)) !! sid') = loader <$> (_cache self !! sid').
Proof.
  unfold _touch. destruct (_cache self !! sid) as [entry|] eqn:Hentry; [|done].
  cbn. destruct (decide (sid = sid')) as [->|Hne].
  - by rewrite lookup_insert_eq, Hentry.
  - by rewrite lookup_insert_ne.
Qed.

(** X12.  Once [query] has obtained the loader of a session, that loader
    stays cached under the session whatever becomes of the search: also
    when the search or the context building raises, so that the next query
    of the session within the TTL does not load the store again.  The
    arguments of the search are checked only then: an empty query text or a
    top_k that is not positive raises ValueError after the store was loaded
    and cached. *)
Theorem query_keeps_loader_cached (B : backend) (self : t) (w : world)
    (sid q : string) (k : Z) (ld : VectorStoreLoader.t) (self1 : t) (w1 : world) :
  get_loader B sid (self, log (EvQuery sid q k) w) = (Ok ld, (self1, w1)) ->
  let '(r, (self', w')) := query B sid q k (self, w) in
  (exists entry, _cache self' !! sid = Some entry /\ loader entry = ld)
  /\ (q = "" \/ k <= 0 ->
      (exists text, r = Raise (ValueError text)) /\ self' = self1 /\ w' = w1).
Proof.
  intros Hld. rewrite query_unfold, Hld.
  destruct (get_loader_caches _ _ _ _ _ _ _ Hld) as (Hsid & entry & Hlook & Hentry).
  pose proof (search_guards B ld q k w1) as Hguard.
  destruct (VectorStoreLoader.search B ld q k w1) as [[rs|e] w2] eqn:Hs.
  - assert (q = "" \/ k <= 0 -> False) as Hno.
    { intros H. destruct Hguard as (e & He & _); [tauto|]. discriminate He. }
    destruct (VectorStoreLoader.build_context B ld q k w2) as [[ctx|e] w3].
    + pose proof (touch_lookup B self1 sid w3 sid) as Ht.
      destruct (_touch B self1 sid w3) as [self2 w4]. cbn [fst] in Ht.
      rewrite Hlook in Ht. split; [|intros H; by destruct (Hno H)].
      destruct (_cache self2 !! sid) as [entry'|]; [|done].
      exists entry'. split; [done|]. cbn in Ht. congruence.
    + split; [by exists entry | intros H; by destruct (Hno H)].
  - split; [by exists entry|]. intros H.
    destruct Hguard as (e' & He & Hkind); [tauto|].
    injection He as <- <-. destruct (Hkind H) as [text ->]. eauto.
Qed.

Lemma query_keeps_loader_cached_witness :
  match query Samples.B0 "s1" "" 3 (CachedVectorStoreManager.new "/store", Samples.w0) with
  | (r, (self', w')) =>
      (exists text, r = Raise (ValueError text))
      /\ (loader <$> _cache self' !! "s1") = Some Samples.ld0
  end.
Proof.
  pose proof (query_keeps_loader_cached Samples.B0 (CachedVectorStoreManager.new "/store")
                Samples.w0 "s1" "" 3 _ _ _ eq_refl) as H.
  destruct (query Samples.B0 "s1" "" 3 _) as [r [self' w']].
  destruct H as ((entry & Hlook & Hentry) & Hval).
  split; [apply Hval; by left|]. rewrite Hlook. cbn. by rewrite Hentry.
Defined.

(** X13.  A store whose metadata list is empty is loaded without error and
    cached, but it never counts as loaded: every search on it raises, and
    with a non-empty query and a positive top_k the error is RuntimeError. *)
Theorem empty_metadata_never_searchable (B : backend) (dir : string) (w w1 : world)
    (index : faiss_index) (ld : VectorStoreLoader.t) :
  read_store B w dir = Ok (index, []) ->
  VectorStoreLoader.load_vector_store B dir w = (Ok ld, w1) ->
  VectorStoreLoader.is_loaded ld = false
  /\ forall q k w',
       exists e,
         VectorStoreLoader.search B ld q k w' = (Raise e, w')
         /\ (q <> "" -> 0 < k -> exists text, e = RuntimeError text).
Proof.
  intros Hread Hload. unfold VectorStoreLoader.load_vector_store in Hload.
  rewrite Hread in Hload. injection Hload as <- <-.
  split; [done|]. intros q k w'. unfold VectorStoreLoader.search.
  destruct (truthy q) eqn:Hq; cbn [negb].
  - destruct (k <=? 0) eqn:Hk.
    + eexists. split; [done|]. intros _ Hpos. lia.
    + cbn. eexists. split; [done|]. eauto.
  - eexists. split; [done|]. intros Hne. by apply truthy_true in Hne; congruence.
Qed.

Lemma empty_metadata_never_searchable_witness :
  exists ld w1 e,
    VectorStoreLoader.load_vector_store
      {| time_time := time_time Samples.B0; monotonic := monotonic Samples.B0;
         read_store := fun _ _ => Ok ({| ntotal := 0; d := 2 |}, []);
         embed_documents := embed_documents Samples.B0;
         index_search := index_search Samples.B0;
         complete := complete Samples.B0;
         stream_completion := stream_completion Samples.B0;
         vstore_importable := true |} "/empty" Samples.w0 = (Ok ld, w1)
    /\ VectorStoreLoader.search Samples.B0 ld "anything" 3 w1
       = (Raise (RuntimeError e), w1).
Proof.
  eexists _, _, _. split; [reflexivity|].
  match goal with
  | |- VectorStoreLoader.search _ ?ld _ _ ?w1 = _ =>
      destruct (empty_metadata_never_searchable
                  {| time_time := time_time Samples.B0; monotonic := monotonic Samples.B0;
                     read_store := fun _ _ => Ok ({| ntotal := 0; d := 2 |}, []);
                     embed_documents := embed_documents Samples.B0;
                     index_search := index_search Samples.B0;
                     complete := complete Samples.B0;
                     stream_completion := stream_completion Samples.B0;
                     vstore_importable := true |}
                  "/empty" Samples.w0 w1 {| ntotal := 0; d := 2 |} ld eq_refl eq_refl)
        as [_ H]
  end.
  reflexivity.
Defined.

(** ** The managers of a provider *)

Lemma touch_fields (B : backend) self sid w :
  store_dir (fst (_touch B self sid w)) = store_dir self
  /\ ttl_seconds (fst (_touch B self sid w)) = ttl_seconds self.
Proof. unfold _touch. by destruct (_cache self !! sid). Qed.

Lemma get_loader_fields (B : backend) self w sid :
  store_dir (fst (snd (get_loader B sid (self, w)))) = store_dir self
  /\ ttl_seconds (fst (snd (get_loader B sid (self, w)))) = ttl_seconds self.
Proof.
  destruct (truthy sid) eqn:Hsid.
  - pose proof (get_loader_spec B self w sid Hsid) as H. cbv zeta in H.
    destruct (get_loader B sid (self, w)) as [r [self' w']]. by destruct H as (? & ? & _).
  - unfold get_loader. by rewrite Hsid.
Qed.

(** A query changes neither the store directory nor the TTL of its manager. *)
Lemma query_fields (B : backend) self w sid q k :
  store_dir (fst (snd (query B sid q k (self, w)))) = store_dir self
  /\ ttl_seconds (fst (snd (query B sid q k (self, w)))) = ttl_seconds self.
Proof.
  rewrite query_unfold.
  pose proof (get_loader_fields B self (log (EvQuery sid q k) w) sid) as H0.
  destruct (get_loader B sid _) as [[ld|e] [self1 w1]]; cbn [fst snd] in *; [|done].
  destruct (VectorStoreLoader.search B ld q k w1) as [[rs|e] w2]; [|done].
  destruct (VectorStoreLoader.build_context B ld q k w2) as [[ctx|e] w3]; [|done].
  pose proof (touch_fields B self1 sid w3) as H1.
  destruct (_touch B self1 sid w3) as [self2 w4]. cbn [fst snd] in *.
  destruct H0, H1. split; congruence.
Qed.

(** X14.  A provider keeps one manager per store directory and never drops
    one.  [build_context] leaves the managers of all other directories as
    they were, keeps every directory that had a manager, and, when the vector
    store module is available and the directory is not empty, leaves a
    manager filed under the directory it was asked for, whether the query
    succeeded or raised; managers stay filed under their own store
    directory.  When the module is unavailable or the directory is empty it
    raises and touches nothing. *)
Theorem provider_keeps_managers (B : backend) (dir sid q : string) (k : Z)
    (p : VectorStoreContextProvider.t) (w : world) :
  let '(r, (p', w')) :=
    VectorStoreContextProvider.build_context B dir sid q k (p, w) in
  (forall d, d <> dir ->
     VectorStoreContextProvider._managers p' !! d
     = VectorStoreContextProvider._managers p !! d)
  /\ (forall d, is_Some (VectorStoreContextProvider._managers p !! d) ->
                is_Some (VectorStoreContextProvider._managers p' !! d))
  /\ (provider_wf p -> provider_wf p')
  /\ if vstore_importable B && truthy dir
     then exists m,
            VectorStoreContextProvider._managers p' !! dir = Some m
            /\ store_dir m
               = store_dir (default (CachedVectorStoreManager.new dir)
                              (VectorStoreContextProvider._managers p !! dir))
     else (exists e, r = Raise e) /\ p' = p /\ w' = w.
Proof.
  unfold VectorStoreContextProvider.build_context.
  destruct (vstore_importable B); cbn [negb andb].
  2: { repeat split; try done. by eexists. }
  destruct (truthy dir); cbn [negb].
  2: { repeat split; try done. by eexists. }
  set (manager := match VectorStoreContextProvider._managers p !! dir with
                  | Some m => m
                  | None => CachedVectorStoreManager.new dir
                  end).
  assert (manager = default (CachedVectorStoreManager.new dir)
                      (VectorStoreContextProvider._managers p !! dir)) as Hm.
  { subst manager. by destruct (VectorStoreContextProvider._managers p !! dir). }
  pose proof (query_fields B manager w sid q k) as [Hdir _].
  destruct (query B sid q k (manager, w)) as [r [manager' w']]. cbn [fst snd] in Hdir.
  cbn [VectorStoreContextProvider._managers].
  split. { intros d Hne. by rewrite lookup_insert_ne. }
  split.
  { intros d Hsome. destruct (decide (d = dir)) as [->|Hne].
    - rewrite lookup_insert_eq. by eexists.
    - by rewrite lookup_insert_ne. }
  split.
  { intros Hwf d m. cbn [VectorStoreContextProvider._managers].
    destruct (decide (d = dir)) as [->|Hne].
    - rewrite lookup_insert_eq. intros [= <-]. rewrite Hdir. subst manager.
      destruct (VectorStoreContextProvider._managers p !! dir) as [m0|] eqn:Hm0.
      + by apply Hwf.
      + done.
    - rewrite lookup_insert_ne by done. apply Hwf. }
  exists manager'. rewrite lookup_insert_eq. split; [done|]. by rewrite Hdir, Hm.
Qed.

End LoaderFacts.

Module TraceFacts.

Import TraceSpec.

Lemma only_refl P w : only P w w.
Proof. exists []. by split. Qed.

Lemma only_same P w w' : trace w' = trace w -> only P w w'.
Proof. intros H. exists []. by split. Qed.

Lemma only_trans P w1 w2 w3 : only P w1 w2 -> only P w2 w3 -> only P w1 w3.
Proof.
  intros (e1 & H1 & F1) (e2 & H2 & F2). exists (e2 ++ e1).
  split; [by rewrite H2, H1, app_assoc | by apply Forall_app].
Qed.

Lemma only_log P e w : P e = true -> only P w (log e w).
Proof. intros H. exists [e]. split; [done | by constructor]. Qed.

Lemma only_weaken (P Q : event -> bool) w w' :
  (forall ev, P ev = true -> Q ev = true) -> only P w w' -> only Q w w'.
Proof.
  intros HPQ (evs & H & F). exists evs. split; [done|].
  eapply Forall_impl; [exact F | exact HPQ].
Qed.

Lemma only_streams P w w' :
  (forall p, P (EvStream p) = false) ->
  only P w w' -> streams (trace w') = streams (trace w).
Proof.
  intros HP (evs & -> & F). unfold streams. rewrite omap_app.
  assert (omap (fun ev => match ev with EvStream p => Some p | _ => None end) evs = [])
    as ->; [|done].
  induction F as [|ev evs Hev F IH]; [done|]. cbn.
  destruct ev; try exact IH. by rewrite HP in Hev.
Qed.

Lemma search_only (B : backend) ld q k w :
  only is_retrieval w (snd (VectorStoreLoader.search B ld q k w)).
Proof.
  unfold VectorStoreLoader.search.
  repeat (match goal with
          | |- context [match ?x with _ => _ end] => destruct x
          end; cbn [snd]);
    auto using only_refl, only_log.
Qed.

Lemma loader_build_context_only (B : backend) ld q k w :
  only is_retrieval w (snd (VectorStoreLoader.build_context B ld q k w)).
Proof.
  unfold VectorStoreLoader.build_context, bind, ret.
  pose proof (search_only B ld q k w) as H.
  destruct (VectorStoreLoader.search B ld q k w) as [[hits|e] w']; exact H.
Qed.

Lemma get_loader_only (B : backend) self w sid :
  only is_retrieval w (snd (snd (CachedVectorStoreManager.get_loader B sid (self, w)))).
Proof.
  destruct (truthy sid) eqn:Hsid.
  - pose proof (CacheFacts.get_loader_spec B self w sid Hsid) as H. cbv zeta in H.
    destruct (CachedVectorStoreManager.get_loader B sid (self, w)) as [r [self' w']].
    destruct H as (_ & _ & _ & H). cbn [snd].
    destruct (CacheSpec.survivor self (monotonic B w) sid).
    + destruct H as (_ & _ & H). by apply only_same.
    + destruct H as [H _].
      exists [EvLoad (CachedVectorStoreManager.store_dir self)].
      split; [done | by constructor].
  - unfold CachedVectorStoreManager.get_loader. rewrite Hsid. apply only_refl.
Qed.

Lemma query_only (B : backend) self w sid q k :
  only is_retrieval w (snd (snd (CachedVectorStoreManager.query B sid q k (self, w)))).
Proof.
  rewrite CacheFacts.query_unfold.
  assert (only is_retrieval w (log (EvQuery sid q k) w)) as Hq by by apply only_log.
  pose proof (get_loader_only B self (log (EvQuery sid q k) w) sid) as H0.
  destruct (CachedVectorStoreManager.get_loader B sid _) as [[ld|e] [self1 w1]];
    cbn [snd] in *; [|eauto using only_trans].
  pose proof (search_only B ld q k w1) as H1.
  destruct (VectorStoreLoader.search B ld q k w1) as [[rs|e] w2];
    cbn [snd] in *; [|eauto using only_trans].
  pose proof (loader_build_context_only B ld q k w2) as H2.
  destruct (VectorStoreLoader.build_context B ld q k w2) as [[ctx|e] w3];
    cbn [snd] in *; [|eauto using only_trans].
  assert (only is_retrieval w3
            (snd (CachedVectorStoreManager._touch B self1 sid w3))) as H3.
  { apply only_same, CacheFacts.touch_trace. }
  eauto using only_trans.
Qed.

Lemma provider_only (B : backend) dir sid q k self w :
  only is_retrieval w
    (snd (snd (VectorStoreContextProvider.build_context B dir sid q k (self, w)))).
Proof.
  unfold VectorStoreContextProvider.build_context.
  destruct (vstore_importable B); cbn [negb]; [|apply only_refl].
  destruct (truthy dir); cbn [negb]; [|apply only_refl].
  set (manager := match VectorStoreContextProvider._managers self !! dir with
                  | Some m => m
                  | None => CachedVectorStoreManager.new dir
                  end).
  pose proof (query_only B manager w sid q k) as H.
  by destruct (CachedVectorStoreManager.query B sid q k (manager, w)) as [r [manager' w']].
Qed.

End TraceFacts.

Module TurnFacts.

Import ChatSessionState ChatService ChatSpec ChatFacts TraceSpec TraceFacts.

(** ** Sessions other than the one of the turn *)

Lemma commit_others (B : backend) f reply self w :
  config (fst (commit B f reply (self, w))) = config self
  /\ vector_store_provider (fst (commit B f reply (self, w))) = vector_store_provider self
  /\ forall sid', sid' <> g_session_id f ->
       sessions (fst (commit B f reply (self, w))) !! sid' = sessions self !! sid'.
Proof.
  unfold commit. destruct (sessions self !! g_session_id f) as [session|]; [|done].
  unfold read_clock.
  destruct (if _flag (g_enable_summarisation f) _ then _ else _) as [session3 w2].
  destruct (if _flag (g_enable_intent_tracking f) _ then _ else _) as [session4 w3].
  cbn. split; [done|]. split; [done|].
  intros sid' Hne. by rewrite lookup_insert_ne.
Qed.

Lemma next_others (B : backend) g st :
  closure (snd (fst (next B g st))) = closure g
  /\ config (fst (snd (next B g st))) = config (fst st)
  /\ vector_store_provider (fst (snd (next B g st))) = vector_store_provider (fst st)
  /\ forall sid', sid' <> g_session_id (closure g) ->
       sessions (fst (snd (next B g st))) !! sid' = sessions (fst st) !! sid'.
Proof.
  destruct g as [f pos], st as [self w].
  unfold next, start_stream, advance. cbn [closure position_of fst snd].
  destruct pos as [|reply|reply [|token rest] [e0|]|];
    repeat match goal with
           | |- context [g_truncated ?x] => destruct (g_truncated x)
           | |- context [stream_completion ?a ?b ?c] =>
               destruct (stream_completion a b c) as [[|? ?] [?|]]
           end;
    cbn [fst snd closure]; try done;
    match goal with
    | |- context [commit ?a ?b ?c (?s, ?w')] =>
        pose proof (commit_others a b c s w') as (H1 & H2 & H3);
        destruct (commit a b c (s, w')); cbn [fst snd] in *; done
    end.
Qed.

Lemma consume_others (B : backend) n : forall g st,
  config (fst (snd (consume B n g st))) = config (fst st)
  /\ vector_store_provider (fst (snd (consume B n g st))) = vector_store_provider (fst st)
  /\ forall sid', sid' <> g_session_id (closure g) ->
       sessions (fst (snd (consume B n g st))) !! sid' = sessions (fst st) !! sid'.
Proof.
  induction n as [|n IH]; intros g st; [done|].
  rewrite consume_S. pose proof (next_others B g st) as (Hc & Hcfg & Hprov & Hoth).
  destruct (next B g st) as [[[x| |e] g1] st1]; cbn [fst snd] in *; [|done..].
  specialize (IH g1 st1). rewrite Hc in IH.
  destruct (consume B n g1 st1) as [[xs c] st2]. cbn [fst snd] in *.
  destruct IH as (IH1 & IH2 & IH3).
  split; [congruence|]. split; [congruence|].
  intros sid' Hne. rewrite IH3 by done. by apply Hoth.
Qed.

(** What [stream_chat] does to the rest of the service, whatever its
    arguments. *)
Lemma stream_chat_others (B : backend) self w sid msg kw :
  config (fst (snd (stream_chat B sid msg kw (self, w)))) = config self
  /\ (forall g, fst (stream_chat B sid msg kw (self, w)) = Ok g ->
        g_session_id (closure g) = sid)
  /\ forall sid', sid' <> sid ->
       sessions (fst (snd (stream_chat B sid msg kw (self, w)))) !! sid'
       = sessions self !! sid'.
Proof.
  destruct (decide (sid = "")) as [->|Hsid].
  { by cbn. }
  destruct (decide (strip msg = "")) as [Hmsg|Hmsg].
  { destruct (stream_chat_rejects B self w sid msg kw) as [text ->]; [|done].
    right. by apply strip_empty. }
  destruct (stream_chat_eager B self w sid msg kw Hsid Hmsg)
    as (g & self1 & w1 & session1 & -> & _ & Hg & Hcfg & _ & Hoth & _).
  cbn [fst snd]. split; [done|]. split; [|done].
  by intros g' [= <-].
Qed.

(** X3.  A turn belongs to one session: neither the call of [stream_chat]
    for one session id nor any consumption of its stream, to whatever point,
    changes the stored state of a session with another id. *)
Theorem turn_leaves_other_sessions (B : backend) (self : t) (w : world)
    (sid msg : string) (kw : kwargs) (sid' : string) :
  sid' <> sid ->
  let '(r, st1) := stream_chat B sid msg kw (self, w) in
  sessions (fst st1) !! sid' = sessions self !! sid'
  /\ forall g n,
       r = Ok g ->
       sessions (fst (snd (consume B n g st1))) !! sid' = sessions self !! sid'.
Proof.
  intros Hne.
  pose proof (stream_chat_others B self w sid msg kw) as (_ & Hg & Hoth).
  destruct (stream_chat B sid msg kw (self, w)) as [r st1]. cbn [fst snd] in *.
  split; [by apply Hoth|].
  intros g n ->. pose proof (consume_others B n g st1) as (_ & _ & H).
  rewrite H; [by apply Hoth|]. by rewrite (Hg g eq_refl).
Qed.

Lemma turn_leaves_other_sessions_witness :
  match stream_chat Samples.B0 "s1" "hello" no_kwargs (Samples.svc0, Samples.w0) with
  | (Ok g1, st1) =>
      match stream_chat Samples.B0 "s2" "hi" no_kwargs (snd (consume Samples.B0 1 g1 st1)) with
      | (Ok g2, st2) =>
          sessions (fst (snd (consume Samples.B0 3 g2 st2))) !! "s1"
          = sessions (fst st1) !! "s1"
      | _ => False
      end
  | _ => False
  end.
Proof.
  destruct (stream_chat Samples.B0 "s1" "hello" no_kwargs (Samples.svc0, Samples.w0))
    as [[g1|e] st1] eqn:H1; [|by vm_compute in H1].
  pose proof (turn_leaves_other_sessions Samples.B0
                (fst (snd (consume Samples.B0 1 g1 st1)))
                (snd (snd (consume Samples.B0 1 g1 st1)))
                "s2" "hi" no_kwargs "s1" ltac:(discriminate)) as H.
  rewrite <- surjective_pairing in H.
  destruct (stream_chat Samples.B0 "s2" "hi" no_kwargs (snd (consume Samples.B0 1 g1 st1)))
    as [[g2|e] st2] eqn:H2.
  - destruct H as [_ H]. rewrite (H g2 3%nat eq_refl).
    vm_compute in H1. injection H1 as <- <-. reflexivity.
  - vm_compute in H1. injection H1 as <- <-. by vm_compute in H2.
Defined.

(** ** Sessions are never dropped *)

Lemma commit_keeps (B : backend) f reply self w sid' :
  is_Some (sessions self !! sid') ->
  is_Some (sessions (fst (commit B f reply (self, w))) !! sid').
Proof.
  intros Hsome. destruct (decide (sid' = g_session_id f)) as [->|Hne].
  - destruct Hsome as [session Hlook].
    destruct (commit_fields B f reply self w session Hlook) as (session' & -> & _).
    by eexists.
  - pose proof (commit_others B f reply self w) as (_ & _ & H). by rewrite H.
Qed.

Lemma next_keeps (B : backend) g st sid' :
  is_Some (sessions (fst st) !! sid') ->
  is_Some (sessions (fst (snd (next B g st))) !! sid').
Proof.
  intros Hsome. destruct g as [f pos], st as [self w].
  unfold next, start_stream, advance. cbn [closure position_of fst snd] in *.
  destruct pos as [|reply|reply [|token rest] [e0|]|];
    repeat match goal with
           | |- context [g_truncated ?x] => destruct (g_truncated x)
           | |- context [stream_completion ?a ?b ?c] =>
               destruct (stream_completion a b c) as [[|? ?] [?|]]
           end;
    cbn [fst snd]; try done;
    match goal with
    | |- context [commit ?a ?b ?c (?s, ?w')] =>
        pose proof (commit_keeps a b c s w' sid' Hsome);
        destruct (commit a b c (s, w')); cbn [fst snd] in *; done
    end.
Qed.

Lemma consume_keeps (B : backend) n sid' : forall g st,
  is_Some (sessions (fst st) !! sid') ->
  is_Some (sessions (fst (snd (consume B n g st))) !! sid').
Proof.
  induction n as [|n IH]; intros g st Hsome; [done|].
  rewrite consume_S. pose proof (next_keeps B g st sid' Hsome) as Hn.
  destruct (next B g st) as [[[x| |e] g1] st1]; cbn [fst snd] in *; [|done..].
  specialize (IH g1 st1 Hn). by destruct (consume B n g1 st1) as [[xs c] st2].
Qed.

Lemma stream_chat_keeps (B : backend) self w sid msg kw sid' :
  is_Some (sessions self !! sid') ->
  is_Some (sessions (fst (snd (stream_chat B sid msg kw (self, w)))) !! sid').
Proof.
  intros Hsome. destruct (decide (sid' = sid)) as [->|Hne].
  - destruct (decide (sid = "")) as [->|Hsid]; [by cbn|].
    destruct (decide (strip msg = "")) as [Hmsg|Hmsg].
    { destruct (stream_chat_rejects B self w sid msg kw) as [text ->]; [|done].
      right. by apply strip_empty. }
    destruct (stream_chat_eager B self w sid msg kw Hsid Hmsg)
      as (g & self1 & w1 & session1 & -> & _ & _ & _ & _ & _ & Hlook & _).
    cbn [fst snd]. by eexists.
  - pose proof (stream_chat_others B self w sid msg kw) as (_ & _ & H).
    by rewrite H.
Qed.

(** X4.  No turn removes a session or changes the configuration: once
    [get_history] answers for a session id, it still answers for it after any
    later call of [stream_chat] (for that or another session, accepted or
    rejected) and after any consumption of the stream. *)
Theorem sessions_are_kept (B : backend) (self : t) (w : world)
    (sid msg : string) (kw : kwargs) (sid' : string) (known : ChatSessionState.t) :
  get_history sid' self = Ok known ->
  let '(r, st1) := stream_chat B sid msg kw (self, w) in
  (exists s1, get_history sid' (fst st1) = Ok s1)
  /\ config (fst st1) = config self
  /\ forall g n,
       r = Ok g ->
       (exists s2, get_history sid' (fst (snd (consume B n g st1))) = Ok s2)
       /\ config (fst (snd (consume B n g st1))) = config self.
Proof.
  intros Hknown.
  assert (is_Some (sessions self !! sid')) as Hsome.
  { unfold get_history in Hknown. by destruct (sessions self !! sid'). }
  pose proof (stream_chat_keeps B self w sid msg kw sid' Hsome) as H1.
  pose proof (stream_chat_others B self w sid msg kw) as (Hcfg & _).
  destruct (stream_chat B sid msg kw (self, w)) as [r st1]. cbn [fst snd] in *.
  assert (forall self', is_Some (sessions self' !! sid') ->
                        exists s, get_history sid' self' = Ok s) as Hh.
  { intros self' [s Hs]. exists s. unfold get_history. by rewrite Hs. }
  split; [by apply Hh|]. split; [done|].
  intros g n _. split.
  - apply Hh. by apply consume_keeps.
  - pose proof (consume_others B n g st1) as (H & _). congruence.
Qed.

Lemma sessions_are_kept_witness :
  exists s1,
    get_history "s1"
      (fst (snd (stream_chat Samples.B0 "s2" "hi" no_kwargs
                   (with_sessions Samples.svc0
                      {[ "s1" := ChatSessionState.new "s1" 7 ]}, Samples.w0))))
    = Ok s1.
Proof.
  pose proof (sessions_are_kept Samples.B0
                (with_sessions Samples.svc0 {[ "s1" := ChatSessionState.new "s1" 7 ]})
                Samples.w0 "s2" "hi" no_kwargs "s1" (ChatSessionState.new "s1" 7)
                eq_refl) as H.
  destruct (stream_chat Samples.B0 "s2" "hi" no_kwargs _) as [r st1].
  exact (proj1 H).
Defined.

(** ** The prompt that is sent *)

(** The prompt and the flag a generator holds are what budget enforcement
    made of the assembled prompt. *)
Lemma stream_chat_prompt (B : backend) self w sid msg kw :
  sid <> "" ->
  strip msg <> "" ->
  exists g st1 session2 w2,
    stream_chat B sid msg kw (self, w) = (Ok g, st1)
    /\ messages session2
       = messages (_append_message (config self)
                     (session_before self sid (time_time B w)) (user_message msg))
    /\ (g_prompt_messages (closure g), g_truncated (closure g))
       = fst (_enforce_prompt_budget B (config self) session2
                (_build_prompt (config self) session2 (g_context_text (closure g))
                   (system_prompt kw))
                (ChatConfig.max_prompt_tokens (config self)) w2).
Proof.
  intros Hsid Hmsg.
  pose proof (strip_nonempty _ Hmsg) as Hmsg'.
  apply truthy_true in Hsid, Hmsg, Hmsg'.
  unfold stream_chat. rewrite Hsid, Hmsg, Hmsg'. cbn [negb orb].
  set (created := match sessions self !! sid with
                  | Some s => (s, (self, w))
                  | None => _create_session B sid (self, w)
                  end).
  assert (fst created = session_before self sid (time_time B w)
          /\ config (fst (snd created)) = config self) as (Hs0 & Hcfg0).
  { subst created. unfold session_before.
    by destruct (sessions self !! sid) as [s|]. }
  destruct created as [session [self1 w1]]. cbn [fst snd] in *. subst session.
  pose proof (fetch_context_frame B self1 sid msg kw w1) as Hfc.
  destruct (fetch_context B self1 sid msg kw w1) as [[ctx rs] [self2 w2]].
  destruct Hfc as [Hcfg2 _]. rewrite Hcfg2, Hcfg0.
  change {| role := "user"; content := msg |} with (user_message msg).
  set (session2 := _append_message (config self) _ (user_message msg)).
  destruct (_enforce_prompt_budget B (config self) session2 _ _ w2)
    as [[prompt' truncated] [session3 w3]] eqn:Hbud.
  eexists _, _, session2, w2. split; [reflexivity|].
  cbn [closure g_prompt_messages g_truncated g_context_text].
  split; [subst session2; apply append_message_with_dir|].
  by rewrite Hbud.
Qed.

Lemma filter_system_app (l k : list message) :
  List.filter is_system (l ++ k) = List.filter is_system l ++ List.filter is_system k.
Proof. apply List.filter_app. Qed.

Lemma last_filter_last {A} (P : A -> bool) (l : list A) (x : A) :
  last l = Some x -> P x = true -> last (List.filter P l) = Some x.
Proof.
  destruct l as [|y l _] using rev_ind; [done|].
  rewrite last_snoc. intros [= ->] HP.
  rewrite List.filter_app. cbn. rewrite HP. apply last_snoc.
Qed.

Lemma last_filter_true {A} (P : A -> bool) (l : list A) (x : A) :
  last (List.filter P l) = Some x -> P x = true.
Proof.
  intros H. apply last_Some in H as [l' H].
  assert (In x (List.filter P l)) as Hin.
  { rewrite H. apply in_or_app. right. by left. }
  by apply List.filter_In in Hin as [_ ?].
Qed.

(** Budget enforcement keeps a leading system message in front and a final
    message that is not a system message at the end. *)
Lemma enforce_budget_ends (B : backend) cfg session prompt max_tokens w first final :
  head prompt = Some first ->
  is_system first = true ->
  last prompt = Some final ->
  is_system final = false ->
  let prompt' := fst (fst (_enforce_prompt_budget B cfg session prompt max_tokens w)) in
  head prompt' = Some first /\ last prompt' = Some final.
Proof.
  intros Hhead Hsys Hlast Hnot. unfold _enforce_prompt_budget.
  destruct (max_tokens <=? 0); [done|].
  destruct (_ <=? max_tokens); [done|].
  destruct (_ensure_summary B cfg session w) as [session1 w1]. cbn [fst].
  split.
  - destruct prompt as [|x rest]; [done|]. injection Hhead as ->.
    cbn [List.filter]. by rewrite Hsys.
  - rewrite last_slice_last.
    rewrite (last_filter_last (fun m => negb (is_system m)) prompt final Hlast)
      by (by rewrite Hnot).
    rewrite !app_assoc. apply last_snoc.
Qed.

(** X5.  The request a turn sends to the model opens with the system prompt
    (the override of the call when it is non-empty, the configured one
    otherwise) and, for a cap that is not negative, closes with the user
    message of this turn, whether or not the prompt was truncated for the
    budget. *)
Theorem prompt_opens_and_closes (B : backend) (self : t) (w : world)
    (sid msg : string) (kw : kwargs) :
  sid <> "" ->
  strip msg <> "" ->
  0 <= ChatConfig.max_history_messages (config self) ->
  exists g st1,
    stream_chat B sid msg kw (self, w) = (Ok g, st1)
    /\ head (g_prompt_messages (closure g))
       = Some {| role := "system";
                 content := match system_prompt kw with
                            | Some s => if truthy s then s
                                        else ChatConfig.system_prompt (config self)
                            | None => ChatConfig.system_prompt (config self)
                            end |}
    /\ last (g_prompt_messages (closure g)) = Some (user_message msg).
Proof.
  intros Hsid Hmsg Hcap.
  destruct (stream_chat_prompt B self w sid msg kw Hsid Hmsg)
    as (g & st1 & session2 & w2 & Hcall & Hmsgs & Hprompt).
  exists g, st1. split; [exact Hcall|].
  apply (f_equal fst) in Hprompt. cbn [fst] in Hprompt. rewrite Hprompt.
  apply enforce_budget_ends; try done.
  unfold _build_prompt. rewrite !app_assoc, last_app. rewrite Hmsgs.
  by rewrite append_message_last.
Qed.

Lemma prompt_opens_and_closes_witness :
  exists g st1,
    stream_chat Samples.B0 "s1" "hello" no_kwargs (Samples.svc_tight, Samples.w0)
    = (Ok g, st1)
    /\ g_truncated (closure g) = true
    /\ head (g_prompt_messages (closure g))
       = Some {| role := "system"; content := "Be brief." |}
    /\ last (g_prompt_messages (closure g)) = Some (user_message "hello").
Proof.
  destruct (prompt_opens_and_closes Samples.B0 Samples.svc_tight Samples.w0
              "s1" "hello" no_kwargs
              ltac:(discriminate) ltac:(discriminate) ltac:(discriminate))
    as (g & st1 & Hcall & Hhead & Hlast).
  exists g, st1. split; [exact Hcall|]. split; [|by split].
  vm_compute in Hcall. by injection Hcall as <- <-.
Defined.

(** ** What truncation leaves of a prompt *)

Lemma total_cost_app (l k : list message) :
  total_cost (l ++ k) = total_cost l + total_cost k.
Proof.
  unfold total_cost. induction l as [|x l IH]; cbn; [done|].
  rewrite IH. lia.
Qed.

Lemma total_cost_cons (x : message) (l : list message) :
  total_cost (x :: l) = _estimate_tokens (content x) + total_cost l.
Proof. reflexivity. Qed.

Lemma total_cost_nonneg (l : list message) : 0 <= total_cost l.
Proof.
  unfold total_cost. induction l as [|x l IH]; cbn; [done|].
  unfold _estimate_tokens at 1. lia.
Qed.

Lemma total_cost_split (l : list message) :
  total_cost l
  = total_cost (List.filter is_system l)
    + total_cost (List.filter (fun m => negb (is_system m)) l).
Proof.
  induction l as [|x l IH]; [done|].
  cbn [List.filter]. destruct (is_system x); cbn [negb];
    rewrite !total_cost_cons, IH; lia.
Qed.

Lemma filter_nonsystem_system (l : list message) :
  List.filter (fun m => negb (is_system m)) (List.filter is_system l) = [].
Proof.
  induction l as [|x l IH]; [done|]. cbn.
  destruct (is_system x) eqn:E; [|done]. cbn. by rewrite E.
Qed.

Lemma filter_nonsystem_idem (l : list message) :
  List.filter (fun m => negb (is_system m))
    (List.filter (fun m => negb (is_system m)) l)
  = List.filter (fun m => negb (is_system m)) l.
Proof.
  induction l as [|x l IH]; [done|]. cbn.
  destruct (is_system x) eqn:E; cbn; [done|]. rewrite E. cbn. by rewrite IH.
Qed.

(** The shape of a truncated prompt, as [_enforce_prompt_budget] builds it. *)
Lemma enforce_budget_truncated (B : backend) cfg session prompt max_tokens w
    prompt' st' :
  _enforce_prompt_budget B cfg session prompt max_tokens w = ((prompt', true), st') ->
  0 < max_tokens /\ max_tokens < total_cost prompt
  /\ prompt'
     = List.filter is_system prompt
       ++ (if truthy (summary (fst st')) then [summary_note (summary (fst st'))] else [])
       ++ [truncation_note]
       ++ match last (List.filter (fun m => negb (is_system m)) prompt) with
          | Some m => [m]
          | None => []
          end.
Proof.
  unfold _enforce_prompt_budget. fold (total_cost prompt).
  destruct (max_tokens <=? 0) eqn:Hmax; [done|].
  destruct (total_cost prompt <=? max_tokens) eqn:Hcost; [done|].
  destruct (_ensure_summary B cfg session w) as [session1 w1].
  intros [= <- <-]. cbn [fst]. rewrite last_slice_last.
  split; [lia|]. split; [lia | done].
Qed.

(** X6.  When budget enforcement truncates, the budget was positive and the
    prompt cost more than it; the rebuilt prompt starts with all system
    messages of the original in their order, contains the truncation note,
    and has at most one message that is not a system message: the last such
    message of the original. *)
Theorem truncated_prompt_shape (B : backend) (cfg : ChatConfig.t)
    (session : ChatSessionState.t) (prompt : list message) (max_tokens : Z)
    (w : world) (prompt' : list message) (st' : ChatSessionState.t * world) :
  _enforce_prompt_budget B cfg session prompt max_tokens w = ((prompt', true), st') ->
  0 < max_tokens /\ max_tokens < total_cost prompt
  /\ List.filter is_system prompt `prefix_of` prompt'
  /\ truncation_note ∈ prompt'
  /\ List.filter (fun m => negb (is_system m)) prompt'
     = match last (List.filter (fun m => negb (is_system m)) prompt) with
       | Some m => [m]
       | None => []
       end
  /\ (length (List.filter (fun m => negb (is_system m)) prompt') <= 1)%nat.
Proof.
  intros H. apply enforce_budget_truncated in H as (Hmax & Hcost & ->).
  split; [done|]. split; [done|]. split; [by eexists|]. split.
  { rewrite !elem_of_app. right. right. left. apply list_elem_of_here. }
  assert (List.filter (fun m => negb (is_system m))
            (List.filter is_system prompt
             ++ (if truthy (summary (fst st')) then [summary_note (summary (fst st'))]
                 else [])
             ++ [truncation_note]
             ++ match last (List.filter (fun m => negb (is_system m)) prompt) with
                | Some m => [m]
                | None => []
                end)
          = match last (List.filter (fun m => negb (is_system m)) prompt) with
            | Some m => [m]
            | None => []
            end) as ->.
  { rewrite !List.filter_app, filter_nonsystem_system.
    assert (List.filter (fun m => negb (is_system m))
              (if truthy (summary (fst st')) then [summary_note (summary (fst st'))]
               else []) = []) as -> by (by destruct (truthy _)).
    cbn [app]. change (List.filter _ [truncation_note]) with (@nil message).
    cbn [app].
    destruct (last (List.filter _ prompt)) as [m|] eqn:Hl; [|done].
    apply last_filter_true in Hl. cbn. by rewrite Hl. }
  split; [done|]. destruct (last _); cbn; lia.
Qed.

Lemma truncated_prompt_shape_witness :
  exists prompt' st',
    _enforce_prompt_budget Samples.B0 Samples.cfg_tight (ChatSessionState.new "s1" 0)
      [ {| role := "system"; content := "Be brief." |};
        user_message "first"; assistant_message "reply"; user_message "second" ]
      1 Samples.w0
    = ((prompt', true), st')
    /\ List.filter (fun m => negb (is_system m)) prompt' = [user_message "second"].
Proof.
  eexists _, _. split; [reflexivity|].
  match goal with
  | |- List.filter _ ?p = _ =>
      destruct (truncated_prompt_shape Samples.B0 Samples.cfg_tight
                  (ChatSessionState.new "s1" 0)
                  [ {| role := "system"; content := "Be brief." |};
                    user_message "first"; assistant_message "reply";
                    user_message "second" ]
                  1 Samples.w0 p _ eq_refl) as (_ & _ & _ & _ & H & _)
  end.
  exact H.
Defined.

(** X7.  Truncation does not check the rebuilt prompt against the budget.
    Its cost is the cost of the original system messages, of the summary
    note when there is a summary, of the truncation note (15) and of the last
    non-system message; so when the original prompt had at most one
    non-system message, the rebuilt prompt costs more than the original and
    is over the budget as well. *)
Theorem truncation_can_exceed_budget (B : backend) (cfg : ChatConfig.t)
    (session : ChatSessionState.t) (prompt : list message) (max_tokens : Z)
    (w : world) (prompt' : list message) (st' : ChatSessionState.t * world) :
  _enforce_prompt_budget B cfg session prompt max_tokens w = ((prompt', true), st') ->
  total_cost prompt'
  = total_cost (List.filter is_system prompt)
    + (if truthy (summary (fst st'))
       then _estimate_tokens (content (summary_note (summary (fst st')))) else 0)
    + 15
    + match last (List.filter (fun m => negb (is_system m)) prompt) with
      | Some m => _estimate_tokens (content m)
      | None => 0
      end
  /\ ((length (List.filter (fun m => negb (is_system m)) prompt) <= 1)%nat ->
      total_cost prompt + 15 <= total_cost prompt' /\ max_tokens < total_cost prompt').
Proof.
  intros H. apply enforce_budget_truncated in H as (Hmax & Hcost & ->).
  rewrite !total_cost_app.
  assert (total_cost [truncation_note] = 15) as -> by reflexivity.
  assert (total_cost (if truthy (summary (fst st'))
                      then [summary_note (summary (fst st'))] else [])
          = if truthy (summary (fst st'))
            then _estimate_tokens (content (summary_note (summary (fst st')))) else 0)
    as Hnote.
  { destruct (truthy _); [|done]. unfold total_cost. cbn. lia. }
  assert (total_cost match last (List.filter (fun m => negb (is_system m)) prompt) with
                     | Some m => [m]
                     | None => []
                     end
          = match last (List.filter (fun m => negb (is_system m)) prompt) with
            | Some m => _estimate_tokens (content m)
            | None => 0
            end) as Hlast.
  { destruct (last _); [|done]. unfold total_cost. cbn. lia. }
  rewrite Hnote, Hlast. split; [lia|].
  intros Hone.
  assert (0 <= if truthy (summary (fst st'))
               then _estimate_tokens (content (summary_note (summary (fst st')))) else 0)
    as Hpos.
  { destruct (truthy _); [unfold _estimate_tokens|]; lia. }
  assert (total_cost (List.filter (fun m => negb (is_system m)) prompt)
          = match last (List.filter (fun m => negb (is_system m)) prompt) with
            | Some m => _estimate_tokens (content m)
            | None => 0
            end) as Hns.
  { destruct (List.filter (fun m => negb (is_system m)) prompt) as [|x [|y l]];
      cbn in Hone; [done| |lia]. unfold total_cost. cbn. lia. }
  rewrite (total_cost_split prompt) in Hcost |- *. rewrite Hns in Hcost |- *. lia.
Qed.

Lemma truncation_can_exceed_budget_witness :
  exists prompt' st',
    _enforce_prompt_budget Samples.B0 Samples.cfg_tight (ChatSessionState.new "s1" 0)
      [ {| role := "system"; content := "Be brief." |}; user_message "hello" ]
      1 Samples.w0
    = ((prompt', true), st')
    /\ 1 < total_cost prompt'.
Proof.
  eexists _, _. split; [reflexivity|].
  match goal with
  | |- _ < total_cost ?p =>
      destruct (truncation_can_exceed_budget Samples.B0 Samples.cfg_tight
                  (ChatSessionState.new "s1" 0)
                  [ {| role := "system"; content := "Be brief." |};
                    user_message "hello" ]
                  1 Samples.w0 p _ eq_refl) as (_ & H)
  end.
  apply H. cbn. lia.
Defined.

(** ** What a committed turn records *)

Lemma stream_chat_closure (B : backend) self w sid msg kw g st1 :
  stream_chat B sid msg kw (self, w) = (Ok g, st1) ->
  position_of g = NotStarted
  /\ g_session_id (closure g) = sid
  /\ g_message (closure g) = msg
  /\ g_enable_summarisation (closure g) = enable_summarisation kw
  /\ g_enable_intent_tracking (closure g) = enable_intent_tracking kw.
Proof.
  unfold stream_chat.
  destruct (negb (truthy sid)); [done|].
  destruct (negb (truthy msg) || negb (truthy (strip msg))); [done|].
  destruct (match sessions self !! sid with
            | Some s => (s, (self, w))
            | None => _create_session B sid (self, w)
            end) as [session [self1 w1]].
  destruct (fetch_context B self1 sid msg kw w1) as [[ctx rs] [self2 w2]].
  destruct (_enforce_prompt_budget B (config self2) _ _ _ w2)
    as [[prompt' truncated] [session3 w3]].
  by intros [= <- <-].
Qed.

Lemma commit_record (B : backend) f reply self w session :
  sessions self !! g_session_id f = Some session ->
  exists session' added,
    sessions (fst (commit B f reply (self, w))) !! g_session_id f = Some session'
    /\ session_id session' = session_id session
    /\ vector_store_dir session' = vector_store_dir session
    /\ last_context session' = g_context_text f
    /\ last_retrievals session' = g_retrievals f
    /\ updated_at session' = time_time B w
    /\ intents session' = intents session ++ added
    /\ (length added <= 1)%nat
    /\ (_flag (g_enable_intent_tracking f)
          (ChatConfig.enable_intent_tracking (config self)) = false -> added = [])
    /\ (_flag (g_enable_summarisation f)
          (ChatConfig.enable_summarisation (config self)) = false ->
        summary session' = summary session).
Proof.
  intros Hlook. unfold commit. rewrite Hlook. unfold read_clock.
  pose proof (append_message_fields (config self) session
                {| role := "assistant"; content := reply |}) as Hf.
  cbv zeta in Hf. destruct Hf as (Hid & Hsum & Hint & _ & _ & Hdir & _).
  set (session2 := with_turn_record _ _ _ _).
  assert (session_id session2 = session_id session
          /\ vector_store_dir session2 = vector_store_dir session
          /\ last_context session2 = g_context_text f
          /\ last_retrievals session2 = g_retrievals f
          /\ updated_at session2 = time_time B w
          /\ intents session2 = intents session
          /\ summary session2 = summary session) as H2 by done.
  clearbody session2.
  set (r3 := if _flag (g_enable_summarisation f) _ then _ else _).
  assert ((fst r3 = session2 \/ exists s, fst r3 = with_summary session2 s)
          /\ (_flag (g_enable_summarisation f)
                (ChatConfig.enable_summarisation (config self)) = false ->
              fst r3 = session2)) as [Hs3 Hoff3].
  { subst r3. destruct (_flag (g_enable_summarisation f) _); [|by split; [left|]].
    pose proof (refresh_summary_frame B (config self) session2 (tick w)) as H.
    destruct (_refresh_summary _ _ _ _). by split; [apply H|]. }
  destruct r3 as [session3 w2]. cbn [fst] in *.
  set (r4 := if _flag (g_enable_intent_tracking f) _ then _ else _).
  assert (exists added,
            fst r4 = with_intents session3 (intents session3 ++ added)
            /\ (length added <= 1)%nat
            /\ (_flag (g_enable_intent_tracking f)
                  (ChatConfig.enable_intent_tracking (config self)) = false ->
                added = [])) as (added & Hs4 & Hlen & Hoff4).
  { subst r4. destruct (_flag (g_enable_intent_tracking f) _).
    - unfold _track_intent. destruct (complete B w2 _) as [s|e]; cbn [fst].
      + destruct (truthy s).
        * exists [strip s]. split; [done|]. split; [cbn; lia | done].
        * exists []. rewrite app_nil_r. split; [by destruct session3|].
          split; [cbn; lia | done].
      + exists []. rewrite app_nil_r. split; [by destruct session3|].
        split; [cbn; lia | done].
    - exists []. rewrite app_nil_r. cbn [fst]. split; [by destruct session3|].
      split; [cbn; lia | done]. }
  destruct r4 as [session4 w3]. cbn [fst] in *. subst session4.
  eexists _, added. cbn [fst with_sessions sessions].
  rewrite lookup_insert_eq. split; [done|].
  destruct H2 as (H2a & H2b & H2c & H2d & H2e & H2f & H2g).
  destruct Hs3 as [->|[s ->]]; cbn;
    (repeat split; try done; try congruence).
  intros Hoff. apply Hoff3 in Hoff. apply (f_equal summary) in Hoff.
  cbn in Hoff. congruence.
Qed.

(** X8.  A turn consumed to its end stores, in its session, the context and
    the retrievals this turn's call obtained and the clock reading of the
    commit, and keeps the session id and the bound store directory.  A turn
    whose call named no store directory therefore resets [last_context] to
    the empty string and [last_retrievals] to the empty list. *)
Theorem committed_turn_record (B : backend) (self : t) (w : world)
    (sid msg : string) (kw : kwargs) (g : generator) (st1 : t * world)
    (n : nat) (ys : list string) (st2 : t * world) :
  stream_chat B sid msg kw (self, w) = (Ok g, st1) ->
  consume B n g st1 = ((ys, Exhausted), st2) ->
  exists s1 s2,
    get_history sid (fst st1) = Ok s1
    /\ get_history sid (fst st2) = Ok s2
    /\ session_id s2 = session_id s1
    /\ vector_store_dir s2 = vector_store_dir s1
    /\ last_context s2 = g_context_text (closure g)
    /\ last_retrievals s2 = g_retrievals (closure g)
    /\ updated_at s2
       = time_time B (log (EvStream (g_prompt_messages (closure g))) (snd st1))
    /\ (kw_vector_store_dir kw = None ->
        last_context s2 = "" /\ last_retrievals s2 = []).
Proof.
  intros Hcall Hfull.
  destruct (stream_chat_ok_valid _ _ _ _ _ _ _ _ Hcall) as [Hsid Hmsg].
  destruct (stream_chat_eager B self w sid msg kw Hsid Hmsg)
    as (g0 & self1 & w1 & session1 & Heq & Hpos & Hgsid & _ & _ & _ & Hlook
        & _ & _ & _ & _ & _ & _ & _ & Hfound & _).
  rewrite Hcall in Heq. inversion Heq; subst g0 st1. clear Heq.
  destruct g as [f pos]. cbn [closure position_of snd fst] in *. subst pos sid.
  apply consume_exhausted_from_start in Hfull as [reply ->].
  destruct (commit_record B f reply self1 (log (EvStream (g_prompt_messages f)) w1)
              session1 Hlook)
    as (session2 & added & Hlook2 & Hid & Hdir & Hctx & Hrs & Hupd & _).
  exists session1, session2. unfold get_history. rewrite Hlook, Hlook2.
  do 7 (split; [done|]).
  intros Hnone. rewrite fetch_context_without_dir in Hfound by done.
  cbn in Hfound. split; congruence.
Qed.

Lemma committed_turn_record_witness :
  exists g st1 st2,
    stream_chat Samples.B0 "s1" "hello" Samples.kw_store (Samples.svc0, Samples.w0)
    = (Ok g, st1)
    /\ consume Samples.B0 3 g st1 = ((["Hel"; "lo"], Exhausted), st2)
    /\ (last_context <$> sessions (fst st2) !! "s1")
       = Some ("alpha" +:+ newline +:+ newline +:+ "gamma").
Proof.
  destruct (committed_turn_record Samples.B0 Samples.svc0 Samples.w0
              "s1" "hello" Samples.kw_store _ _ 3 _ _ eq_refl eq_refl)
    as (s1 & s2 & _ & Hh & _ & _ & Hctx & _).
  eexists _, _, _. split; [reflexivity|]. split; [reflexivity|].
  unfold get_history in Hh.
  destruct (sessions _ !! "s1") as [s|]; [|discriminate Hh].
  injection Hh as ->. cbn [fmap option_fmap option_map]. rewrite Hctx.
  vm_compute. reflexivity.
Defined.

(** X9.  The intents of a session only grow, by at most one per turn: after
    any consumption of a turn's stream they are the intents from before with
    at most one appended, and with nothing appended when intent tracking is
    switched off for the call (or by the configuration when the call leaves
    it open).  With summarisation switched off in the same way, the commit
    leaves the summary as it was. *)
Theorem intents_only_grow (B : backend) (self : t) (w : world)
    (sid msg : string) (kw : kwargs) (g : generator) (st1 : t * world)
    (n : nat) (out : list string * consumption) (st2 : t * world) :
  stream_chat B sid msg kw (self, w) = (Ok g, st1) ->
  consume B n g st1 = (out, st2) ->
  exists s1 s2 added,
    sessions (fst st1) !! sid = Some s1
    /\ sessions (fst st2) !! sid = Some s2
    /\ intents s2 = intents s1 ++ added
    /\ (length added <= 1)%nat
    /\ (_flag (enable_intent_tracking kw)
          (ChatConfig.enable_intent_tracking (config self)) = false -> added = [])
    /\ (_flag (enable_summarisation kw)
          (ChatConfig.enable_summarisation (config self)) = false ->
        summary s2 = summary s1).
Proof.
  intros Hcall Hrun.
  destruct (stream_chat_closure _ _ _ _ _ _ _ _ Hcall) as (Hpos & Hgsid & _ & Hgs & Hgi).
  destruct (stream_chat_ok_valid _ _ _ _ _ _ _ _ Hcall) as [Hsid Hmsg].
  destruct (stream_chat_eager B self w sid msg kw Hsid Hmsg)
    as (g0 & self1 & w1 & session1 & Heq & _ & _ & Hcfg & _ & _ & Hlook & _).
  rewrite Hcall in Heq. inversion Heq; subst g0 st1. clear Heq.
  cbn [fst snd] in *.
  assert (fst st2 = self1 -> exists s1 s2 added,
            sessions self1 !! sid = Some s1
            /\ sessions (fst st2) !! sid = Some s2
            /\ intents s2 = intents s1 ++ added
            /\ (length added <= 1)%nat
            /\ (_flag (enable_intent_tracking kw)
                  (ChatConfig.enable_intent_tracking (config self)) = false ->
                added = [])
            /\ (_flag (enable_summarisation kw)
                  (ChatConfig.enable_summarisation (config self)) = false ->
                summary s2 = summary s1)) as Hsame.
  { intros ->. exists session1, session1, []. rewrite app_nil_r.
    repeat split; try done. cbn. lia. }
  destruct out as [ys [g'|  |e]].
  - apply consume_suspended_frame in Hrun as [Hframe _]. by apply Hsame.
  - destruct g as [f pos]. cbn [closure position_of] in *. subst pos sid.
    apply consume_exhausted_from_start in Hrun as [reply ->].
    destruct (commit_record B f reply self1 (log (EvStream (g_prompt_messages f)) w1)
                session1 Hlook)
      as (session2 & added & Hlook2 & _ & _ & _ & _ & _ & Hint & Hlen & Hoffi & Hoffs).
    rewrite Hgs, Hcfg in Hoffs. rewrite Hgi, Hcfg in Hoffi.
    by exists session1, session2, added.
  - apply consume_failed_frame in Hrun. by apply Hsame.
Qed.

Lemma intents_only_grow_witness :
  exists g st1 st2,
    stream_chat Samples.B0 "s1" "hello" no_kwargs (Samples.svc0, Samples.w0)
    = (Ok g, st1)
    /\ consume Samples.B0 3 g st1 = ((["Hel"; "lo"], Exhausted), st2)
    /\ (intents <$> sessions (fst st2) !! "s1") = Some ["a summary"].
Proof.
  destruct (intents_only_grow Samples.B0 Samples.svc0 Samples.w0
              "s1" "hello" no_kwargs _ _ 3 _ _ eq_refl eq_refl)
    as (s1 & s2 & added & _ & Hlook & _).
  eexists _, _, _. split; [reflexivity|]. split; [reflexivity|].
  vm_compute. reflexivity.
Defined.

(** ** Which outside calls a turn makes, and when *)

Lemma fetch_context_only (B : backend) self sid msg kw w :
  only is_retrieval w (snd (snd (fetch_context B self sid msg kw w))).
Proof.
  unfold fetch_context.
  destruct (kw_vector_store_dir kw) as [dir|]; [|apply only_refl].
  destruct (vector_store_provider self) as [provider|]; [|apply only_refl].
  destruct (_ && _); [|apply only_refl].
  pose proof (provider_only B dir sid msg
                (or_int (top_k kw) (ChatConfig.context_top_k (config self)))
                provider w) as H.
  by destruct (VectorStoreContextProvider.build_context B dir sid msg _ _)
    as [[found|e] [provider' w']].
Qed.

Lemma enforce_budget_only (B : backend) cfg session prompt max_tokens w :
  only is_complete w
    (snd (snd (_enforce_prompt_budget B cfg session prompt max_tokens w))).
Proof.
  unfold _enforce_prompt_budget, _ensure_summary, _refresh_summary.
  repeat match goal with
         | |- context [if ?b then _ else _] => destruct b
         | |- context [match complete ?a ?b ?c with _ => _ end] =>
             destruct (complete a b c)
         end;
    cbn [snd]; auto using only_refl, only_log.
Qed.

Lemma stream_chat_only (B : backend) self w sid msg kw :
  only call_time_event w (snd (snd (stream_chat B sid msg kw (self, w)))).
Proof.
  unfold stream_chat.
  destruct (negb (truthy sid)); [apply only_refl|].
  destruct (negb (truthy msg) || negb (truthy (strip msg))); [apply only_refl|].
  set (created := match sessions self !! sid with
                  | Some s => (s, (self, w))
                  | None => _create_session B sid (self, w)
                  end).
  assert (trace (snd (snd created)) = trace w) as Htr.
  { subst created. by destruct (sessions self !! sid). }
  destruct created as [session [self1 w1]]. cbn [snd] in Htr.
  pose proof (fetch_context_only B self1 sid msg kw w1) as Hf.
  destruct (fetch_context B self1 sid msg kw w1) as [[ctx rs] [self2 w2]].
  cbn [snd] in Hf.
  match goal with
  | |- context [_enforce_prompt_budget ?a ?b ?c ?d ?e ?f] =>
      pose proof (enforce_budget_only a b c d e f) as Hb;
      destruct (_enforce_prompt_budget a b c d e f) as [[prompt' truncated] [session3 w3]]
  end.
  cbn [snd] in *.
  eapply only_trans; [apply (only_same _ w w1 Htr)|].
  eapply only_trans; [eapply only_weaken; [|exact Hf]|eapply only_weaken; [|exact Hb]];
    intros ev Hev; unfold call_time_event; rewrite Hev; by rewrite ?orb_true_r.
Qed.

(** The commit sends at most the summary request and the intent request. *)
Lemma commit_trace (B : backend) f reply self w :
  exists completes,
    trace (snd (commit B f reply (self, w))) = completes ++ trace w
    /\ Forall (fun ev => is_complete ev = true) completes
    /\ (length completes <= 2)%nat.
Proof.
  unfold commit. destruct (sessions self !! g_session_id f) as [session|];
    [|exists []; repeat split; [done | cbn; lia]].
  unfold read_clock, _refresh_summary, _track_intent.
  repeat match goal with
         | |- context [if ?b then _ else _] => destruct b
         | |- context [match complete ?a ?b ?c with _ => _ end] =>
             destruct (complete a b c)
         end;
    cbn [snd trace log tick];
    first [ by exists []; repeat split; [done | cbn; lia]
          | by eexists [_]; repeat split; [repeat constructor | cbn; lia]
          | by eexists [_; _]; repeat split; [repeat constructor | cbn; lia] ].
Qed.

Lemma consume_at_token_idle (B : backend) f ending n :
  forall pending reply st ys c st',
    consume B n {| closure := f; position_of := AtToken reply pending ending |} st
    = ((ys, c), st') ->
    c <> Exhausted ->
    st' = st.
Proof.
  induction n as [|n IH]; intros pending reply st ys c st' H Hc.
  { by inversion H. }
  rewrite consume_S in H. unfold next, advance in H.
  cbn [closure position_of] in H.
  destruct pending as [|token rest].
  - destruct ending as [e0|]; [by inversion H|].
    destruct (commit B f reply st). inversion H; subst. done.
  - destruct (consume B n _ st) as [[xs c'] st2] eqn:Hrest.
    inversion H; subst. by eapply IH.
Qed.

(** X10.  The model is called only by consuming the stream.  The call of
    [stream_chat] sends no streaming request (it makes retrieval calls and at
    most the summary request of budget enforcement).  A consumption of the
    stream then either sends nothing (it was not advanced, or only as far as
    the notice), or sends exactly one streaming request, carrying the prompt
    fixed at call time, followed by at most two one-shot requests, and by
    none unless the stream was consumed to its end. *)
Theorem model_is_called_on_consumption (B : backend) (self : t) (w : world)
    (sid msg : string) (kw : kwargs) (g : generator) (st1 : t * world)
    (n : nat) (out : list string * consumption) (st2 : t * world) :
  stream_chat B sid msg kw (self, w) = (Ok g, st1) ->
  consume B n g st1 = (out, st2) ->
  streams (trace (snd st1)) = streams (trace w)
  /\ (trace (snd st2) = trace (snd st1)
      \/ exists completes,
           trace (snd st2)
           = completes ++ EvStream (g_prompt_messages (closure g)) :: trace (snd st1)
           /\ Forall (fun ev => is_complete ev = true) completes
           /\ (length completes <= 2)%nat
           /\ (snd out <> Exhausted -> completes = [])).
Proof.
  intros Hcall Hrun. split.
  { pose proof (stream_chat_only B self w sid msg kw) as H. rewrite Hcall in H.
    cbn [snd] in H. eapply only_streams; [|exact H]. done. }
  destruct (stream_chat_closure _ _ _ _ _ _ _ _ Hcall) as (Hpos & _).
  destruct g as [f pos], st1 as [self1 w1], out as [ys c].
  cbn [closure position_of snd] in *. subst pos.
  assert (forall reply m ys' c' st',
            consume B (S m) {| closure := f; position_of := AtToken reply
                       (fst (stream_completion B w1 (g_prompt_messages f)))
                       (snd (stream_completion B w1 (g_prompt_messages f))) |}
              (self1, log (EvStream (g_prompt_messages f)) w1) = ((ys', c'), st') ->
            exists completes,
              trace (snd st')
              = completes ++ EvStream (g_prompt_messages f) :: trace w1
              /\ Forall (fun ev => is_complete ev = true) completes
              /\ (length completes <= 2)%nat
              /\ (c' <> Exhausted -> completes = [])) as Hstream.
  { intros reply m ys' c' st' H.
    destruct c' as [g'| |e].
    - apply consume_at_token_idle in H as ->; [|done]. exists [].
      split; [done|]. split; [constructor|]. split; [cbn; lia | done].
    - apply consume_at_token_exhausted in H as (_ & _ & ->).
      destruct (commit_trace B f
                  (reply_after reply (fst (stream_completion B w1 (g_prompt_messages f))))
                  self1 (log (EvStream (g_prompt_messages f)) w1))
        as (completes & Ht & HF & Hlen).
      exists completes. by rewrite Ht.
    - apply consume_at_token_idle in H as ->; [|done]. exists [].
      split; [done|]. split; [constructor|]. split; [cbn; lia | done]. }
  destruct n as [|n]; [inversion Hrun; by left|].
  destruct (g_truncated f) eqn:Ht.
  - rewrite consume_S in Hrun. unfold next in Hrun.
    cbn [closure position_of] in Hrun. rewrite Ht in Hrun.
    destruct n as [|n].
    { cbn in Hrun. inversion Hrun. by left. }
    change ("" +:+ notice) with notice in Hrun. rewrite consume_at_notice in Hrun.
    destruct (consume B (S n) _ _) as [[xs c'] st'] eqn:Hrest.
    inversion Hrun; subst. right. by eapply Hstream.
  - rewrite consume_not_started in Hrun by done. right. by eapply Hstream.
Qed.

Lemma model_is_called_on_consumption_witness :
  exists g st1 g' st2,
    stream_chat Samples.B0 "s1" "hello" Samples.kw_store (Samples.svc0, Samples.w0)
    = (Ok g, st1)
    /\ streams (trace (snd st1)) = []
    /\ consume Samples.B0 1 g st1 = ((["Hel"], Suspended g'), st2)
    /\ streams (trace (snd st2)) = [g_prompt_messages (closure g)].
Proof.
  destruct (model_is_called_on_consumption Samples.B0 Samples.svc0 Samples.w0
              "s1" "hello" Samples.kw_store _ _ 1 _ _ eq_refl eq_refl)
    as (Hnone & _).
  eexists _, _, _, _. split; [reflexivity|]. split; [exact Hnone|].
  split; [reflexivity|]. vm_compute. reflexivity.
Defined.

End TurnFacts.

Module ClientFacts.

Import ChatLLMClient.

Lemma get_dict (items : list (string * Json.t)) (key : string) (d : Json.t) :
  Json.get (Json.Dict items) key d = inr (default d (Json.assoc key items)).
Proof. reflexivity. Qed.

Lemma get_inr (v : Json.t) (key : string) (d x : Json.t) :
  Json.get v key d = inr x ->
  exists items, v = Json.Dict items /\ x = default d (Json.assoc key items).
Proof. destruct v; try done. intros [= <-]. by eexists. Qed.

Lemma or_else_truthy (a b : Json.t) :
  Json.truthy a = true -> Json.or_else a b = a.
Proof. unfold Json.or_else. by intros ->. Qed.

Lemma or_else_falsy (a b : Json.t) :
  Json.truthy a = false -> Json.or_else a b = b.
Proof. unfold Json.or_else. by intros ->. Qed.

Lemma truthy_default (o : option Json.t) :
  Json.truthy (default Json.Null o) = true ->
  exists v, o = Some v /\ Json.truthy v = true.
Proof. destruct o; [by eexists|done]. Qed.

(** ** One payload of the stream *)

(** X15.  [_extract_delta] reads the content of the delta of the first
    choice: of a payload whose [choices] is a list that starts with a
    dictionary whose [delta] is a dictionary holding a string under
    [content], it returns that string, whatever else the payload, the choice
    and the delta hold and whatever choices follow. *)
Theorem extract_delta_reads_first_choice (L : pylib)
    (items choice delta : list (string * Json.t)) (others : list Json.t) (s : string) :
  Json.assoc "choices" items = Some (Json.List (Json.Dict choice :: others)) ->
  Json.assoc "delta" choice = Some (Json.Dict delta) ->
  Json.assoc "content" delta = Some (Json.Str s) ->
  _extract_delta L (Json.Dict items) = s.
Proof.
  intros Hc Hd Hs. unfold _extract_delta, _extract_delta_try. cbv zeta.
  rewrite get_dict, Hc. cbn [from_option]; unfold Datatypes.id.
  rewrite or_else_truthy by done. cbn [Json.truthy negb Json.first].
  rewrite get_dict, Hd. cbn [from_option]; unfold Datatypes.id.
  destruct delta as [|item delta]; [done|].
  rewrite or_else_truthy by done. rewrite get_dict, Hs. cbn [from_option]; unfold Datatypes.id.
  by destruct s.
Qed.

Lemma extract_delta_reads_first_choice_witness :
  _extract_delta Samples.lib0
    (Json.Dict [("id", Json.Str "c1");
                ("choices",
                 Json.List [Json.Dict [("index", Json.Int 0);
                                       ("delta", Json.Dict [("role", Json.Null);
                                                            ("content", Json.Str "Hel")])];
                            Json.Null])])
  = "Hel".
Proof.
  eapply extract_delta_reads_first_choice; reflexivity.
Defined.

(** X16.  Conversely, [_extract_delta] gives a token that is not empty only
    for a payload of that shape: a dictionary whose [choices] is a list
    starting with a dictionary, whose [delta] is a dictionary, whose
    [content] is truthy; the token is [str] of that content.  For every
    other payload the result is the empty string, and no exception leaves
    the function. *)
Theorem token_comes_from_first_choice (L : pylib) (payload : Json.t) :
  _extract_delta L payload <> "" ->
  exists items choice others delta content,
    payload = Json.Dict items
    /\ Json.assoc "choices" items = Some (Json.List (Json.Dict choice :: others))
    /\ Json.assoc "delta" choice = Some (Json.Dict delta)
    /\ Json.assoc "content" delta = Some content
    /\ Json.truthy content = true
    /\ _extract_delta L payload = py_str L content.
Proof.
  unfold _extract_delta, _extract_delta_try. cbv zeta. intros H.
  destruct (Json.get payload "choices" Json.Null) as [e|found] eqn:Hget; [done|].
  apply get_inr in Hget as (items & -> & ->).
  destruct (Json.truthy (default Json.Null (Json.assoc "choices" items))) eqn:Hfound.
  2:{ rewrite or_else_falsy in H by done. done. }
  rewrite or_else_truthy in * by done. rewrite Hfound in *. cbn [negb] in *.
  apply truthy_default in Hfound as (choices & Hc & Hct). rewrite Hc in *.
  cbn [from_option] in *; unfold Datatypes.id in *.
  destruct (Json.first choices) as [e|c] eqn:Hfirst; [done|].
  destruct (Json.get c "delta" Json.Null) as [e|d] eqn:Hgd; [done|].
  apply get_inr in Hgd as (choice & -> & ->).
  assert (exists others, choices = Json.List (Json.Dict choice :: others)) as [others ->].
  { destruct choices as [| | | |[|??]|[|??]|?]; try done; cbn in Hfirst; simplify_eq.
    by eexists. }
  destruct (Json.truthy (default Json.Null (Json.assoc "delta" choice))) eqn:Hd.
  2:{ rewrite or_else_falsy in H by done. done. }
  rewrite or_else_truthy in * by done.
  apply truthy_default in Hd as (d & Hd & Hdt). rewrite Hd in *.
  cbn [from_option] in *; unfold Datatypes.id in *.
  destruct (Json.get d "content" Json.Null) as [e|c] eqn:Hgc; [done|].
  apply get_inr in Hgc as (delta & -> & ->).
  destruct (Json.truthy (default Json.Null (Json.assoc "content" delta))) eqn:Hcontent.
  2:{ rewrite or_else_falsy in H by done. done. }
  rewrite or_else_truthy in * by done.
  apply truthy_default in Hcontent as (content & Hcontent & Hcontentt).
  rewrite Hcontent in *. cbn [from_option] in *; unfold Datatypes.id in *.
  by exists items, choice, others, delta, content.
Qed.

Lemma token_comes_from_first_choice_witness :
  _extract_delta Samples.lib0 (Samples.chunk_json "Hel") <> ""
  /\ exists items choice others delta content,
       Samples.chunk_json "Hel" = Json.Dict items
       /\ Json.assoc "choices" items = Some (Json.List (Json.Dict choice :: others))
       /\ Json.assoc "delta" choice = Some (Json.Dict delta)
       /\ Json.assoc "content" delta = Some content
       /\ Json.truthy content = true
       /\ _extract_delta Samples.lib0 (Samples.chunk_json "Hel")
          = py_str Samples.lib0 content.
Proof.
  split; [done|].
  apply (token_comes_from_first_choice Samples.lib0 (Samples.chunk_json "Hel")). done.
Defined.

(** ** The lines of a stream *)

Lemma tokens_of_lines_cons (L : pylib) (raw : string) (rest : list string) :
  tokens_of_lines L (raw :: rest)
  = if negb (truthy raw) then tokens_of_lines L rest
    else match token_of_line L raw with
         | None => ([], true)
         | Some None => tokens_of_lines L rest
         | Some (Some token) =>
             (token :: fst (tokens_of_lines L rest), snd (tokens_of_lines L rest))
         end.
Proof.
  cbn [tokens_of_lines]. destruct (negb (truthy raw)); [done|].
  destruct (token_of_line L raw) as [[token|]|]; try done.
  by destruct (tokens_of_lines L rest).
Qed.

Lemma token_of_line_yields (L : pylib) (raw token : string) :
  token_of_line L raw = Some (Some token) ->
  token <> ""
  /\ exists text payload,
       decode L raw = Some text
       /\ json_loads L (data_of text) = Parsed payload
       /\ token = _extract_delta L payload.
Proof.
  unfold token_of_line. intros H.
  destruct (decode L raw) as [text|] eqn:Hd; [|done]. cbv zeta in H.
  destruct (negb (truthy (data_of text)) || String.eqb (data_of text) "[DONE]"); [done|].
  destruct (json_loads L (data_of text)) as [payload| |] eqn:Hj; [|done|done].
  destruct (truthy (_extract_delta L payload)) eqn:Ht; [|done].
  injection H as <-. split; [by apply truthy_true|]. by exists text, payload.
Qed.

(** X17.  Every token [stream_completion] yields is a non-empty string,
    and is what [_extract_delta] reads in the JSON data of one of the lines
    received: the line decoded, stripped of white space and of its [data:]
    prefix. *)
Theorem yielded_tokens (L : pylib) (raw_lines : list string) :
  Forall (fun token =>
            token <> ""
            /\ exists raw text payload,
                 raw ∈ raw_lines
                 /\ decode L raw = Some text
                 /\ json_loads L (data_of text) = Parsed payload
                 /\ token = _extract_delta L payload)
         (fst (tokens_of_lines L raw_lines)).
Proof.
  induction raw_lines as [|raw rest IH]; [by constructor|].
  assert (Hrest :
    Forall (fun token =>
              token <> ""
              /\ exists raw' text payload,
                   raw' ∈ raw :: rest
                   /\ decode L raw' = Some text
                   /\ json_loads L (data_of text) = Parsed payload
                   /\ token = _extract_delta L payload)
           (fst (tokens_of_lines L rest))).
  { eapply Forall_impl; [exact IH|].
    intros token (Hne & raw' & text & payload & Hin & H).
    split; [done|]. exists raw', text, payload. split; [by apply list_elem_of_further|done]. }
  rewrite tokens_of_lines_cons.
  destruct (negb (truthy raw)); [done|].
  destruct (token_of_line L raw) as [[token|]|] eqn:Hline; [|done|by constructor].
  cbn [fst]. constructor; [|done].
  apply token_of_line_yields in Hline as (Hne & text & payload & Hd & Hj & ->).
  split; [done|]. exists raw, text, payload. split; [by apply list_elem_of_here|done].
Qed.

Lemma tokens_of_lines_app (L : pylib) (before after : list string) :
  tokens_of_lines L (before ++ after)
  = if snd (tokens_of_lines L before) then tokens_of_lines L before
    else (fst (tokens_of_lines L before) ++ fst (tokens_of_lines L after),
          snd (tokens_of_lines L after)).
Proof.
  induction before as [|raw before IH].
  { cbn. by destruct (tokens_of_lines L after). }
  change ((raw :: before) ++ after) with (raw :: (before ++ after)).
  rewrite !tokens_of_lines_cons.
  destruct (negb (truthy raw)); [done|].
  destruct (token_of_line L raw) as [[token|]|]; [|done|done].
  rewrite IH.
  destruct (tokens_of_lines L before) as [tokens []]; done.
Qed.

(** X18.  A line that yields nothing and raises nothing is passed over and
    ends nothing: the stream gives the same tokens, and ends the same way,
    as if the line had not been sent.  This holds of an empty line, of a
    line whose data is empty or is the marker [[DONE]], of data on which
    [json.loads] raises JSONDecodeError, and of a payload in which
    [_extract_delta] finds no token; so lines that follow [[DONE]] are still
    read.  (Data on which [json.loads] raises another exception is not
    such a line: that exception leaves the loop.) *)
Theorem skipped_line_does_not_end_stream (L : pylib) (before after : list string)
    (raw : string) :
  raw = ""
  \/ (exists text,
        decode L raw = Some text
        /\ (data_of text = ""
            \/ data_of text = "[DONE]"
            \/ json_loads L (data_of text) = JSONDecodeError
            \/ exists payload,
                 json_loads L (data_of text) = Parsed payload
                 /\ _extract_delta L payload = "")) ->
  tokens_of_lines L (before ++ raw :: after) = tokens_of_lines L (before ++ after).
Proof.
  intros H.
  assert (Hskip : tokens_of_lines L (raw :: after) = tokens_of_lines L after).
  { rewrite tokens_of_lines_cons.
    destruct H as [-> | (text & Hd & H)]; [done|].
    destruct (negb (truthy raw)); [done|].
    unfold token_of_line. rewrite Hd. cbv zeta.
    destruct H as [-> | [-> | [H | (payload & Hj & He)]]]; [done|done| |].
    - destruct (_ || _); [done|]. by rewrite H.
    - destruct (_ || _); [done|]. by rewrite Hj, He. }
  by rewrite !tokens_of_lines_app, Hskip.
Qed.

Lemma skipped_line_does_not_end_stream_witness :
  tokens_of_lines Samples.lib0
    (["data: " +:+ Samples.chunk_text "Hel"] ++ "data: [DONE]"
       :: ["data: " +:+ Samples.chunk_text "lo"])
  = tokens_of_lines Samples.lib0
      (["data: " +:+ Samples.chunk_text "Hel"] ++ ["data: " +:+ Samples.chunk_text "lo"])
  /\ tokens_of_lines Samples.lib0
       (["data: " +:+ Samples.chunk_text "Hel"] ++ ["data: " +:+ Samples.chunk_text "lo"])
     = (["Hel"; "lo"], false).
Proof.
  split; [|reflexivity].
  apply skipped_line_does_not_end_stream.
  right. exists "data: [DONE]". split; [reflexivity|]. right. left. reflexivity.
Defined.

(** X19.  A line that is not UTF-8 ends the stream by the exception of
    [decode]: the tokens of the lines before it have been yielded, and no
    line after it is read. *)
Theorem undecodable_line_ends_stream (L : pylib) (before after : list string)
    (raw : string) :
  raw <> "" ->
  decode L raw = None ->
  tokens_of_lines L (before ++ raw :: after)
  = (fst (tokens_of_lines L before), true).
Proof.
  intros Hne Hd. rewrite tokens_of_lines_app, tokens_of_lines_cons.
  apply truthy_true in Hne. rewrite Hne. cbn [negb].
  unfold token_of_line. rewrite Hd. cbn [fst snd]. rewrite app_nil_r.
  destruct (tokens_of_lines L before) as [tokens []]; done.
Qed.

Lemma undecodable_line_ends_stream_witness :
  tokens_of_lines Samples.lib0
    (["data: " +:+ Samples.chunk_text "Hel"] ++ String "255"%char ""
       :: ["data: " +:+ Samples.chunk_text "lo"])
  = (["Hel"], true).
Proof.
  apply (undecodable_line_ends_stream Samples.lib0
           ["data: " +:+ Samples.chunk_text "Hel"] ["data: " +:+ Samples.chunk_text "lo"]
           (String "255"%char "")); [done | reflexivity].
Defined.

(** X24.  A line on whose data [json.loads] raises an exception other than
    JSONDecodeError ends the stream by that exception, which the [except]
    of the loop does not catch: the tokens of the lines before it have been
    yielded, and no line after it is read. *)
Theorem uncaught_parse_error_ends_stream (L : pylib) (before after : list string)
    (raw text : string) :
  raw <> "" ->
  decode L raw = Some text ->
  data_of text <> "" ->
  data_of text <> "[DONE]" ->
  json_loads L (data_of text) = OtherError ->
  tokens_of_lines L (before ++ raw :: after)
  = (fst (tokens_of_lines L before), true).
Proof.
  intros Hne Hd Hdata Hdone Hj. rewrite tokens_of_lines_app, tokens_of_lines_cons.
  apply truthy_true in Hne. rewrite Hne. cbn [negb].
  unfold token_of_line. rewrite Hd. cbv zeta.
  apply truthy_true in Hdata. rewrite Hdata. cbn [negb orb].
  apply String.eqb_neq in Hdone. rewrite Hdone, Hj. cbn [fst snd]. rewrite app_nil_r.
  destruct (tokens_of_lines L before) as [tokens []]; done.
Qed.

Lemma uncaught_parse_error_ends_stream_witness :
  tokens_of_lines Samples.lib0
    (["data: " +:+ Samples.chunk_text "Hel"] ++ ("data: " +:+ Samples.long_number)
       :: ["data: " +:+ Samples.chunk_text "lo"])
  = (["Hel"], true).
Proof.
  apply (uncaught_parse_error_ends_stream Samples.lib0
           ["data: " +:+ Samples.chunk_text "Hel"] ["data: " +:+ Samples.chunk_text "lo"]
           ("data: " +:+ Samples.long_number) ("data: " +:+ Samples.long_number)).
  - vm_compute. discriminate.
  - vm_compute. reflexivity.
  - vm_compute. discriminate.
  - vm_compute. discriminate.
  - vm_compute. reflexivity.
Defined.

(** ** The completion that is not streamed *)

(** X20.  [complete] returns the content of the message of the first
    choice, and the empty string in place of a content that is falsy (null,
    an empty string). *)
Theorem completion_reads_first_choice
    (items choice message : list (string * Json.t)) (others : list Json.t)
    (content : Json.t) :
  Json.assoc "choices" items = Some (Json.List (Json.Dict choice :: others)) ->
  Json.assoc "message" choice = Some (Json.Dict message) ->
  Json.assoc "content" message = Some content ->
  completion_of (Json.Dict items)
  = inr (if Json.truthy content then content else Json.Str "").
Proof.
  intros Hc Hm Hs. unfold completion_of.
  rewrite get_dict, Hc. cbn [from_option]; unfold Datatypes.id.
  rewrite or_else_truthy by done. cbn [Json.first].
  rewrite get_dict, Hm. cbn [from_option]; unfold Datatypes.id.
  destruct message as [|item message]; [done|].
  rewrite or_else_truthy by done. rewrite get_dict, Hs. done.
Qed.

Lemma completion_reads_first_choice_witness :
  completion_of
    (Json.Dict [("choices",
                 Json.List [Json.Dict [("message",
                                        Json.Dict [("role", Json.Str "assistant");
                                                   ("content", Json.Str "a summary")])]])])
  = inr (Json.Str "a summary").
Proof.
  eapply (completion_reads_first_choice _ _ _ _ (Json.Str "a summary")); reflexivity.
Defined.

(** X21.  Of an answer without choices (the key missing, null, or an
    empty list) [complete] returns the empty string rather than raising. *)
Theorem completion_without_choices (items : list (string * Json.t)) :
  Json.truthy (default Json.Null (Json.assoc "choices" items)) = false ->
  completion_of (Json.Dict items) = inr (Json.Str "").
Proof.
  intros H. unfold completion_of. rewrite get_dict.
  by rewrite or_else_falsy.
Qed.

Lemma completion_without_choices_witness :
  completion_of (Json.Dict [("error", Json.Str "overloaded"); ("choices", Json.List [])])
  = inr (Json.Str "").
Proof.
  apply completion_without_choices. reflexivity.
Defined.

End ClientFacts.

Module ServerFacts.

Import ChatSessionState ChatService ChatSpec ChatFacts TurnFacts Server ServerSpec.

Section Flags.

Variables (flag_c flag_s flag_i : bool) (k : Z).

Lemma fetch_context_reflag (B : backend) self sid msg kw w b n :
  enable_context kw = Some b ->
  top_k kw = Some n ->
  n <> 0 ->
  fetch_context B (reflag flag_c flag_s flag_i k self) sid msg kw w
  = let '(found, (self', w')) := fetch_context B self sid msg kw w in
    (found, (reflag flag_c flag_s flag_i k self', w')).
Proof.
  intros Hb Hn Hn0. unfold fetch_context. cbn [reflag with_config config vector_store_provider].
  rewrite Hb, Hn. cbn [_flag or_int].
  apply Z.eqb_neq in Hn0. rewrite Hn0.
  destruct (kw_vector_store_dir kw) as [dir|]; [|done].
  destruct (vector_store_provider self) as [provider|]; [|done].
  destruct (b && truthy dir); [|done].
  by destruct (VectorStoreContextProvider.build_context _ _ _ _ _ _) as [[found|e] [p' w']].
Qed.

Lemma stream_chat_reflag (B : backend) self sid msg kw w b n :
  enable_context kw = Some b ->
  top_k kw = Some n ->
  n <> 0 ->
  stream_chat B sid msg kw (reflag flag_c flag_s flag_i k self, w)
  = let '(r, (self', w')) := stream_chat B sid msg kw (self, w) in
    (r, (reflag flag_c flag_s flag_i k self', w')).
Proof.
  intros Hb Hn Hn0. unfold stream_chat.
  destruct (negb (truthy sid)); [done|].
  destruct (negb (truthy msg) || negb (truthy (strip msg))); [done|].
  change (sessions (reflag flag_c flag_s flag_i k self)) with (sessions self).
  destruct (sessions self !! sid) as [session|].
  - rewrite (fetch_context_reflag B self sid msg kw w b n) by done.
    destruct (fetch_context B self sid msg kw w) as [[ctx rs] [self2 w2]].
    change (config (reflag flag_c flag_s flag_i k self2))
      with (with_flags (config self2) flag_c flag_s flag_i k).
    change (_append_message (with_flags (config self2) flag_c flag_s flag_i k))
      with (_append_message (config self2)).
    change (_build_prompt (with_flags (config self2) flag_c flag_s flag_i k))
      with (_build_prompt (config self2)).
    change (_enforce_prompt_budget B
              (with_flags (config self2) flag_c flag_s flag_i k))
      with (_enforce_prompt_budget B (config self2)).
    change (ChatConfig.max_prompt_tokens
              (with_flags (config self2) flag_c flag_s flag_i k))
      with (ChatConfig.max_prompt_tokens (config self2)).
    by destruct (_enforce_prompt_budget B (config self2) _ _ _ w2)
      as [[prompt' truncated] [session3 w3]].
  - unfold _create_session. destruct (read_clock (time_time B) w) as [now w1].
    change (with_sessions (reflag flag_c flag_s flag_i k self) ?m) with (reflag flag_c flag_s flag_i k (with_sessions self m)).
    rewrite (fetch_context_reflag B _ sid msg kw w1 b n) by done.
    destruct (fetch_context B _ sid msg kw w1) as [[ctx rs] [self2 w2]].
    change (config (reflag flag_c flag_s flag_i k self2))
      with (with_flags (config self2) flag_c flag_s flag_i k).
    change (_append_message (with_flags (config self2) flag_c flag_s flag_i k))
      with (_append_message (config self2)).
    change (_build_prompt (with_flags (config self2) flag_c flag_s flag_i k))
      with (_build_prompt (config self2)).
    change (_enforce_prompt_budget B
              (with_flags (config self2) flag_c flag_s flag_i k))
      with (_enforce_prompt_budget B (config self2)).
    change (ChatConfig.max_prompt_tokens
              (with_flags (config self2) flag_c flag_s flag_i k))
      with (ChatConfig.max_prompt_tokens (config self2)).
    by destruct (_enforce_prompt_budget B (config self2) _ _ _ w2)
      as [[prompt' truncated] [session3 w3]].
Qed.

Lemma commit_reflag (B : backend) f reply self w b1 b2 :
  g_enable_summarisation f = Some b1 ->
  g_enable_intent_tracking f = Some b2 ->
  commit B f reply (reflag flag_c flag_s flag_i k self, w)
  = let '(self', w') := commit B f reply (self, w) in (reflag flag_c flag_s flag_i k self', w').
Proof.
  intros H1 H2. unfold commit.
  change (sessions (reflag flag_c flag_s flag_i k self)) with (sessions self).
  destruct (sessions self !! g_session_id f) as [session|]; [|done].
  change (config (reflag flag_c flag_s flag_i k self))
    with (with_flags (config self) flag_c flag_s flag_i k).
  change (_append_message (with_flags (config self) flag_c flag_s flag_i k))
    with (_append_message (config self)).
  destruct (read_clock (time_time B) w) as [now w1].
  rewrite H1, H2. cbn [_flag].
  change (_refresh_summary B (with_flags (config self) flag_c flag_s flag_i k))
    with (_refresh_summary B (config self)).
  change (_track_intent B (with_flags (config self) flag_c flag_s flag_i k))
    with (_track_intent B (config self)).
  destruct (if b1 then _ else _) as [session3 w2].
  by destruct (if b2 then _ else _) as [session4 w3].
Qed.

Lemma next_reflag (B : backend) g self w b1 b2 :
  g_enable_summarisation (closure g) = Some b1 ->
  g_enable_intent_tracking (closure g) = Some b2 ->
  next B g (reflag flag_c flag_s flag_i k self, w)
  = let '(out, (self', w')) := next B g (self, w) in (out, (reflag flag_c flag_s flag_i k self', w')).
Proof.
  intros H1 H2.
  assert (Hadvance : forall reply pending ending self w,
    advance B (closure g) reply pending ending (reflag flag_c flag_s flag_i k self, w)
    = let '(out, (self', w')) := advance B (closure g) reply pending ending (self, w) in
      (out, (reflag flag_c flag_s flag_i k self', w'))).
  { intros reply pending ending self0 w0. unfold advance.
    destruct pending as [|token rest]; [|done].
    destruct ending as [e|]; [done|].
    rewrite (commit_reflag B _ reply self0 w0 b1 b2) by done.
    by destruct (commit B (closure g) reply (self0, w0)) as [self' w']. }
  assert (Hstart : forall reply self w,
    start_stream B (closure g) reply (reflag flag_c flag_s flag_i k self, w)
    = let '(out, (self', w')) := start_stream B (closure g) reply (self, w) in
      (out, (reflag flag_c flag_s flag_i k self', w'))).
  { intros reply self0 w0. unfold start_stream.
    destruct (stream_completion B w0 _) as [tokens ending].
    apply Hadvance. }
  unfold next. destruct (position_of g) as [|reply|reply pending ending|].
  - destruct (g_truncated (closure g)); [done|].
    rewrite Hstart. by destruct (start_stream B _ _ _) as [[r p] [self' w']].
  - rewrite Hstart. by destruct (start_stream B _ _ _) as [[r p] [self' w']].
  - rewrite Hadvance. by destruct (advance B _ _ _ _ _) as [[r p] [self' w']].
  - done.
Qed.

Lemma next_closure (B : backend) g st :
  closure (snd (fst (next B g st))) = closure g.
Proof.
  unfold next.
  by destruct (match position_of g with NotStarted => _ | _ => _ end) as [[r p] st'].
Qed.

Lemma consume_reflag (B : backend) n : forall g self w b1 b2,
  g_enable_summarisation (closure g) = Some b1 ->
  g_enable_intent_tracking (closure g) = Some b2 ->
  consume B n g (reflag flag_c flag_s flag_i k self, w)
  = let '(out, (self', w')) := consume B n g (self, w) in (out, (reflag flag_c flag_s flag_i k self', w')).
Proof.
  induction n as [|n IH]; intros g self w b1 b2 H1 H2; [done|].
  rewrite !consume_S. rewrite (next_reflag B g self w b1 b2) by done.
  pose proof (next_closure B g (self, w)) as Hc.
  destruct (next B g (self, w)) as [[r g'] [self' w']]. cbn [fst snd] in Hc.
  destruct r as [x| |e]; [|done|done].
  rewrite (IH g' self' w' b1 b2) by (by rewrite Hc).
  by destruct (consume B n g' (self', w')) as [[xs c] [self'' w'']].
Qed.

Lemma serve_chat_reflag (B : backend) request n self w :
  0 < ChatRequest.top_k request ->
  serve_chat B request n (reflag flag_c flag_s flag_i k self, w)
  = let '(out, (self', w')) := serve_chat B request n (self, w) in (out, (reflag flag_c flag_s flag_i k self', w')).
Proof.
  intros Hk. unfold serve_chat, chat.
  rewrite (stream_chat_reflag B self _ _ (kwargs_of request) w
             (ChatRequest.enable_context request) (ChatRequest.top_k request))
    by (done || lia).
  destruct (stream_chat B _ _ (kwargs_of request) (self, w)) as [[g|e] [self1 w1]] eqn:Hs.
  - apply stream_chat_closure in Hs as (_ & _ & _ & H1 & H2).
    rewrite (consume_reflag B n g self1 w1 _ _ H1 H2).
    by destruct (consume B n g (self1, w1)) as [[xs c] [self2 w2]].
  - by destruct e.
Qed.

End Flags.

(** X22.  A request that passed the validation of [ChatRequest] is never
    refused by [POST /chat]: the handler returns the stream, not yet started,
    and from then on [GET /chat/history] finds the session.  The validator
    rejects the white-space session ids that [stream_chat] itself would
    take. *)
Theorem accepted_request_is_streamed (B : backend) (request : ChatRequest.t)
    (self : ChatService.t) (w : world) :
  ChatRequest.accepted request = true ->
  all_space (ChatRequest.session_id request) = false
  /\ exists stream self' w' payload,
       chat B request (self, w) = (Response stream, (self', w'))
       /\ position_of stream = NotStarted
       /\ chat_history (ChatRequest.session_id request) self' = Ok (Response payload).
Proof.
  unfold ChatRequest.accepted, ChatRequest._not_empty. intros H.
  destruct (negb (truthy (ChatRequest.session_id request))
            || negb (truthy (strip (ChatRequest.session_id request)))) eqn:Hsid; [done|].
  destruct (negb (truthy (ChatRequest.message request))
            || negb (truthy (strip (ChatRequest.message request)))) eqn:Hmsg; [done|].
  apply orb_false_elim in Hsid as [Hsid Hsid'], Hmsg as [_ Hmsg].
  apply negb_false_iff, truthy_true in Hsid, Hsid', Hmsg.
  split.
  { destruct (all_space (ChatRequest.session_id request)) eqn:Hspace; [|done].
    by apply strip_empty in Hspace. }
  destruct (stream_chat_eager B self w _ _ (kwargs_of request) Hsid Hmsg)
    as (g & self1 & w1 & session1 & Hcall & Hpos & _ & _ & _ & _ & Hfound & _).
  exists g, self1, w1, session1. unfold chat, chat_history, get_history.
  by rewrite Hcall, Hfound.
Qed.

Lemma accepted_request_is_streamed_witness :
  ChatRequest.accepted Samples.request0 = true
  /\ all_space (ChatRequest.session_id Samples.request0) = false
  /\ exists stream self' w' payload,
       chat Samples.B0 Samples.request0 (create_app None, Samples.w0)
       = (Response stream, (self', w'))
       /\ position_of stream = NotStarted
       /\ chat_history (ChatRequest.session_id Samples.request0) self'
          = Ok (Response payload).
Proof.
  split; [reflexivity|].
  apply (accepted_request_is_streamed Samples.B0 Samples.request0 (create_app None)
           Samples.w0).
  reflexivity.
Defined.

(** X23.  The options [--disable_context], [--disable_summarisation],
    [--disable_intents] and [--context_top_k] of the server have no effect
    on [POST /chat]: the handler passes the request's own settings, which a
    request always has, so two servers started with command lines that
    differ in these options only give, from the same sessions and caches,
    the same answer to the same request, leave the same sessions and caches,
    and make the same outside calls. *)
Theorem command_line_flags_do_not_reach_chat (B : backend) (a a' : args)
    (request : ChatRequest.t) (n : nat) (self : ChatService.t) (w : world) :
  max_history_messages a' = max_history_messages a ->
  0 < ChatRequest.top_k request ->
  let run a := serve_chat B request n (with_config self (chat_cfg a), w) in
  fst (run a') = fst (run a)
  /\ sessions (fst (snd (run a'))) = sessions (fst (snd (run a)))
  /\ vector_store_provider (fst (snd (run a')))
     = vector_store_provider (fst (snd (run a)))
  /\ snd (snd (run a')) = snd (snd (run a)).
Proof.
  intros Hcap Hk run. subst run. cbv beta.
  assert (with_config self (chat_cfg a')
          = reflag (negb (disable_context a')) (negb (disable_summarisation a'))
              (negb (disable_intents a')) (context_top_k a')
              (with_config self (chat_cfg a))) as ->.
  { unfold reflag, with_config, with_flags, chat_cfg. cbn. by rewrite Hcap. }
  rewrite serve_chat_reflag by done.
  by destruct (serve_chat B request n (with_config self (chat_cfg a), w))
    as [out [self' w']].
Qed.

Lemma command_line_flags_do_not_reach_chat_witness :
  let run a :=
    serve_chat Samples.B0 Samples.request0 5
      (with_config (create_app None) (chat_cfg a), Samples.w0) in
  fst (run Samples.args_off) = fst (run Samples.args0)
  /\ sessions (fst (snd (run Samples.args_off))) = sessions (fst (snd (run Samples.args0)))
  /\ vector_store_provider (fst (snd (run Samples.args_off)))
     = vector_store_provider (fst (snd (run Samples.args0)))
  /\ snd (snd (run Samples.args_off)) = snd (snd (run Samples.args0)).
Proof.
  apply (command_line_flags_do_not_reach_chat Samples.B0 Samples.args0 Samples.args_off
           Samples.request0 5 (create_app None) Samples.w0); [reflexivity | reflexivity].
Defined.

End ServerFacts.
